(** * Tool servers and their streaming-HTTP client: model and properties

    A shallow embedding of the Python tool servers and of the test client
    of the repository:

    - [src/weather/test_weather_sse.py]: the streaming-HTTP client
      [MCPSSEClient] (module [SSEClient]);
    - [src/weather/weather_mcp_server.py]: the tool handler [call_tool]
      (module [WeatherServer]);
    - [src/stock-utility/stockUtilityMCP.py]: the CSV-backed ledger
      (module [StockLedger]);
    - [src/RAG/mcp_chroma_server.py]: [document_search]
      (module [ChromaSearch]);
    - [src/weather/weather_mcp_sse_server.py]: the tools [get_weather] and
      [get_forecast] (module [WeatherSSEServer]);
    - [src/weather/test_weather_mcp_advanced.py]: the command-line client
      (module [WeatherMCPClient]);
    - [src/RAG/pdf_to_chromadb.py]: the ingestion of the PDF files
      (module [PdfIngest]).

    Part I gives the definitions, Part II the lemmas and theorems, Part III
    further properties of the code. *)

From Stdlib Require Import ZArith String Ascii List Bool Lia Floats Uint63 DecimalString.
From stdpp Require Import gmap strings sorting.

(* ===================================================================== *)
(** * Part I: the model                                                   *)
(* ===================================================================== *)

(** ** Python [str] methods used by the sources

    Strings are byte strings; the helpers below are Python's [str] methods
    on ASCII text. *)
Module PyStr.

(** [c.isspace()] for an ASCII character: tab to carriage return,
    the separators 0x1c to 0x1f, and the blank. *)
Definition isspace (c : ascii) : bool :=
  let n := nat_of_ascii c in
  (Nat.leb 9 n && Nat.leb n 13) || (Nat.leb 28 n && Nat.leb n 32).

Fixpoint lstrip (s : string) : string :=
  match s with
  | EmptyString => EmptyString
  | String c r => if isspace c then lstrip r else s
  end.

Fixpoint rstrip (s : string) : string :=
  match s with
  | EmptyString => EmptyString
  | String c r =>
      match rstrip r with
      | EmptyString => if isspace c then EmptyString else String c EmptyString
      | r' => String c r'
      end
  end.

(** [s.strip()] *)
Definition strip (s : string) : string := rstrip (lstrip s).

(** [s.startswith(p)] *)
Fixpoint startswith (s p : string) : bool :=
  match p with
  | EmptyString => true
  | String a p' =>
      match s with
      | EmptyString => false
      | String b s' => Ascii.eqb a b && startswith s' p'
      end
  end.

(** [s[n:]] *)
Fixpoint slice_from (n : nat) (s : string) : string :=
  match n, s with
  | O, _ => s
  | S _, EmptyString => EmptyString
  | S m, String _ r => slice_from m r
  end.

(** [p in s] for two strings: [p] occurs in [s]. *)
Fixpoint contains (s p : string) : bool :=
  startswith s p
  || match s with
     | EmptyString => false
     | String _ r => contains r p
     end.

Definition upper_char (c : ascii) : ascii :=
  let n := nat_of_ascii c in
  if Nat.leb 97 n && Nat.leb n 122 then ascii_of_nat (n - 32) else c.

(** [s.upper()] *)
Fixpoint upper (s : string) : string :=
  match s with
  | EmptyString => EmptyString
  | String c r => String (upper_char c) (upper r)
  end.

(** Truth value of a string: [bool(s)]. *)
Definition truthy (s : string) : bool :=
  match s with EmptyString => false | String _ _ => true end.

(** [str(n)] for an integer. *)
Definition of_int (z : Z) : string := NilZero.string_of_int (Z.to_int z).

Definition lower_char (c : ascii) : ascii :=
  let n := nat_of_ascii c in
  if Nat.leb 65 n && Nat.leb n 90 then ascii_of_nat (n + 32) else c.

(** [s.lower()] *)
Fixpoint lower (s : string) : string :=
  match s with
  | EmptyString => EmptyString
  | String c r => String (lower_char c) (lower r)
  end.

(** [s[:n]] *)
Fixpoint slice_to (n : nat) (s : string) : string :=
  match n, s with
  | O, _ => EmptyString
  | S _, EmptyString => EmptyString
  | S m, String c r => String c (slice_to m r)
  end.

(** [sep.join(parts)] *)
Fixpoint join (sep : string) (parts : list string) : string :=
  match parts with
  | [] => EmptyString
  | [p] => p
  | p :: rest => p +:+ sep +:+ join sep rest
  end.

(** Every character of [s] is a blank. *)
Fixpoint all_space (s : string) : bool :=
  match s with
  | EmptyString => true
  | String c r => isspace c && all_space r
  end.

(** [os.path.basename(path)]: what follows the last slash. *)
Fixpoint basename (path : string) : string :=
  match path with
  | EmptyString => EmptyString
  | String c r =>
      if contains r "/" then basename r
      else if Ascii.eqb c "/"%char then r
      else path
  end.

End PyStr.

(** ** JSON values as Python objects *)
Module Json.

#[local] Set Warnings "-register-all".

(** What [json.loads] builds: [None], [bool], [int], [float] (kept as its
    literal), [str], [list] and [dict] (the members in document order). *)
Inductive json : Type :=
| JNull
| JBool (b : bool)
| JInt (z : Z)
| JFloat (lit : string)
| JStr (s : string)
| JArr (xs : list json)
| JObj (members : list (string * json)).

(** The exceptions the modelled code can meet. *)
Inductive transport_failure := ConnectionRefused | StreamClosed | TimedOut.

Inductive exn :=
| TypeError
| AttributeError
| TransportError (f : transport_failure).

(** [d[k]] on the members of an object: a later member of the same name
    replaces an earlier one, as in a [dict] built in document order. *)
Fixpoint obj_get (k : string) (members : list (string * json)) : option json :=
  match members with
  | [] => None
  | (k', v) :: r =>
      match obj_get k r with
      | Some v' => Some v'
      | None => if String.eqb k k' then Some v else None
      end
  end.

Definition is_str (k : string) (v : json) : bool :=
  match v with JStr s => String.eqb k s | _ => false end.

(** [k in v] for a string [k]: key of a dict, element of a list,
    substring of a string; [TypeError] on the other objects. *)
Definition py_in (k : string) (v : json) : exn + bool :=
  match v with
  | JObj members => inr (match obj_get k members with Some _ => true | None => false end)
  | JArr xs => inr (existsb (is_str k) xs)
  | JStr s => inr (PyStr.contains s k)
  | JNull | JBool _ | JInt _ | JFloat _ => inl TypeError
  end.

(** [v.get(k, default)]: only a dict has the method. *)
Definition py_get (v : json) (k : string) (default : json) : exn + json :=
  match v with
  | JObj members => inr (match obj_get k members with Some x => x | None => default end)
  | _ => inl AttributeError
  end.

(** [v] is a dict with the key [k]. *)
Definition has_key (k : string) (v : json) : bool :=
  match v with
  | JObj members => match obj_get k members with Some _ => true | None => false end
  | _ => false
  end.

(** [v[k]] when [v] is a dict that has the key. *)
Definition member (k : string) (v : json) : option json :=
  match v with JObj members => obj_get k members | _ => None end.

(** Structural equality of two values, as a test. *)
Fixpoint json_eqb (a b : json) : bool :=
  match a, b with
  | JNull, JNull => true
  | JBool x, JBool y => Bool.eqb x y
  | JInt x, JInt y => Z.eqb x y
  | JFloat x, JFloat y => String.eqb x y
  | JStr x, JStr y => String.eqb x y
  | JArr xs, JArr ys =>
      (fix go (xs ys : list json) : bool :=
         match xs, ys with
         | [], [] => true
         | x :: xs', y :: ys' => json_eqb x y && go xs' ys'
         | _, _ => false
         end) xs ys
  | JObj ms, JObj ns =>
      (fix go (ms ns : list (string * json)) : bool :=
         match ms, ns with
         | [], [] => true
         | (k, x) :: ms', (l, y) :: ns' => String.eqb k l && json_eqb x y && go ms' ns'
         | _, _ => false
         end) ms ns
  | _, _ => false
  end.

End Json.

(** ** A decoder for JSON text

    [json.loads] is the standard library's; the client below takes the
    decoder as a parameter.  [JsonText.loads] is a concrete decoder for the
    JSON grammar (no [\u] escapes) and for the three constants [NaN],
    [Infinity] and [-Infinity], which [json.loads] accepts although they
    are not JSON and decodes to a [float]; it is used where a property is
    evaluated on concrete stream lines. *)
Module JsonText.
Import Json.

Definition quote : ascii := "034"%char.
Definition backslash : ascii := "092"%char.

(** The text [s] between two quotation marks. *)
Definition quoted (s : string) : string :=
  String quote (s +:+ String quote EmptyString).

Definition is_ws (c : ascii) : bool :=
  match nat_of_ascii c with
  | 32 | 9 | 10 | 13 => true
  | _ => false
  end.

Fixpoint skip_ws (s : list ascii) : list ascii :=
  match s with
  | c :: r => if is_ws c then skip_ws r else s
  | [] => []
  end.

Definition is_digit (c : ascii) : bool :=
  let n := nat_of_ascii c in Nat.leb 48 n && Nat.leb n 57.

Fixpoint take_digits (s : list ascii) : list ascii * list ascii :=
  match s with
  | c :: r =>
      if is_digit c then let '(ds, rest) := take_digits r in (c :: ds, rest)
      else ([], s)
  | [] => ([], [])
  end.

Definition digits_value (ds : list ascii) : Z :=
  fold_left (fun acc c => (10 * acc + Z.of_nat (nat_of_ascii c - 48))%Z) ds 0%Z.

(** The characters of a string literal after its opening quotation mark. *)
Fixpoint string_body (s : list ascii) : option (string * list ascii) :=
  match s with
  | [] => None
  | c :: r =>
      if Ascii.eqb c quote then Some (EmptyString, r)
      else if Ascii.eqb c backslash then
        match r with
        | e :: r' =>
            let unescaped :=
              if Ascii.eqb e quote then Some quote
              else if Ascii.eqb e backslash then Some backslash
              else match e with
                   | "/"%char => Some "/"%char
                   | "n"%char => Some "010"%char
                   | "t"%char => Some "009"%char
                   | "r"%char => Some "013"%char
                   | "b"%char => Some "008"%char
                   | "f"%char => Some "012"%char
                   | _ => None
                   end in
            match unescaped, string_body r' with
            | Some u, Some (body, rest) => Some (String u body, rest)
            | _, _ => None
            end
        | [] => None
        end
      else if Nat.ltb (nat_of_ascii c) 32 then None
      else match string_body r with
           | Some (body, rest) => Some (String c body, rest)
           | None => None
           end
  end.

(** A number: an integer literal gives [JInt], one with a fraction or an
    exponent gives [JFloat] with its text. *)
Definition number (s : list ascii) : option (json * list ascii) :=
  let '(neg, s1) := match s with "-"%char :: r => (true, r) | _ => (false, s) end in
  let '(ds, s2) := take_digits s1 in
  match ds with
  | [] => None
  | d :: more =>
      if Ascii.eqb d "0"%char && negb (Nat.eqb (length more) 0) then None
      else
        let '(frac, s3) :=
          match s2 with
          | "."%char :: r => let '(fs, r') := take_digits r in
                             (Some ("."%char :: fs), if Nat.eqb (length fs) 0 then s2 else r')
          | _ => (None, s2)
          end in
        let '(expo, s4) :=
          match s3 with
          | e :: r =>
              if Ascii.eqb e "e"%char || Ascii.eqb e "E"%char then
                let '(sign, r1) := match r with
                                   | "+"%char :: r' => (["+"%char], r')
                                   | "-"%char :: r' => (["-"%char], r')
                                   | _ => ([], r)
                                   end in
                let '(es, r2) := take_digits r1 in
                if Nat.eqb (length es) 0 then (None, s3) else (Some (e :: sign ++ es), r2)
              else (None, s3)
          | [] => (None, s3)
          end in
        match frac, expo with
        | None, None =>
            Some (JInt (if neg then - digits_value ds else digits_value ds)%Z, s4)
        | _, _ =>
            let text := (if neg then ["-"%char] else []) ++ ds
                        ++ default [] frac ++ default [] expo in
            match frac with
            | Some ["."%char] => None
            | _ => Some (JFloat (string_of_list_ascii text), s4)
            end
        end
  end.

(** A value; [NaN], [Infinity] and [-Infinity] are floats, as in
    [json.loads]. *)
Fixpoint value (fuel : nat) (s : list ascii) : option (json * list ascii) :=
  match fuel with
  | O => None
  | S fuel =>
      match skip_ws s with
      | "{"%char :: r =>
          match skip_ws r with
          | "}"%char :: r' => Some (JObj [], r')
          | r' => match members fuel r' with
                  | Some (ms, rest) => Some (JObj ms, rest)
                  | None => None
                  end
          end
      | "["%char :: r =>
          match skip_ws r with
          | "]"%char :: r' => Some (JArr [], r')
          | r' => match elements fuel r' with
                  | Some (xs, rest) => Some (JArr xs, rest)
                  | None => None
                  end
          end
      | "t"%char :: "r"%char :: "u"%char :: "e"%char :: r => Some (JBool true, r)
      | "f"%char :: "a"%char :: "l"%char :: "s"%char :: "e"%char :: r => Some (JBool false, r)
      | "n"%char :: "u"%char :: "l"%char :: "l"%char :: r => Some (JNull, r)
      | "N"%char :: "a"%char :: "N"%char :: r => Some (JFloat "NaN", r)
      | "I"%char :: "n"%char :: "f"%char :: "i"%char :: "n"%char :: "i"%char
        :: "t"%char :: "y"%char :: r => Some (JFloat "Infinity", r)
      | "-"%char :: "I"%char :: "n"%char :: "f"%char :: "i"%char :: "n"%char
        :: "i"%char :: "t"%char :: "y"%char :: r => Some (JFloat "-Infinity", r)
      | c :: r =>
          if Ascii.eqb c quote then
            match string_body r with
            | Some (str, rest) => Some (JStr str, rest)
            | None => None
            end
          else number (c :: r)
      | [] => None
      end
  end
with elements (fuel : nat) (s : list ascii) : option (list json * list ascii) :=
  match fuel with
  | O => None
  | S fuel =>
      match value fuel s with
      | Some (x, rest) =>
          match skip_ws rest with
          | ","%char :: r =>
              match elements fuel r with
              | Some (xs, rest') => Some (x :: xs, rest')
              | None => None
              end
          | "]"%char :: r => Some ([x], r)
          | _ => None
          end
      | None => None
      end
  end
with members (fuel : nat) (s : list ascii) : option (list (string * json) * list ascii) :=
  match fuel with
  | O => None
  | S fuel =>
      match skip_ws s with
      | c :: r =>
          if Ascii.eqb c quote then
            match string_body r with
            | Some (k, rest) =>
                match skip_ws rest with
                | ":"%char :: r1 =>
                    match value fuel r1 with
                    | Some (x, rest1) =>
                        match skip_ws rest1 with
                        | ","%char :: r2 =>
                            match members fuel r2 with
                            | Some (ms, rest2) => Some ((k, x) :: ms, rest2)
                            | None => None
                            end
                        | "}"%char :: r2 => Some ([(k, x)], r2)
                        | _ => None
                        end
                    | None => None
                    end
                | _ => None
                end
            | None => None
            end
          else None
      | [] => None
      end
  end.

(** [json.loads(text)]: one value, blanks around it, nothing after it;
    [None] stands for [json.JSONDecodeError]. *)
Definition loads (text : string) : option json :=
  let s := list_ascii_of_string text in
  match value (2 * length s + 2) s with
  | Some (v, rest) => match skip_ws rest with [] => Some v | _ => None end
  | None => None
  end.

End JsonText.

(** ** The streaming-HTTP client ([src/weather/test_weather_sse.py]) *)
Module SSEClient.
Import Json.

(** The fields of [MCPSSEClient] set by [__init__]. *)
Record MCPSSEClient := {
  base_url : string;
  message_id : Z;
  session_url : option string;
  initialized : bool
}.

(** [MCPSSEClient(base_url)] *)
Definition new_client (url : string) : MCPSSEClient :=
  {| base_url := url; message_id := 0; session_url := None; initialized := false |}.

(** [_next_id]: increments the counter and returns it. *)
Definition _next_id (c : MCPSSEClient) : Z * MCPSSEClient :=
  let n := (message_id c + 1)%Z in
  (n, {| base_url := base_url c; message_id := n;
         session_url := session_url c; initialized := initialized c |}).

(** What the event stream delivers: a text line, or the failure of the
    read ([aiter_lines] raises). *)
Inductive stream_item :=
| Line (text : string)
| Broken (f : transport_failure).

(** Opening the GET stream: it raises, or it gives a status code and the
    items of the stream. *)
Inductive connection :=
| Refused (f : transport_failure)
| Opened (status : Z) (items : list stream_item).

(** The server side of one call: what the GET gives, and which POST (by
    its rank among the POSTs of the call, from 0) fails in transport. *)
Record transport := {
  connect : connection;
  post_fails : nat -> option transport_failure
}.

(** One call of [.post(url, json=body)], recorded with the value of
    [self.initialized] when it was issued. *)
Record post_event := {
  post_url : option string;
  post_body : json;
  post_ready : bool
}.

(** The local variables of [send_request] inside the read loop, the
    client object, and two logs: the POSTs issued, and the values
    assigned to [endpoint_url]. *)
Record frame := {
  self : MCPSSEClient;
  endpoint_url : option string;
  event_type : option string;
  posts : list post_event;
  resolved : list string
}.

Definition set_event_type (e : option string) (f : frame) : frame :=
  {| self := self f; endpoint_url := endpoint_url f; event_type := e;
     posts := posts f; resolved := resolved f |}.

(** [endpoint_url = f"{self.base_url}{data}"] *)
Definition set_endpoint_url (url : string) (f : frame) : frame :=
  {| self := self f; endpoint_url := Some url; event_type := event_type f;
     posts := posts f; resolved := resolved f ++ [url] |}.

Definition set_self (c : MCPSSEClient) (f : frame) : frame :=
  {| self := c; endpoint_url := endpoint_url f; event_type := event_type f;
     posts := posts f; resolved := resolved f |}.

(** [self.initialized = True] *)
Definition set_initialized (f : frame) : frame :=
  set_self {| base_url := base_url (self f); message_id := message_id (self f);
              session_url := session_url (self f); initialized := true |} f.

(** The frame after a call of [.post(url, json=body)]: the call is logged. *)
Definition posted (url : option string) (body : json) (f : frame) : frame :=
  {| self := self f; endpoint_url := endpoint_url f; event_type := event_type f;
     posts := posts f ++ [{| post_url := url; post_body := body;
                             post_ready := initialized (self f) |}];
     resolved := resolved f |}.

(** What the call raises: [TypeError] on a URL that is [None], a transport
    failure when the server side says so. *)
Definition post_error (t : transport) (url : option string) (f : frame) : option exn :=
  match url with
  | None => Some TypeError
  | Some _ =>
      match post_fails t (length (posts f)) with
      | Some failure => Some (TransportError failure)
      | None => None
      end
  end.

(** [await client.post(url, json=body, ...)]; the response is only
    printed. *)
Definition post (t : transport) (url : option string) (body : json) (f : frame)
  : option exn * frame :=
  (post_error t url f, posted url body f).

(** [request_payload] *)
Definition request_payload (id : Z) (method : string) (params : option json) : json :=
  JObj [("jsonrpc", JStr "2.0");
        ("id", JInt id);
        ("method", JStr method);
        ("params", match params with Some p => p | None => JObj [] end)].

(** [init_payload] *)
Definition init_payload (id : Z) : json :=
  JObj [("jsonrpc", JStr "2.0");
        ("id", JInt id);
        ("method", JStr "initialize");
        ("params",
         JObj [("protocolVersion", JStr "2024-11-05");
               ("capabilities", JObj []);
               ("clientInfo",
                JObj [("name", JStr "weather-client");
                      ("version", JStr "1.0.0")])])].

(** How a [return] or an exception leaves the body of the [try]. *)
Inductive outcome :=
| Return (v : option json)
| Raise (e : exn).

(** After one line: go on with the next line, or leave the loop. *)
Inductive progress :=
| Next (f : frame)
| Stop (o : outcome) (f : frame).

Definition is_endpoint (e : option string) : bool :=
  match e with Some l => String.eqb l "endpoint" | None => false end.

(** Lines 136-139: [if "result" in parsed or "error" in parsed: return parsed]. *)
Definition check_response (parsed : json) (f : frame) : progress :=
  match py_in "result" parsed with
  | inl e => Stop (Raise e) f
  | inr true => Stop (Return (Some parsed)) f
  | inr false =>
      match py_in "error" parsed with
      | inl e => Stop (Raise e) f
      | inr true => Stop (Return (Some parsed)) f
      | inr false => Next f
      end
  end.

(** Lines 117-139: a decoded payload. *)
Definition on_message (t : transport) (request : json) (parsed : json) (f : frame)
  : progress :=
  if initialized (self f) then check_response parsed f
  else
    match py_in "result" parsed with
    | inl e => Stop (Raise e) f
    | inr false => check_response parsed f
    | inr true =>
        match py_get parsed "result" (JObj []) with
        | inl e => Stop (Raise e) f
        | inr result =>
            match py_in "capabilities" result with
            | inl e => Stop (Raise e) f
            | inr false => check_response parsed f
            | inr true =>
                let f1 := set_initialized f in
                match post t (endpoint_url f1) request f1 with
                | (Some e, f2) => Stop (Raise e) f2
                | (None, f2) => Next f2
                end
            end
        end
    end.

(** Lines 66-111: a data line under the label [endpoint]. *)
Definition on_endpoint (t : transport) (method : string) (request : json)
    (data : string) (f : frame) : progress :=
  let url := base_url (self f) +:+ data in
  let f1 := set_endpoint_url url f in
  if negb (initialized (self f1)) && negb (String.eqb method "initialize") then
    let '(id, c) := _next_id (self f1) in
    match post t (Some url) (init_payload id) (set_self c f1) with
    | (Some e, f2) => Stop (Raise e) f2
    | (None, f2) => Next (set_event_type None f2)
    end
  else
    match post t (Some url) request f1 with
    | (Some e, f2) => Stop (Raise e) f2
    | (None, f2) => Next (set_event_type None f2)
    end.

(** Lines 59-142: the body of the loop for one line of the stream. *)
Definition on_line (json_loads : string -> option json) (t : transport)
    (method : string) (request : json) (line : string) (f : frame) : progress :=
  if PyStr.startswith line "event: " then
    Next (set_event_type (Some (PyStr.strip (PyStr.slice_from 7 line))) f)
  else if PyStr.startswith line "data: " then
    let data := PyStr.strip (PyStr.slice_from 6 line) in
    if is_endpoint (event_type f) then on_endpoint t method request data f
    else if PyStr.truthy data then
      match json_loads data with
      | Some parsed => on_message t request parsed f
      | None => Next f
      end
    else Next f
  else Next f.

(** [async for line in sse_stream.aiter_lines(): ...] over the items the
    stream delivers. *)
Fixpoint feed (json_loads : string -> option json) (t : transport)
    (method : string) (request : json) (items : list stream_item) (f : frame)
  : progress :=
  match items with
  | [] => Next f
  | Broken failure :: _ => Stop (Raise (TransportError failure)) f
  | Line line :: rest =>
      match on_line json_loads t method request line f with
      | Next f' => feed json_loads t method request rest f'
      | stop => stop
      end
  end.

(** The items of the stream the GET gives (none when it is refused). *)
Definition stream_of (t : transport) : list stream_item :=
  match connect t with
  | Opened _ items => items
  | Refused _ => []
  end.

(** The locals before the loop (lines 55-56). *)
Definition enter (c : MCPSSEClient) : frame :=
  {| self := c; endpoint_url := None; event_type := None;
     posts := []; resolved := [] |}.

(** The body of the [try] (lines 38-144). *)
Definition send_request_body (json_loads : string -> option json) (t : transport)
    (method : string) (request : json) (c : MCPSSEClient) : outcome * frame :=
  match connect t with
  | Refused failure => (Raise (TransportError failure), enter c)
  | Opened status items =>
      if negb (Z.eqb status 200) then (Return None, enter c)
      else
        match feed json_loads t method request items (enter c) with
        | Next f => (Return None, f)
        | Stop o f => (o, f)
        end
  end.

(** [send_request(method, params)]: the request is built with the next
    id, and [except Exception] turns every exception of the body into
    [return None]. *)
Definition send_request (json_loads : string -> option json) (t : transport)
    (method : string) (params : option json) (c : MCPSSEClient) : outcome * frame :=
  let '(id, c1) := _next_id c in
  let request := request_payload id method params in
  match send_request_body json_loads t method request c1 with
  | (Raise _, f) => (Return None, f)
  | (Return v, f) => (Return v, f)
  end.

(** The request [send_request] builds for a call. *)
Definition request_of (method : string) (params : option json) (c : MCPSSEClient) : json :=
  request_payload (fst (_next_id c)) method params.

(** [list_tools] and [call_tool] *)
Definition list_tools (json_loads : string -> option json) (t : transport)
    (c : MCPSSEClient) : outcome * frame :=
  send_request json_loads t "tools/list" (Some (JObj [])) c.

Definition call_tool (json_loads : string -> option json) (t : transport)
    (tool_name : string) (arguments : json) (c : MCPSSEClient) : outcome * frame :=
  send_request json_loads t "tools/call"
    (Some (JObj [("name", JStr tool_name); ("arguments", arguments)])) c.

(** How many of the POSTs carry exactly [body]. *)
Definition count_posts (body : json) (ps : list post_event) : nat :=
  length (List.filter (fun e => json_eqb (post_body e) body) ps).

(** A line that sets the event label to [endpoint]. *)
Definition is_endpoint_event (i : stream_item) : bool :=
  match i with
  | Line line =>
      PyStr.startswith line "event: "
      && String.eqb (PyStr.strip (PyStr.slice_from 7 line)) "endpoint"
  | Broken _ => false
  end.

Definition endpoint_events (items : list stream_item) : nat :=
  length (List.filter is_endpoint_event items).

(** The frame the loop is left with. *)
Definition frame_of (p : progress) : frame :=
  match p with Next f | Stop _ f => f end.

(** [line[6:].strip()] *)
Definition payload_of (line : string) : string :=
  PyStr.strip (PyStr.slice_from 6 line).

(** The payload [json.loads] decodes at a line, if the line gets there
    (line 116): a data line, not under the label [endpoint], with a
    non-empty payload that is JSON. *)
Definition decoded (json_loads : string -> option json) (line : string) (f : frame)
  : option json :=
  if PyStr.startswith line "event: " then None
  else if PyStr.startswith line "data: " then
    if is_endpoint (event_type f) then None
    else if PyStr.truthy (payload_of line) then json_loads (payload_of line)
    else None
  else None.

(** The acknowledgement the client looks for (lines 119-121): a dict with
    a ["result"] on which ["capabilities" in result] holds. *)
Definition is_ack (parsed : json) : Prop :=
  exists result, member "result" parsed = Some result
                 /\ py_in "capabilities" result = inr true.

(** The payloads the loop returns (lines 119-139), for a client whose
    [initialized] is [ready]: ["result" in parsed] holds and, when the
    client is not initialized, ["capabilities" in parsed.get("result", {})]
    is evaluated and does not hold; or ["result" in parsed] does not hold
    and ["error" in parsed] does.  No [id] is read. *)
Definition is_response (ready : bool) (parsed : json) : Prop :=
  (py_in "result" parsed = inr true
   /\ (ready = false ->
       exists result, py_get parsed "result" (JObj []) = inr result
                      /\ py_in "capabilities" result = inr false))
  \/ (py_in "result" parsed = inr false /\ py_in "error" parsed = inr true).

(** A dict whose ["result"] is a dict with the key ["capabilities"]. *)
Definition has_capabilities (parsed : json) : Prop :=
  exists result, member "result" parsed = Some result
                 /\ has_key "capabilities" result = true.

(** Every POST of [request] was issued with [self.initialized] set. *)
Definition sent_when_ready (request : json) (f : frame) : Prop :=
  Forall (fun e => post_body e = request -> post_ready e = true) (posts f).

(** The endpoint labels still to be used: the one the frame holds, and
    those of the lines to come. *)
Definition pending (f : frame) (items : list stream_item) : nat :=
  (if is_endpoint (event_type f) then 1 else 0) + endpoint_events items.

(** The ids of the [initialize] requests among the POSTs, in the order of
    issue. *)
Definition initialize_ids (ps : list post_event) : list Z :=
  flat_map (fun e =>
              match member "method" (post_body e), member "id" (post_body e) with
              | Some (JStr m), Some (JInt id) =>
                  if String.eqb m "initialize" then [id] else []
              | _, _ => []
              end) ps.

(** The data of the endpoint events of a stream, in order: the payload of
    each [data: ] line that is the first one after an [event: ] line with
    the label [endpoint] ([label] tells whether such an event is open). *)
Fixpoint endpoint_data (label : bool) (items : list stream_item) : list string :=
  match items with
  | [] => []
  | Broken _ :: _ => []
  | Line line :: rest =>
      if PyStr.startswith line "event: " then
        endpoint_data (String.eqb (PyStr.strip (PyStr.slice_from 7 line)) "endpoint") rest
      else if PyStr.startswith line "data: " then
        if label then payload_of line :: endpoint_data false rest
        else endpoint_data false rest
      else endpoint_data label rest
  end.

(** No URL, or [base] followed by the data of an endpoint event of the
    stream. *)
Definition to_endpoint (base : string) (items : list stream_item) (url : option string)
  : Prop :=
  url = None
  \/ exists data, In data (endpoint_data false items) /\ url = Some (base +:+ data).

(** The first POST, when there is one, has no URL or is an [initialize]. *)
Definition handshake_first (ps : list post_event) : Prop :=
  match ps with
  | [] => True
  | first :: _ => post_url first = None \/ exists id, post_body first = init_payload id
  end.

(** [id + 1], ..., [id + n] *)
Definition ids_after (id : Z) (n : nat) : list Z :=
  List.map (fun k => (id + Z.of_nat k)%Z) (seq 1 n).

End SSEClient.

(** ** The weather tool handler ([src/weather/weather_mcp_server.py]) *)
Module WeatherServer.
Import Json.

(** [mcp.types.TextContent] *)
Record TextContent := { type : string; text : string }.

(** What [get_coordinates] returns when it finds the city. *)
Record coordinates := {
  latitude : json;
  longitude : json;
  name : json;
  country : json;
  timezone : json
}.

(** One element of ["records"]. *)
Record daily_record := {
  date : json;
  max_temp_c : json;
  min_temp_c : json;
  precipitation_mm : json;
  max_wind_speed_kmh : json
}.

(** What [get_weather_data] and [get_forecast_data] return on success. *)
Record weather := {
  at_latitude : json;
  at_longitude : json;
  in_timezone : json;
  records : list daily_record
}.

(** The three lookups call the Open-Meteo HTTP API inside a [try] and
    return either a dict with the key ["error"] (here [inl] of its message)
    or the data; they are taken as given.  [repr_of] is [str()] on the
    floats and containers of the API's answer. *)
Record services := {
  get_coordinates : string -> string + coordinates;
  get_weather_data : json -> json -> json -> string + weather;
  get_forecast_data : json -> json -> json -> string + weather;
  repr_of : json -> string
}.

(** [str(v)] inside an f-string. *)
Definition py_str (s : services) (v : json) : string :=
  match v with
  | JStr x => x
  | JInt z => PyStr.of_int z
  | JNull => "None"
  | JBool true => "True"
  | JBool false => "False"
  | _ => repr_of s v
  end.

(** [get_weather_for_city]: the weather with the city's name and country
    added, or the first error. *)
Definition get_weather_for_city (s : services) (city : string)
  : string + (weather * json * json) :=
  match get_coordinates s city with
  | inl e => inl e
  | inr coords =>
      match get_weather_data s (latitude coords) (longitude coords) (timezone coords) with
      | inl e => inl e
      | inr w => inr (w, name coords, country coords)
      end
  end.

(** What a call of the handler does: it returns a list of contents, or
    raises. *)
Inductive handled :=
| Returned (content : list TextContent)
| Raised (e : exn).

Definition nl : string := String "010"%char EmptyString.

Definition text_content (t : string) : list TextContent :=
  [{| type := "text"; text := t |}].

(** ['=' * 70] *)
Definition rule : string := string_of_list_ascii (repeat "="%char 70).

(** The lines added to [output] for one record. *)
Definition record_lines (s : services) (r : daily_record) : string :=
  nl +:+ "Date: " +:+ py_str s (date r)
  +:+ nl +:+ "  Max Temperature: " +:+ py_str s (max_temp_c r) +:+ "째C"
  +:+ nl +:+ "  Min Temperature: " +:+ py_str s (min_temp_c r) +:+ "째C"
  +:+ nl +:+ "  Precipitation: " +:+ py_str s (precipitation_mm r) +:+ "mm"
  +:+ nl +:+ "  Max Wind Speed: " +:+ py_str s (max_wind_speed_kmh r) +:+ "km/h".

Definition report (s : services) (title days : string) (place nation : json) (w : weather)
  : string :=
  fold_left (fun output r => output +:+ record_lines s r) (records w)
    (title +:+ " for " +:+ py_str s place +:+ " (" +:+ py_str s nation +:+ ")"
     +:+ nl +:+ "Location: " +:+ py_str s (at_latitude w) +:+ ", " +:+ py_str s (at_longitude w)
     +:+ nl +:+ "Timezone: " +:+ py_str s (in_timezone w)
     +:+ nl
     +:+ nl +:+ days
     +:+ nl +:+ rule).

(** [arguments.get("city", "").strip()]: only a [str] has [strip]. *)
Definition city_argument (arguments : list (string * json)) : exn + string :=
  match obj_get "city" arguments with
  | None => inr (PyStr.strip "")
  | Some (JStr c) => inr (PyStr.strip c)
  | Some _ => inl AttributeError
  end.

(** [call_tool(name, arguments)] *)
Definition call_tool (s : services) (tool : string) (arguments : list (string * json))
  : handled :=
  if String.eqb tool "get_weather" then
    match city_argument arguments with
    | inl e => Raised e
    | inr city =>
        if negb (PyStr.truthy city) then
          Returned (text_content "Error: City name is required")
        else
          match get_weather_for_city s city with
          | inl e => Returned (text_content ("Error: " +:+ e))
          | inr (w, place, nation) =>
              Returned (text_content
                (report s "Weather Data (PAST 7 DAYS)" "Last 7 Days:" place nation w))
          end
    end
  else if String.eqb tool "get_forecast" then
    match city_argument arguments with
    | inl e => Raised e
    | inr city =>
        if negb (PyStr.truthy city) then
          Returned (text_content "Error: City name is required")
        else
          match get_coordinates s city with
          | inl e => Returned (text_content ("Error: " +:+ e))
          | inr coords =>
              match get_forecast_data s (latitude coords) (longitude coords)
                      (timezone coords) with
              | inl e => Returned (text_content ("Error: " +:+ e))
              | inr w =>
                  Returned (text_content
                    (report s "Weather Forecast (NEXT 7 DAYS)" "Next 7 Days:"
                       (name coords) (country coords) w))
              end
          end
    end
  else Returned (text_content ("Error: Unknown tool '" +:+ tool +:+ "'")).

(** The two shapes of a [ToolCallResponse] (spec, section 3). *)
Inductive ToolCallResponse :=
| Result (content : list TextContent)
| Error (message : string).

Definition exn_text (e : exn) : string :=
  match e with
  | TypeError => "TypeError"
  | AttributeError => "AttributeError"
  | TransportError _ => "TransportError"
  end.

(** Modelled from the spec: the framework's wrapping of what a handler
    does (section 4.4, steps 4 and 5), which is not in the sources: a
    returned value becomes the [result] of the response, an exception
    becomes its [error.message]. *)
Definition respond (h : handled) : ToolCallResponse :=
  match h with
  | Returned content => Result content
  | Raised e => Error (exn_text e)
  end.

(** [mcp.types.Tool] *)
Record Tool := {
  tool_name : string;
  description : string;
  inputSchema : json
}.

(** The [inputSchema] of both tools: an object with the required string
    property [city]. *)
Definition city_schema (what : string) : json :=
  JObj [("type", JStr "object");
        ("properties",
         JObj [("city", JObj [("type", JStr "string"); ("description", JStr what)])]);
        ("required", JArr [JStr "city"])].

(** [list_tools()] *)
Definition list_tools : list Tool :=
  [{| tool_name := "get_weather";
      description := "Get historical weather data for the last 7 days for a specific city. Returns temperature (min/max), precipitation, and wind speed.";
      inputSchema := city_schema
        "Name of the city to get weather for (e.g., 'London', 'New York', 'Tokyo')" |};
   {| tool_name := "get_forecast";
      description := "Get weather forecast for the next 7 days for a specific city. Returns temperature (min/max), precipitation, and wind speed.";
      inputSchema := city_schema
        "Name of the city to get forecast for (e.g., 'London', 'New York', 'Tokyo')" |}].

(** The names under ["required"] in a tool's schema. *)
Definition required_of (t : Tool) : list string :=
  match member "required" (inputSchema t) with
  | Some (JArr names) =>
      flat_map (fun v => match v with JStr n => [n] | _ => [] end) names
  | _ => []
  end.

End WeatherServer.

(** ** Python's [float] functions used by the ledger

    The floats are IEEE binary64 ([PrimFloat]); comparison and subtraction
    are the processor's.  Rounding to two decimals, formatting and parsing
    belong to the Python runtime: the ledger takes them as a
    [float_runtime].  [PyFloat.cpython] computes them for amounts below
    2^53 hundredths. *)
Module PyFloat.

Record float_runtime := {
  round2 : float -> float;               (* round(x, 2) *)
  format_2f : float -> string;           (* f"{x:.2f}" *)
  float_of_str : string -> option float  (* float(text), None for ValueError *)
}.

(** [a / b] rounded to the nearest integer, ties to the even one. *)
Definition div_half_even (a b : Z) : Z :=
  let q := (a / b)%Z in
  let r := (a mod b)%Z in
  if (2 * r <? b)%Z then q
  else if (b <? 2 * r)%Z then (q + 1)%Z
  else if Z.even q then q else (q + 1)%Z.

(** The sign of a float and the integer nearest to 100 times its
    magnitude (exact arithmetic on the float's value). *)
Definition hundredths (x : float) : option (bool * Z) :=
  match Prim2SF x with
  | S754_zero s => Some (s, 0%Z)
  | S754_finite s m e =>
      Some (s, if (0 <=? e)%Z then (Z.pos m * 2 ^ e * 100)%Z
               else div_half_even (Z.pos m * 100) (2 ^ (- e)))
  | S754_infinity _ | S754_nan => None
  end.

Definition signed (s : bool) (x : float) : float :=
  if s then PrimFloat.opp x else x.

(** The float nearest to [n / 10^k], for [n] below 2^53 and [k <= 22]. *)
Definition of_decimal (n : Z) (k : nat) : float :=
  (of_uint63 (Uint63.of_Z n) / of_uint63 (Uint63.of_Z (10 ^ Z.of_nat k)))%float.

Definition cpython_round2 (x : float) : float :=
  match hundredths x with
  | Some (s, n) => if (n <? 2 ^ 53)%Z then signed s (of_decimal n 2) else x
  | None => x
  end.

Definition two_digits (n : Z) : string :=
  (if (n <? 10)%Z then "0" else "") +:+ PyStr.of_int n.

Definition cpython_format_2f (x : float) : string :=
  match Prim2SF x with
  | S754_nan => "nan"
  | S754_infinity s => if s then "-inf" else "inf"
  | _ =>
      match hundredths x with
      | Some (s, n) =>
          (if s then "-" else "") +:+ PyStr.of_int (n / 100) +:+ "."
          +:+ two_digits (n mod 100)
      | None => "nan"
      end
  end.

Fixpoint all_digits (s : string) : bool :=
  match s with
  | EmptyString => true
  | String c r => JsonText.is_digit c && all_digits r
  end.

Definition digits_of (s : string) : Z :=
  JsonText.digits_value (list_ascii_of_string s).

(** [whole.frac] as a float *)
Definition decimal_text (whole frac : string) : option float :=
  let n := digits_of (whole +:+ frac) in
  let k := String.length frac in
  if all_digits whole && all_digits frac
     && negb (Nat.eqb (String.length whole + k) 0)
     && (n <? 2 ^ 53)%Z && Nat.leb k 22
  then Some (of_decimal n k) else None.

Fixpoint split_at_point (s : string) : string * option string :=
  match s with
  | EmptyString => (EmptyString, None)
  | String c r =>
      if Ascii.eqb c "."%char then (EmptyString, Some r)
      else let '(w, f) := split_at_point r in (String c w, f)
  end.

Definition cpython_float_of_str (text : string) : option float :=
  let t := PyStr.strip text in
  let '(s, body) :=
    match t with
    | String "-"%char r => (true, r)
    | String "+"%char r => (false, r)
    | _ => (false, t)
    end in
  let '(whole, frac) := split_at_point body in
  match decimal_text whole (default EmptyString frac) with
  | Some x => Some (signed s x)
  | None => None
  end.

Definition cpython : float_runtime :=
  {| round2 := cpython_round2;
     format_2f := cpython_format_2f;
     float_of_str := cpython_float_of_str |}.

End PyFloat.

(** ** The stock ledger ([src/stock-utility/stockUtilityMCP.py]) *)
Module StockLedger.
Import PyFloat.

Inductive error := FileNotFoundError | ValueError.

(** The two CSV files.  The portfolio file is the dict [read_portfolio]
    builds from its rows (stock id to quantity); the balance file is the
    list of its cells under the header [balance].  [None] is a file that
    does not exist. *)
Record ledger := {
  portfolio_csv : option (gmap string Z);
  balance_csv : option (list string)
}.

(** The values of the dicts the tools return. *)
Inductive value :=
| VBool (b : bool)
| VInt (z : Z)
| VFloat (x : float)
| VStr (s : string).

Definition response := list (string * value).

(** [r["success"]] *)
Definition success (r : response) : option value :=
  snd <$> List.find (fun kv => String.eqb (fst kv) "success") r.

(** [init_portfolio_csv]: creates the file with its header when it is
    missing. *)
Definition init_portfolio_csv (l : ledger) : ledger :=
  match portfolio_csv l with
  | Some _ => l
  | None => {| portfolio_csv := Some ∅; balance_csv := balance_csv l |}
  end.

(** [read_portfolio] *)
Definition read_portfolio (l : ledger) : gmap string Z * ledger :=
  match portfolio_csv l with
  | Some rows => (rows, l)
  | None => (∅, init_portfolio_csv l)
  end.

(** The rows [write_portfolio] writes: [if qty > 0]. *)
Definition rows_written (portfolio : gmap string Z) : gmap string Z :=
  filter (fun kv => (0 < snd kv)%Z) portfolio.

(** [write_portfolio] *)
Definition write_portfolio (portfolio : gmap string Z) (l : ledger) : ledger :=
  {| portfolio_csv := Some (rows_written portfolio); balance_csv := balance_csv l |}.

(** [init_balance_csv] *)
Definition init_balance_csv (rt : float_runtime) (initial_balance : float) (l : ledger)
  : ledger :=
  match balance_csv l with
  | Some _ => l
  | None => {| portfolio_csv := portfolio_csv l;
               balance_csv := Some [format_2f rt initial_balance] |}
  end.

(** [read_balance]: the first row, or [0.0] when there is none. *)
Definition read_balance (rt : float_runtime) (l : ledger) : error + float :=
  match balance_csv l with
  | None => inl FileNotFoundError
  | Some [] => inr 0%float
  | Some (cell :: _) =>
      match float_of_str rt cell with
      | Some x => inr x
      | None => inl ValueError
      end
  end.

(** [write_balance] *)
Definition write_balance (rt : float_runtime) (new_balance : float) (l : ledger) : ledger :=
  {| portfolio_csv := portfolio_csv l;
     balance_csv := Some [format_2f rt (round2 rt new_balance)] |}.

(** [debit_money(amount, reason)] *)
Definition debit_money (rt : float_runtime) (amount : float) (reason : string) (l : ledger)
  : (error + response) * ledger :=
  if (amount <=? 0)%float then
    (inr [("success", VBool false); ("message", VStr "Amount must be positive")], l)
  else
    match read_balance rt l with
    | inl e => (inl e, l)
    | inr balance =>
        if (balance <? amount)%float then
          (inr [("success", VBool false);
                ("message", VStr "Insufficient balance");
                ("current_balance", VFloat (round2 rt balance))], l)
        else
          let new_balance := round2 rt (balance - amount)%float in
          (inr [("success", VBool true);
                ("balance", VFloat new_balance);
                ("message", VStr ("Debited ₹" +:+ format_2f rt amount +:+ ". " +:+ reason))],
           write_balance rt new_balance l)
    end.

(** [credit_money(amount, reason)] *)
Definition credit_money (rt : float_runtime) (amount : float) (reason : string) (l : ledger)
  : (error + response) * ledger :=
  if (amount <=? 0)%float then
    (inr [("success", VBool false); ("message", VStr "Amount must be positive")], l)
  else
    match read_balance rt l with
    | inl e => (inl e, l)
    | inr balance =>
        let new_balance := round2 rt (balance + amount)%float in
        (inr [("success", VBool true);
              ("balance", VFloat new_balance);
              ("message", VStr ("Credited ₹" +:+ format_2f rt amount +:+ ". " +:+ reason))],
         write_balance rt new_balance l)
    end.

(** [get_balance()] *)
Definition get_balance (rt : float_runtime) (l : ledger) : error + response :=
  match read_balance rt l with
  | inl e => inl e
  | inr balance => inr [("success", VBool true); ("balance", VFloat (round2 rt balance))]
  end.

(** [stock_id.upper().strip()] *)
Definition normalize (stock_id : string) : string := PyStr.strip (PyStr.upper stock_id).

(** [buy_stock(stock_id, quantity)] *)
Definition buy_stock (stock_id : string) (quantity : Z) (l : ledger) : response * ledger :=
  if (quantity <=? 0)%Z then
    ([("success", VBool false); ("message", VStr "Quantity must be positive")], l)
  else
    let stock_id := normalize stock_id in
    let '(portfolio, l1) := read_portfolio l in
    let held := (default 0%Z (portfolio !! stock_id) + quantity)%Z in
    let portfolio := <[stock_id := held]> portfolio in
    ([("success", VBool true);
      ("stock_id", VStr stock_id);
      ("quantity", VInt held);
      ("message", VStr ("Bought " +:+ PyStr.of_int quantity +:+ " shares of " +:+ stock_id))],
     write_portfolio portfolio l1).

(** [sell_stock(stock_id, quantity)] *)
Definition sell_stock (stock_id : string) (quantity : Z) (l : ledger) : response * ledger :=
  if (quantity <=? 0)%Z then
    ([("success", VBool false); ("message", VStr "Quantity must be positive")], l)
  else
    let stock_id := normalize stock_id in
    let '(portfolio, l1) := read_portfolio l in
    match portfolio !! stock_id with
    | None => ([("success", VBool false); ("message", VStr "Stock not found")], l1)
    | Some available =>
        if (available <? quantity)%Z then
          ([("success", VBool false);
            ("message", VStr "Not enough shares");
            ("available", VInt available)], l1)
        else
          let left := (available - quantity)%Z in
          let portfolio :=
            if (left =? 0)%Z then delete stock_id portfolio
            else <[stock_id := left]> portfolio in
          ([("success", VBool true);
            ("stock_id", VStr stock_id);
            ("quantity", VInt (default 0%Z (portfolio !! stock_id)));
            ("message", VStr ("Sold " +:+ PyStr.of_int quantity +:+ " shares of " +:+ stock_id))],
           write_portfolio portfolio l1)
    end.

(** Every stored position is at least one share. *)
Definition positions_positive (l : ledger) : Prop :=
  forall rows, portfolio_csv l = Some rows ->
    map_Forall (fun _ qty => (1 <= qty)%Z) rows.

(** The order of [sorted(portfolio.items())]: the keys of a dict differ, so
    the stock ids decide; [str] is ordered by code points. *)
Definition by_stock_id (a b : string * Z) : Prop :=
  String.leb (fst a) (fst b) = true.

#[global] Instance by_stock_id_dec (a b : string * Z) : Decision (by_stock_id a b).
Proof. unfold by_stock_id. apply _. Defined.

(** What [list_stocks()] returns. *)
Record listing := {
  total_positions : nat;
  total_shares : Z;
  stocks : list (string * Z)
}.

(** [list_stocks()] *)
Definition list_stocks (l : ledger) : listing * ledger :=
  let '(portfolio, l1) := read_portfolio l in
  ({| total_positions := length (map_to_list portfolio);
      total_shares := foldr (fun kv total => (snd kv + total)%Z) 0%Z (map_to_list portfolio);
      stocks := merge_sort by_stock_id (map_to_list portfolio) |}, l1).

(** What a money tool reports: [r["success"]] is [True]. *)
Definition succeeded (r : error + response) : bool :=
  match r with
  | inr resp => match success resp with Some (VBool true) => true | _ => false end
  | inl _ => false
  end.

End StockLedger.

(** ** Document search ([src/RAG/mcp_chroma_server.py]) *)
Module ChromaSearch.

Definition TOP_K : nat := 3.

(** A stored chunk: only its [page_content] is read. *)
Record Document := { page_content : string }.

(** [db.similarity_search_with_score(query, k)]: the vector store, taken
    as given. *)
Definition vector_store := string -> nat -> list (Document * float).

(** The dict [document_search] returns. *)
Record found := { max_score : float; chunks : list string }.

(** [min(scores)] on a non-empty list: the first element, replaced by each
    later one that is [<] the current one. *)
Definition py_min (first : float) (others : list float) : float :=
  fold_left (fun m s => if (s <? m)%float then s else m) others first.

(** [document_search(query)], with the queries made to the store. *)
Definition document_search (db : vector_store) (query : string)
  : found * list (string * nat) :=
  if negb (PyStr.truthy query) || negb (PyStr.truthy (PyStr.strip query)) then
    ({| max_score := 1%float; chunks := [] |}, [])
  else
    let results := db query TOP_K in
    let calls := [(query, TOP_K)] in
    match List.map snd results with
    | [] => ({| max_score := 1%float; chunks := [] |}, calls)
    | first :: others =>
        ({| max_score := py_min first others;
            chunks := List.map (fun r => page_content (fst r)) results |}, calls)
    end.

(** The scores of the results of a query, in order. *)
Definition scores_of (db : vector_store) (query : string) : list float :=
  List.map snd (db query TOP_K).

End ChromaSearch.

(** ** The weather tools over SSE ([src/weather/weather_mcp_sse_server.py]) *)
Module WeatherSSEServer.
Import Json.

(** What [get_coordinates] returns: the dict with ["error"], or the
    coordinates. *)
Inductive geocoded :=
| NotFound (message : string)
| Located (c : WeatherServer.coordinates).

(** What [get_past_weather] and [get_future_forecast] return. *)
Record readings := {
  timezone : json;
  records : list WeatherServer.daily_record
}.

(** The three helpers call the Open-Meteo HTTP API with no [try]: each
    returns or raises; they are taken as given. *)
Record services := {
  get_coordinates : string -> exn + geocoded;
  get_past_weather : json -> json -> json -> exn + readings;
  get_future_forecast : json -> json -> json -> exn + readings
}.

(** The dict a tool returns: [{"error": message}], or the city and the
    country followed by the readings. *)
Inductive answer :=
| Failed (message : string)
| Weather (city country : json) (r : readings).

(** The body shared by [get_weather] and [get_forecast]. *)
Definition lookup (s : services) (fetch : json -> json -> json -> exn + readings)
    (city : string) : exn + answer :=
  if negb (PyStr.truthy (PyStr.strip city)) then inr (Failed "City name is required")
  else
    match get_coordinates s city with
    | inl e => inl e
    | inr (NotFound message) => inr (Failed message)
    | inr (Located coords) =>
        match fetch (WeatherServer.latitude coords) (WeatherServer.longitude coords)
                (WeatherServer.timezone coords) with
        | inl e => inl e
        | inr r => inr (Weather (WeatherServer.name coords) (WeatherServer.country coords) r)
        end
    end.

(** [get_weather(city)] *)
Definition get_weather (s : services) (city : string) : exn + answer :=
  lookup s (get_past_weather s) city.

(** [get_forecast(city)] *)
Definition get_forecast (s : services) (city : string) : exn + answer :=
  lookup s (get_future_forecast s) city.

End WeatherSSEServer.

(** ** The command-line client ([src/weather/test_weather_mcp_advanced.py]) *)
Module WeatherMCPClient.

(** [get_server_command()]: the executable and its arguments. *)
Definition get_server_command (use_uv : bool) (python server_path : string)
  : string * list string :=
  if use_uv then ("uv", ["run"; server_path]) else (python, [server_path]).

(** The tool [test_weather] calls for a data type (line 62). *)
Definition tool_for (data_type : string) : string :=
  if String.eqb (PyStr.lower data_type) "past" then "get_weather" else "get_forecast".

(** [enumerate(cities)] with ["past" if i % 2 == 0 else "future"]. *)
Fixpoint alternate (i : nat) (cities : list string) : list (string * string) :=
  match cities with
  | [] => []
  | city :: rest =>
      (city, if Nat.eqb (i mod 2) 0 then "past" else "future") :: alternate (S i) rest
  end.

(** The command-line mode of [main()] (lines 166-180), taken when
    [len(sys.argv) > 1]: whether [uv] is used, and the tests to run.  With
    one element in [sys.argv] the program asks its user instead ([None]). *)
Definition plan (argv : list string) : option (bool * list (string * string)) :=
  if Nat.ltb 1 (length argv) then
    let use_uv := existsb (String.eqb "--uv") argv in
    let cities := List.filter (fun arg => negb (String.eqb arg "--uv")) (tl argv) in
    Some (use_uv,
          match cities with
          | [] => [("London", "past"); ("Paris", "future"); ("Tokyo", "past")]
          | _ => alternate 0 cities
          end)
  else None.

End WeatherMCPClient.

(** ** Ingestion of the PDF files ([src/RAG/pdf_to_chromadb.py]) *)
Module PdfIngest.

#[local] Set Warnings "-inexact-float".

Definition CHUNK_SIZE : nat := 800.
Definition CHUNK_OVERLAP : nat := 100.

(** The dicts of [documents] and [chunked_docs]. *)
Record document := {
  content : string;
  source : string;
  filename : string
}.

(** What [glob] and [PdfReader] give: the paths found, each with what
    [extract_text()] returns for its pages ([None] or a text). *)
Definition folder := list (string * list (option string)).

(** [page_text and page_text.strip()] *)
Definition has_text (page_text : option string) : bool :=
  match page_text with
  | Some text => PyStr.truthy text && PyStr.truthy (PyStr.strip text)
  | None => false
  end.

(** [text_parts] of a file: the texts of its pages that have some. *)
Definition text_parts (pages : list (option string)) : list string :=
  flat_map (fun page_text =>
              if has_text page_text then [default EmptyString page_text] else [])
           pages.

(** [extract_text_from_pdfs(pdf_folder)] *)
Definition extract_text_from_pdfs (pdf_files : folder) : list document :=
  flat_map (fun '(pdf_path, pages) =>
              let full_text := PyStr.join WeatherServer.nl (text_parts pages) in
              if negb (PyStr.truthy (PyStr.strip full_text)) then []
              else [{| content := full_text; source := pdf_path;
                       filename := PyStr.basename pdf_path |}])
           pdf_files.

(** [chunk_documents(documents)]; [split_text] is the splitter of
    langchain, built with [CHUNK_SIZE] and [CHUNK_OVERLAP]. *)
Definition chunk_documents (split_text : nat -> nat -> string -> list string)
    (documents : list document) : list document :=
  flat_map (fun doc =>
              flat_map (fun chunk =>
                          if PyStr.truthy (PyStr.strip chunk)
                          then [{| content := chunk; source := source doc;
                                   filename := filename doc |}]
                          else [])
                       (split_text CHUNK_SIZE CHUNK_OVERLAP (content doc)))
           documents.

(** The three verdicts of the self-retrieval test. *)
Inductive verdict := Passed | Partial | Missed.

(** Lines 133-139 *)
Definition verdict_of (best_score : float) : verdict :=
  if (best_score <? 0.2)%float then Passed
  else if (best_score <? 0.5)%float then Partial
  else Missed.

(** How [build_and_test_chroma] ends. *)
Inductive tested :=
| NoChunks
| IndexError
| NoResults (query : string)
| Judged (query : string) (v : verdict).

(** [build_and_test_chroma(chunked_docs)]; [search] is the store built
    from the chunks, asked for [k] results. *)
Definition build_and_test_chroma
    (search : list document -> string -> nat -> list (ChromaSearch.Document * float))
    (chunked_docs : list document) : tested :=
  match chunked_docs with
  | [] => NoChunks
  | _ =>
      match chunked_docs !! (length chunked_docs / 2) with
      | None => IndexError
      | Some test_chunk =>
          let query := PyStr.slice_to 300 (content test_chunk) in
          match search chunked_docs query 3 with
          | [] => NoResults query
          | (_, best_score) :: _ => Judged query (verdict_of best_score)
          end
      end
  end.

End PdfIngest.

(** ** Concrete sessions

    Streams, servers and clients on which the properties of Part II are
    evaluated. *)
Module Samples.
Import Json JsonText SSEClient.

(** The client of [main()]. *)
Definition client : MCPSSEClient := new_client "http://127.0.0.1:8010".

(** The client after a completed handshake. *)
Definition ready_client : MCPSSEClient :=
  {| base_url := "http://127.0.0.1:8010"; message_id := 2;
     session_url := None; initialized := true |}.

(** A server that answers the GET with status 503. *)
Definition unavailable : transport :=
  {| connect := Opened 503 []; post_fails := fun _ => None |}.

(** A server that accepts the GET with status 200, pushes [items] and
    acknowledges every POST. *)
Definition served (items : list stream_item) : transport :=
  {| connect := Opened 200 items; post_fails := fun _ => None |}.

(** A server that refuses the connection. *)
Definition unreachable : transport :=
  {| connect := Refused ConnectionRefused; post_fails := fun _ => None |}.

(** The text of a response with an id and a result. *)
Definition response_text (id result : string) : string :=
  "{" +:+ quoted "jsonrpc" +:+ ":" +:+ quoted "2.0" +:+ ","
  +:+ quoted "id" +:+ ":" +:+ id +:+ ","
  +:+ quoted "result" +:+ ":" +:+ result +:+ "}".

(** The acknowledgement of [initialize]: its result has [capabilities]. *)
Definition ack_text : string :=
  response_text "2" ("{" +:+ quoted "capabilities" +:+ ":{}}").

(** A response to [tools/list]. *)
Definition tools_text (id : string) : string :=
  response_text id ("{" +:+ quoted "tools" +:+ ":[]}").

(** A response whose result is the string [capabilities]. *)
Definition string_result_text : string :=
  response_text "7" (quoted "capabilities").

Definition data (payload : string) : stream_item := Line ("data: " +:+ payload).

(** One endpoint event, the acknowledgement, the response. *)
Definition session : list stream_item :=
  [Line "event: endpoint"; data "/session/abc"; Line "";
   Line "event: message"; data ack_text; Line "";
   Line "event: message"; data (tools_text "1"); Line ""].

(** The endpoint event comes a second time, after the acknowledgement. *)
Definition session_endpoint_twice : list stream_item :=
  [Line "event: endpoint"; data "/session/abc";
   Line "event: message"; data ack_text;
   Line "event: endpoint"; data "/session/abc";
   Line "event: message"; data (tools_text "1")].


(** A payload that is not JSON before the response. *)
Definition truncated : string := "data: {" +:+ quoted "jsonrpc" +:+ ": ".

(** The request of [list_tools] by [client]. *)
Definition tools_request : json := request_of "tools/list" (Some (JObj [])) client.

(** The frame of [client] after its first [_next_id], reading under the
    label [message]. *)
Definition reading : frame :=
  set_event_type (Some "message") (enter (snd (_next_id client))).

(** Lookups that find no city. *)
Definition no_city : WeatherServer.services :=
  {| WeatherServer.get_coordinates := fun city => inl ("City '" +:+ city +:+ "' not found");
     WeatherServer.get_weather_data := fun _ _ _ => inl "Failed to get weather data: offline";
     WeatherServer.get_forecast_data := fun _ _ _ => inl "Failed to get forecast data: offline";
     WeatherServer.repr_of := fun _ => EmptyString |}.

(** A ledger with one position and the initial balance. *)
Definition opened : StockLedger.ledger :=
  {| StockLedger.portfolio_csv := Some {[ "AAPL" := 10%Z ]};
     StockLedger.balance_csv := Some ["100000.00"] |}.

(** A store with two chunks, which returns the first [k] of them. *)
Definition two_chunks : ChromaSearch.vector_store :=
  fun _ k =>
    take k [({| ChromaSearch.page_content := "Refunds are accepted within 30 days." |},
             0.5%float);
            ({| ChromaSearch.page_content := "A refund is paid to the card used." |},
             0.25%float)].

(** The acknowledgement comes a second time, in place of the response. *)
Definition session_two_acks : list stream_item :=
  [Line "event: endpoint"; data "/session/abc";
   Line "event: message"; data ack_text;
   Line "event: message"; data ack_text].

(** The payload [NaN] comes before the response. *)
Definition session_with_nan : list stream_item :=
  [Line "event: endpoint"; data "/session/abc";
   Line "event: message"; data ack_text;
   Line "event: message"; data "NaN"; data (tools_text "1")].

(** The same stream without the payload [NaN]. *)
Definition session_without_nan : list stream_item :=
  [Line "event: endpoint"; data "/session/abc";
   Line "event: message"; data ack_text;
   Line "event: message"; data (tools_text "1")].

(** The text of a tool-level error: a response with an [error] member. *)
Definition error_text : string :=
  "{" +:+ quoted "jsonrpc" +:+ ":" +:+ quoted "2.0" +:+ ","
  +:+ quoted "id" +:+ ":1,"
  +:+ quoted "error" +:+ ":{" +:+ quoted "code" +:+ ":-32602}}".

(** The server answers the request with a tool-level error. *)
Definition session_with_error : list stream_item :=
  [Line "event: endpoint"; data "/session/abc";
   Line "event: message"; data ack_text;
   Line "event: message"; data error_text].

(** The stream is closed after the acknowledgement. *)
Definition closing : transport :=
  {| connect := Opened 200 [Line "event: endpoint"; data "/session/abc";
                            Line "event: message"; data ack_text;
                            Broken StreamClosed];
     post_fails := fun _ => None |}.

(** The first POST of the call times out. *)
Definition timing_out : transport :=
  {| connect := Opened 200 session;
     post_fails := fun n => match n with O => Some TimedOut | _ => None end |}.

(** The second POST of the call times out. *)
Definition timing_out_later : transport :=
  {| connect := Opened 200 session;
     post_fails := fun n => match n with 1 => Some TimedOut | _ => None end |}.

(** Lookups over SSE that locate every city in Oslo and have no
    readings. *)
Definition oslo : WeatherSSEServer.services :=
  {| WeatherSSEServer.get_coordinates := fun _ =>
       inr (WeatherSSEServer.Located
              {| WeatherServer.latitude := JFloat "59.91";
                 WeatherServer.longitude := JFloat "10.75";
                 WeatherServer.name := JStr "Oslo";
                 WeatherServer.country := JStr "Norway";
                 WeatherServer.timezone := JStr "Europe/Oslo" |});
     WeatherSSEServer.get_past_weather := fun _ _ tz =>
       inr {| WeatherSSEServer.timezone := tz; WeatherSSEServer.records := [] |};
     WeatherSSEServer.get_future_forecast := fun _ _ _ => inl (TransportError TimedOut) |}.

End Samples.

(* ===================================================================== *)
(** * Part II: properties                                                 *)
(* ===================================================================== *)

(** ** Strings and JSON values *)
Section Basics.
Import Json.

Lemma data_line_is_no_event (line : string) :
  PyStr.startswith line "data: " = true -> PyStr.startswith line "event: " = false.
Proof.
  destruct line as [|c r]; [reflexivity|]. cbn [PyStr.startswith].
  destruct (Ascii.eqb_spec "d" c) as [<-|Hd]; [reflexivity | intros H; discriminate H].
Qed.

Lemma json_eqb_refl (a : json) : json_eqb a a = true.
Proof.
  revert a. fix IH 1. intros [| b | z | l | x | xs | ms]; simpl.
  - reflexivity.
  - destruct b; reflexivity.
  - apply Z.eqb_refl.
  - apply String.eqb_refl.
  - apply String.eqb_refl.
  - induction xs as [|x xs IHxs]; [reflexivity|]. rewrite IH. exact IHxs.
  - induction ms as [|[k x] ms IHms]; [reflexivity|].
    rewrite String.eqb_refl, IH. exact IHms.
Qed.

Lemma json_eqb_eq (a b : json) : json_eqb a b = true -> a = b.
Proof.
  revert a b. fix IH 1.
  intros [| x | x | x | x | xs | ms] [| y | y | y | y | ys | ns]; simpl;
    intros H; try (discriminate H).
  - reflexivity.
  - f_equal. destruct x, y; simpl in H; congruence.
  - f_equal. apply Z.eqb_eq. exact H.
  - f_equal. apply String.eqb_eq. exact H.
  - f_equal. apply String.eqb_eq. exact H.
  - f_equal. revert ys H.
    induction xs as [|x xs IHxs]; intros [|y ys] H; try (discriminate H); [reflexivity|].
    apply andb_prop in H as [H1 H2].
    f_equal; [apply IH; exact H1 | apply IHxs; exact H2].
  - f_equal. revert ns H.
    induction ms as [|[k x] ms IHms]; intros [|[l y] ns] H; try (discriminate H);
      [reflexivity|].
    apply andb_prop in H as [H H3]. apply andb_prop in H as [H1 H2].
    apply String.eqb_eq in H1. subst l.
    f_equal; [f_equal; apply IH; exact H2 | apply IHms; exact H3].
Qed.

(** *** Blank strings *)

Lemma rstrip_keeps_head (c : ascii) (r : string) :
  PyStr.isspace c = false -> PyStr.rstrip (String c r) = String c (PyStr.rstrip r).
Proof. intros Hc. simpl. rewrite Hc. destruct (PyStr.rstrip r); reflexivity. Qed.

Lemma lstrip_head (s : string) :
  PyStr.lstrip s = EmptyString
  \/ exists c r, PyStr.lstrip s = String c r /\ PyStr.isspace c = false.
Proof.
  induction s as [|c r IH]; simpl; [left; reflexivity|].
  destruct (PyStr.isspace c) eqn:Hc; [exact IH | right; eauto].
Qed.

Lemma lstrip_blank (s : string) :
  PyStr.lstrip s = EmptyString <-> PyStr.all_space s = true.
Proof.
  induction s as [|c r IH]; simpl; [tauto|].
  destruct (PyStr.isspace c); simpl; [exact IH|].
  split; intros H; discriminate H.
Qed.

Lemma strip_blank (s : string) :
  PyStr.strip s = EmptyString <-> PyStr.all_space s = true.
Proof.
  rewrite <- lstrip_blank. unfold PyStr.strip.
  destruct (lstrip_head s) as [-> | (c & r & -> & Hc)]; [tauto|].
  rewrite (rstrip_keeps_head c r Hc). split; intros H; discriminate H.
Qed.

Lemma truthy_strip_blank (s : string) :
  PyStr.truthy (PyStr.strip s) = negb (PyStr.all_space s).
Proof.
  destruct (PyStr.all_space s) eqn:Hs.
  - apply strip_blank in Hs. rewrite Hs. reflexivity.
  - destruct (PyStr.strip s) eqn:Hstrip; [|reflexivity].
    apply strip_blank in Hstrip. congruence.
Qed.

End Basics.

(** ** The streaming-HTTP client: one line, then the loop *)
Section SSEClientSteps.
Import Json SSEClient.

Variable json_loads : string -> option json.
Variable t : transport.
Variable method : string.
Variable request : json.

#[local] Arguments post_error : simpl never.

#[local] Abbreviation step := (on_line json_loads t method request).
#[local] Abbreviation run := (feed json_loads t method request).

Lemma feed_app (a b : list stream_item) (f : frame) :
  run (a ++ b) f = match run a f with Next f' => run b f' | stop => stop end.
Proof.
  revert f. induction a as [|[line|failure] a IH]; intros f; simpl.
  - destruct (run b f); reflexivity.
  - destruct (step line f); [apply IH | reflexivity].
  - reflexivity.
Qed.

(** *** A data line under the label [endpoint] *)

Lemma on_endpoint_frame (data : string) (f : frame) :
  let f' := frame_of (on_endpoint t method request data f) in
  let url := base_url (self f) +:+ data in
  resolved f' = resolved f ++ [url]
  /\ endpoint_url f' = Some url
  /\ base_url (self f') = base_url (self f)
  /\ initialized (self f') = initialized (self f)
  /\ exists body,
       posts f' = posts f ++ [{| post_url := Some url; post_body := body;
                                 post_ready := initialized (self f) |}]
       /\ ((body = request
            /\ (initialized (self f) = true \/ method = "initialize"))
           \/ (exists id, body = init_payload id)
              /\ initialized (self f) = false /\ method <> "initialize").
Proof.
  unfold on_endpoint, post. simpl.
  destruct (initialized (self f)) eqn:Hi; simpl;
    [| destruct (String.eqb_spec method "initialize") as [->|Hm]; simpl ];
    destruct (post_error _ _ _); simpl; rewrite ?Hi;
    (repeat split; [eexists; split; [reflexivity|]; eauto 10]).
Qed.

Lemma on_endpoint_next (data : string) (f f' : frame) :
  on_endpoint t method request data f = Next f' -> event_type f' = None.
Proof.
  unfold on_endpoint, post. simpl.
  repeat case_match; intros ?; simplify_eq; reflexivity.
Qed.

Lemma on_endpoint_no_return (data : string) (f f' : frame) (v : option json) :
  on_endpoint t method request data f <> Stop (Return v) f'.
Proof.
  unfold on_endpoint, post. simpl. repeat case_match; congruence.
Qed.

(** *** A decoded payload *)

Lemma is_ack_spec (parsed : json) :
  is_ack parsed <->
  py_in "result" parsed = inr true
  /\ exists result, py_get parsed "result" (JObj []) = inr result
                    /\ py_in "capabilities" result = inr true.
Proof.
  unfold is_ack. destruct parsed; simpl; try (split; [intros (r & H & _) | intros (H & _)]; congruence).
  - split; [intros (r & H & _); congruence | intros (_ & r & H & _); congruence].
  - split; [intros (r & H & _); congruence | intros (_ & r & H & _); congruence].
  - destruct (obj_get "result" members) as [r|]; split.
    + intros (r' & [= <-] & H). eauto.
    + intros (_ & r' & [= <-] & H). eauto.
    + intros (r' & H & _). congruence.
    + intros (H & _). congruence.
Qed.

Lemma check_response_frame (parsed : json) (f : frame) :
  frame_of (check_response parsed f) = f.
Proof. unfold check_response. repeat case_match; reflexivity. Qed.

Lemma check_response_return (parsed : json) (f f' : frame) (v : option json) :
  check_response parsed f = Stop (Return v) f' ->
  v = Some parsed
  /\ (py_in "result" parsed = inr true \/ py_in "error" parsed = inr true).
Proof.
  unfold check_response. repeat case_match; intros ?; simplify_eq; auto.
Qed.

Lemma on_message_cases (parsed : json) (f : frame) :
  (on_message t request parsed f = check_response parsed f
   /\ (initialized (self f) = false -> ~ is_ack parsed))
  \/ (initialized (self f) = false /\ is_ack parsed
      /\ on_message t request parsed f =
         match post_error t (endpoint_url f) (set_initialized f) with
         | Some e => Stop (Raise e) (posted (endpoint_url f) request (set_initialized f))
         | None => Next (posted (endpoint_url f) request (set_initialized f))
         end)
  \/ (exists e, on_message t request parsed f = Stop (Raise e) f
                /\ ~ is_ack parsed).
Proof.
  unfold on_message.
  destruct (initialized (self f)) eqn:Hi.
  { left. split; [reflexivity | congruence]. }
  destruct (py_in "result" parsed) as [e|[]] eqn:Hr.
  - right; right. exists e. split; [reflexivity|].
    intros (H & _)%is_ack_spec. congruence.
  - destruct (py_get parsed "result" (JObj [])) as [e|result] eqn:Hg.
    + right; right. exists e. split; [reflexivity|].
      intros (_ & r & H & _)%is_ack_spec. congruence.
    + destruct (py_in "capabilities" result) as [e|[]] eqn:Hc.
      * right; right. exists e. split; [reflexivity|].
        intros (_ & r & H1 & H2)%is_ack_spec. congruence.
      * right; left. split; [reflexivity|].
        split; [apply is_ack_spec; eauto|].
        unfold post. simpl. destruct (post_error _ _ _); reflexivity.
      * left. split; [reflexivity|].
        intros _ (_ & r & H1 & H2)%is_ack_spec. congruence.
  - left. split; [reflexivity|]. intros _ (H & _)%is_ack_spec. congruence.
Qed.

(** *** One line *)

Lemma on_line_cases (line : string) (f : frame) :
  (PyStr.startswith line "event: " = true
   /\ decoded json_loads line f = None
   /\ step line f = Next (set_event_type (Some (PyStr.strip (PyStr.slice_from 7 line))) f))
  \/ (PyStr.startswith line "event: " = false
      /\ PyStr.startswith line "data: " = true
      /\ is_endpoint (event_type f) = true
      /\ decoded json_loads line f = None
      /\ step line f = on_endpoint t method request (payload_of line) f)
  \/ (PyStr.startswith line "event: " = false
      /\ decoded json_loads line f = None
      /\ step line f = Next f)
  \/ (PyStr.startswith line "event: " = false
      /\ PyStr.startswith line "data: " = true
      /\ is_endpoint (event_type f) = false
      /\ exists parsed, json_loads (payload_of line) = Some parsed
                        /\ decoded json_loads line f = Some parsed
                        /\ step line f = on_message t request parsed f).
Proof.
  unfold on_line, decoded, payload_of.
  destruct (PyStr.startswith line "event: "); [left; auto|].
  destruct (PyStr.startswith line "data: "); [|right; right; left; auto].
  destruct (is_endpoint (event_type f)); [right; left; auto|].
  destruct (PyStr.truthy _); [|right; right; left; auto].
  destruct (json_loads _) as [parsed|]; [|right; right; left; auto].
  right; right; right. eauto 10.
Qed.

Lemma endpoint_events_cons (line : string) (rest : list stream_item) :
  endpoint_events (Line line :: rest) =
  (if is_endpoint_event (Line line) then 1 else 0) + endpoint_events rest.
Proof.
  unfold endpoint_events. simpl. destruct (_ && _); reflexivity.
Qed.

(** The loop keeps an invariant [P] of the frame and the lines to come,
    and leaves with [Q], when each line does. *)
Lemma feed_invariant (P : frame -> list stream_item -> Prop) (Q : frame -> Prop) :
  (forall f items, P f items -> Q f) ->
  (forall line f rest, P f (Line line :: rest) ->
     match step line f with
     | Next f' => P f' rest
     | Stop _ f' => Q f'
     end) ->
  forall items f, P f items -> Q (frame_of (run items f)).
Proof.
  intros Hleave Hstep items.
  induction items as [|[line|failure] rest IH]; intros f HP; simpl.
  - eapply Hleave, HP.
  - specialize (Hstep line f rest HP).
    destruct (step line f) as [f'|o f']; [apply IH, Hstep | exact Hstep].
  - eapply Hleave, HP.
Qed.

(** How a line changes the count of labels to be used. *)
Lemma pending_step (line : string) (f : frame) (rest : list stream_item) :
  match step line f with
  | Next f' => pending f' rest <= pending f (Line line :: rest)
  | Stop _ _ => True
  end.
Proof.
  unfold pending. rewrite endpoint_events_cons. unfold is_endpoint_event.
  destruct (on_line_cases line f)
    as [(He & _ & ->) | [(He & Hd & Hl & _ & ->) | [(He & _ & ->) | (He & Hd & Hl & p & _ & _ & ->)]]];
    rewrite He; simpl.
  - destruct (_ =? _)%string; simpl; destruct (is_endpoint _); lia.
  - destruct (on_endpoint _ _ _ _ _) as [f'|] eqn:Hn; [|exact I].
    apply on_endpoint_next in Hn. rewrite Hn, Hl. simpl. lia.
  - lia.
  - destruct (on_message_cases p f) as [[-> _] | [(_ & _ & ->) | (e & -> & _)]].
    + pose proof (check_response_frame p f) as Hf.
      destruct (check_response p f); simpl in Hf; subst; [lia | exact I].
    + destruct (post_error _ _ _); [exact I|]. simpl. lia.
    + exact I.
Qed.

(** What one line does to the frame: it sets the label, or resolves the
    endpoint, or changes nothing, or takes the payload as the
    acknowledgement. *)
Lemma step_effect (line : string) (f : frame) :
  let f' := frame_of (step line f) in
  (is_endpoint_event (Line line) = is_endpoint (event_type f')
   /\ decoded json_loads line f = None
   /\ step line f = Next f'
   /\ f' = set_event_type (event_type f') f)
  \/ (is_endpoint_event (Line line) = false
      /\ decoded json_loads line f = None
      /\ is_endpoint (event_type f) = true
      /\ step line f = on_endpoint t method request (payload_of line) f)
  \/ (is_endpoint_event (Line line) = false
      /\ f' = f
      /\ forall parsed, decoded json_loads line f = Some parsed ->
                        initialized (self f) = false -> ~ is_ack parsed)
  \/ (is_endpoint_event (Line line) = false
      /\ is_endpoint (event_type f) = false
      /\ initialized (self f) = false
      /\ (exists parsed, decoded json_loads line f = Some parsed /\ is_ack parsed)
      /\ f' = posted (endpoint_url f) request (set_initialized f)
      /\ (endpoint_url f = None -> exists e, step line f = Stop (Raise e) f')).
Proof.
  unfold is_endpoint_event.
  destruct (on_line_cases line f)
    as [(He & Hd & ->) | [(He & Hd & Hl & Hdec & ->) | [(He & Hdec & ->)
       | (He & Hd & Hl & p & Hp & Hdec & ->)]]];
    rewrite He; simpl.
  - left. auto.
  - right; left. auto.
  - right; right; left. rewrite Hdec. repeat split; congruence.
  - destruct (on_message_cases p f) as [(-> & Hn) | [(Hi & Ha & ->) | (e & -> & Hn)]].
    + right; right; left. rewrite check_response_frame, Hdec.
      repeat split. intros ? [= <-]. exact Hn.
    + right; right; right. rewrite Hdec. repeat split; eauto.
      * destruct (post_error _ _ _); reflexivity.
      * intros ->. simpl. eauto.
    + right; right; left. rewrite Hdec. simpl.
      repeat split. intros ? [= <-] _. exact Hn.
Qed.

End SSEClientSteps.

(** ** The streaming-HTTP client: the loop and [send_request] *)
Section SSEClientLoop.
Import Json SSEClient.

Variable json_loads : string -> option json.
Variable t : transport.
Variable method : string.
Variable request : json.

#[local] Abbreviation step := (on_line json_loads t method request).
#[local] Abbreviation run := (feed json_loads t method request).

Lemma count_posts_snoc (body : json) (ps : list post_event) (e : post_event) :
  count_posts body (ps ++ [e]) =
  count_posts body ps + (if json_eqb (post_body e) body then 1 else 0).
Proof.
  unfold count_posts. rewrite List.filter_app, length_app. simpl.
  destruct (json_eqb _ _); reflexivity.
Qed.

Lemma pending_cons (f : frame) (line : string) (rest : list stream_item) :
  pending f (Line line :: rest) =
  pending f rest + (if is_endpoint_event (Line line) then 1 else 0).
Proof. unfold pending. rewrite endpoint_events_cons. lia. Qed.

(** The base URL of the client never changes. *)
Lemma base_url_kept (items : list stream_item) (f : frame) :
  base_url (self (frame_of (run items f))) = base_url (self f).
Proof.
  apply (feed_invariant json_loads t method request
           (fun g _ => base_url (self g) = base_url (self f))
           (fun g => base_url (self g) = base_url (self f))); auto.
  intros line g rest Hg.
  destruct (step_effect json_loads t method request line g)
    as [(_ & _ & Hs & Hf) | [(_ & _ & _ & Hs) | [(_ & Hf & _) | (_ & _ & _ & _ & Hf & _)]]].
  - rewrite Hs. rewrite Hf. exact Hg.
  - pose proof (on_endpoint_frame t method request (payload_of line) g) as (_ & _ & Hb & _).
    rewrite <- Hs in Hb. destruct (step line g); simpl in Hb; congruence.
  - destruct (step line g); simpl in Hf; subst; exact Hg.
  - destruct (step line g); simpl in Hf; subst; exact Hg.
Qed.

(** With no endpoint label left, no endpoint is resolved. *)
Lemma endpoint_kept (items : list stream_item) (f : frame) :
  pending f items = 0 ->
  resolved (frame_of (run items f)) = resolved f
  /\ endpoint_url (frame_of (run items f)) = endpoint_url f.
Proof.
  intros H0.
  apply (feed_invariant json_loads t method request
           (fun g rest => pending g rest = 0
                          /\ resolved g = resolved f /\ endpoint_url g = endpoint_url f)
           (fun g => resolved g = resolved f /\ endpoint_url g = endpoint_url f));
    [tauto | | auto].
  clear H0. intros line g rest (Hp & Hg). rewrite pending_cons in Hp.
  destruct (step_effect json_loads t method request line g)
    as [(He & _ & Hs & Hf) | [(_ & _ & Hl & _) | [(He & Hf & _) | (He & _ & _ & _ & Hf & _)]]].
  - rewrite Hs. split; [|rewrite Hf; exact Hg].
    unfold pending in *. rewrite <- He. lia.
  - unfold pending in Hp. rewrite Hl in Hp. lia.
  - destruct (step line g); simpl in Hf; subst; [split|]; auto.
    rewrite He in Hp. lia.
  - destruct (step line g); simpl in Hf; subst; [split|]; auto.
    rewrite He in Hp. unfold pending in *. simpl. lia.
Qed.

(** Every POST of the request is issued with [initialized] set, when the
    request is not an [initialize] of its own. *)
Lemma sent_when_ready_kept (items : list stream_item) (f : frame) :
  method <> "initialize" ->
  (forall id, init_payload id <> request) ->
  sent_when_ready request f ->
  sent_when_ready request (frame_of (run items f)).
Proof.
  intros Hm Hinit.
  apply (feed_invariant json_loads t method request
           (fun g _ => sent_when_ready request g) (sent_when_ready request)); [auto|].
  intros line g rest Hg.
  assert (sent_when_ready request (frame_of (step line g))) as Hgoal;
    [| destruct (step line g); exact Hgoal].
  unfold sent_when_ready in *.
  destruct (step_effect json_loads t method request line g)
    as [(_ & _ & _ & Hf) | [(_ & _ & _ & Hs) | [(_ & Hf & _) | (_ & _ & _ & _ & Hf & _)]]].
  - rewrite Hf. exact Hg.
  - pose proof (on_endpoint_frame t method request (payload_of line) g)
      as (_ & _ & _ & _ & body & Hp & Hb).
    rewrite Hs, Hp. apply Forall_app. split; [exact Hg|].
    constructor; [|constructor]. simpl. intros ->.
    destruct Hb as [(_ & [Hi | Hi]) | ((id & Hid) & _)]; [exact Hi | contradiction |].
    exfalso. eapply Hinit. symmetry. exact Hid.
  - rewrite Hf. exact Hg.
  - rewrite Hf. simpl. apply Forall_app. split; [exact Hg|].
    constructor; [|constructor]. reflexivity.
Qed.

(** The request is issued once when the call starts uninitialized, the
    handshake completes and at most one endpoint label is used. *)
Lemma posted_once (items : list stream_item) (f : frame) :
  method <> "initialize" ->
  (forall id, init_payload id <> request) ->
  initialized (self f) = false ->
  count_posts request (posts f) = 0 ->
  pending f items <= 1 ->
  (endpoint_url f <> None -> pending f items = 0) ->
  initialized (self (frame_of (run items f))) = true ->
  count_posts request (posts (frame_of (run items f))) = 1.
Proof.
  intros Hm Hinit Hi Hc Hp Hu.
  apply (feed_invariant json_loads t method request
     (fun g rest =>
        (initialized (self g) = false /\ count_posts request (posts g) = 0
         /\ pending g rest <= 1 /\ (endpoint_url g <> None -> pending g rest = 0))
        \/ (initialized (self g) = true /\ count_posts request (posts g) = 1
            /\ pending g rest = 0))
     (fun g => initialized (self g) = true -> count_posts request (posts g) = 1));
    [| | left; auto].
  { intros g rest [(Hgi & _) | (_ & Hgc & _)] Ht; [congruence | exact Hgc]. }
  clear f Hi Hc Hp Hu. intros line g rest HP.
  rewrite !pending_cons in HP.
  destruct (step_effect json_loads t method request line g)
    as [(He & _ & Hs & Hf) | [(He & _ & Hl & Hs) | [(He & Hf & _) | (He & Hl & Hgi & _ & Hf & Hnone)]]].
  - (* a label *)
    rewrite Hs. set (g' := frame_of (step line g)) in *.
    assert (pending g' rest <= pending g rest + (if is_endpoint_event (Line line) then 1 else 0))
      as Hle by (unfold pending; rewrite He; destruct (is_endpoint (event_type g')); lia).
    assert (posts g' = posts g /\ self g' = self g /\ endpoint_url g' = endpoint_url g)
      as (Hp1 & Hp2 & Hp3) by (rewrite Hf; auto).
    rewrite Hp1, Hp2, Hp3.
    destruct HP as [(Hgi & Hgc & Hgp & Hgu) | (Hgi & Hgc & Hgp)]; [left | right];
      repeat split; auto; try lia.
    intros Hn. specialize (Hgu Hn). lia.
  - (* the endpoint *)
    rewrite He in HP.
    assert (1 <= pending g rest) as Hge by (unfold pending; rewrite Hl; lia).
    destruct HP as [(Hgi & Hgc & Hgp & Hgu) | (Hgi & Hgc & Hgp)]; [|lia].
    pose proof (on_endpoint_frame t method request (payload_of line) g)
      as (_ & _ & _ & Hi' & body & Hp' & Hb).
    rewrite <- Hs in Hi', Hp'.
    destruct Hb as [(_ & [Hb | Hb]) | ((id & ->) & _)]; [congruence | contradiction |].
    assert (count_posts request (posts (frame_of (step line g))) = 0) as Hc'.
    { rewrite Hp', count_posts_snoc. simpl post_body.
      destruct (json_eqb (init_payload id) request) eqn:Heq; [|lia].
      apply json_eqb_eq in Heq. exfalso. eapply Hinit, Heq. }
    destruct (step line g) as [g'|o g'] eqn:Hstep; simpl in Hi', Hc'.
    + left. symmetry in Hs. apply on_endpoint_next in Hs.
      assert (pending g' rest = 0) as H0.
      { unfold pending in *. rewrite Hs. rewrite Hl in Hgp. simpl. lia. }
      repeat split; auto; try congruence; lia.
    + congruence.
  - (* nothing *)
    rewrite He in HP.
    destruct (step line g) as [g'|o g']; simpl in Hf; subst g'.
    + destruct HP as [(Hgi & Hgc & Hgp & Hgu) | (Hgi & Hgc & Hgp)]; [left | right];
        repeat split; auto; try lia.
      intros Hn. specialize (Hgu Hn). lia.
    + destruct HP as [(Hgi & _) | (_ & Hgc & _)]; [congruence | auto].
  - (* the acknowledgement *)
    rewrite He in HP.
    destruct HP as [(_ & Hgc & Hgp & Hgu) | (Hgi' & _)]; [|congruence].
    assert (count_posts request (posts (frame_of (step line g))) = 1) as Hc'.
    { rewrite Hf. simpl. rewrite count_posts_snoc. simpl.
      rewrite json_eqb_refl. lia. }
    destruct (step line g) as [g'|o g'] eqn:Hstep; simpl in Hf, Hc'.
    + right. destruct (endpoint_url g) as [u|] eqn:Hu.
      * subst g'. repeat split; auto.
        assert (pending g rest = 0) as H0 by (specialize (Hgu ltac:(congruence)); lia).
        exact H0.
      * destruct (Hnone eq_refl) as (e & Hstop). discriminate Hstop.
    + auto.
Qed.

(** A payload that is not JSON is passed over. *)
Lemma skip_not_json (line : string) (f : frame) :
  PyStr.startswith line "data: " = true ->
  json_loads (payload_of line) = None ->
  is_endpoint (event_type f) = false ->
  step line f = Next f.
Proof.
  intros Hd Hj Hl. unfold on_line. fold (payload_of line).
  rewrite (data_line_is_no_event _ Hd), Hd, Hl, Hj.
  destruct (PyStr.truthy _); reflexivity.
Qed.

End SSEClientLoop.

(** ** The streaming-HTTP client: what ends the loop *)
Section SSEClientAnswers.
Import Json SSEClient.

Variable json_loads : string -> option json.
Variable t : transport.
Variable method : string.
Variable request : json.

#[local] Arguments post_error : simpl never.
#[local] Abbreviation step := (on_line json_loads t method request).
#[local] Abbreviation run := (feed json_loads t method request).

(** A decoded payload is returned exactly when it is a response. *)
Lemma on_message_returns (parsed : json) (f f' : frame) (v : option json) :
  on_message t request parsed f = Stop (Return v) f'
  <-> v = Some parsed /\ f' = f /\ is_response (initialized (self f)) parsed.
Proof.
  unfold on_message, check_response, is_response, post. simpl.
  destruct (initialized (self f)) eqn:Hi.
  - destruct (py_in "result" parsed) as [e|[]]; [| |destruct (py_in "error" parsed) as [e|[]]];
      split; try (intros [= <- <-]); try (intros (-> & -> & H)); auto;
      try discriminate; try (repeat split; auto; fail);
      try (destruct H as [(H & _) | (H1 & H2)]; discriminate).
    + split; [reflexivity|]. split; [reflexivity|]. left. split; [reflexivity | discriminate].
  - destruct (py_in "result" parsed) as [e|[]] eqn:Hr.
    + split; [discriminate|]. intros (_ & _ & [(H & _) | (H & _)]); discriminate.
    + destruct (py_get parsed "result" (JObj [])) as [e|result] eqn:Hg.
      * split; [discriminate|].
        intros (_ & _ & [(_ & H) | (H & _)]); [|discriminate].
        destruct (H eq_refl) as (r & Hr' & _). discriminate.
      * destruct (py_in "capabilities" result) as [e|[]] eqn:Hc.
        -- split; [discriminate|].
           intros (_ & _ & [(_ & H) | (H & _)]); [|discriminate].
           destruct (H eq_refl) as (r & [= <-] & Hc'). congruence.
        -- split; [destruct (post_error _ _ _); discriminate|].
           intros (_ & _ & [(_ & H) | (H & _)]); [|discriminate].
           destruct (H eq_refl) as (r & [= <-] & Hc'). congruence.
        -- split.
           ++ intros [= <- <-]. split; [reflexivity|]. split; [reflexivity|].
              left. split; [reflexivity|]. intros _. eauto.
           ++ intros (-> & -> & _). reflexivity.
    + destruct (py_in "error" parsed) as [e|[]] eqn:He.
      * split; [discriminate|]. intros (_ & _ & [(H & _) | (_ & H)]); discriminate.
      * split.
        -- intros [= <- <-]. split; [reflexivity|]. split; [reflexivity|]. right. auto.
        -- intros (-> & -> & _). reflexivity.
      * split; [discriminate|]. intros (_ & _ & [(H & _) | (_ & H)]); discriminate.
Qed.

(** A line makes the loop return exactly when it decodes a response. *)
Lemma step_returns (line : string) (f f' : frame) (msg : json) :
  step line f = Stop (Return (Some msg)) f'
  <-> f' = f /\ decoded json_loads line f = Some msg
      /\ is_response (initialized (self f)) msg.
Proof.
  unfold on_line, decoded. fold (payload_of line).
  destruct (PyStr.startswith line "event: ");
    [split; [discriminate | intros (_ & H & _); discriminate]|].
  destruct (PyStr.startswith line "data: ");
    [|split; [discriminate | intros (_ & H & _); discriminate]].
  destruct (is_endpoint (event_type f)).
  { split; [|intros (_ & H & _); discriminate].
    intros H. exfalso. eapply on_endpoint_no_return, H. }
  destruct (PyStr.truthy (payload_of line));
    [|split; [discriminate | intros (_ & H & _); discriminate]].
  destruct (json_loads (payload_of line)) as [parsed|];
    [|split; [discriminate | intros (_ & H & _); discriminate]].
  rewrite on_message_returns. split.
  - intros ([= <-] & -> & H). auto.
  - intros (-> & [= <-] & H). auto.
Qed.

(** The loop returns at the first line that decodes a response while the
    loop is still running. *)
Lemma feed_returns (items : list stream_item) (f f' : frame) (msg : json) :
  run items f = Stop (Return (Some msg)) f'
  <-> exists pre line post,
        items = pre ++ Line line :: post
        /\ run pre f = Next f'
        /\ decoded json_loads line f' = Some msg
        /\ is_response (initialized (self f')) msg.
Proof.
  split.
  - revert f. induction items as [|[line|failure] rest IH]; intros f; simpl;
      try discriminate.
    destruct (step line f) as [g|o g] eqn:Hs.
    + intros (pre & l & post & -> & Hpre & H)%IH.
      exists (Line line :: pre), l, post. split; [reflexivity|].
      split; [simpl; rewrite Hs; exact Hpre | exact H].
    + intros [= -> ->]. apply step_returns in Hs as (-> & H).
      exists [], line, rest. split; [reflexivity|]. split; [reflexivity | exact H].
  - intros (pre & line & post & -> & Hpre & Hd & Hr).
    rewrite feed_app, Hpre. cbn [feed].
    assert (step line f' = Stop (Return (Some msg)) f') as ->; [|reflexivity].
    apply step_returns. auto.
Qed.

(** A failure of the stream ends the loop with the failure. *)
Lemma feed_broken (pre post : list stream_item) (failure : transport_failure)
    (f g : frame) :
  run pre f = Next g ->
  run (pre ++ Broken failure :: post) f = Stop (Raise (TransportError failure)) g.
Proof. intros H. rewrite feed_app, H. reflexivity. Qed.

(** A POST to the endpoint that fails in transport ends the loop with the
    failure. *)
Lemma feed_post_fails (pre rest : list stream_item) (line : string)
    (failure : transport_failure) (f g : frame) :
  run pre f = Next g ->
  PyStr.startswith line "data: " = true ->
  is_endpoint (event_type g) = true ->
  post_fails t (length (posts g)) = Some failure ->
  exists g', run (pre ++ Line line :: rest) f = Stop (Raise (TransportError failure)) g'.
Proof.
  intros Hpre Hd Hl Hp. rewrite feed_app, Hpre. cbn [feed]. unfold on_line.
  rewrite (data_line_is_no_event _ Hd), Hd, Hl.
  unfold on_endpoint, post, post_error. simpl.
  destruct (negb (initialized (self g)) && negb (String.eqb method "initialize")); simpl;
    rewrite Hp; eauto.
Qed.

(** A payload on which ["result" in parsed] raises ends the loop. *)
Lemma feed_not_a_container (pre post : list stream_item) (line : string)
    (f g : frame) (v : json) (e : exn) :
  run pre f = Next g ->
  decoded json_loads line g = Some v ->
  py_in "result" v = inl e ->
  run (pre ++ Line line :: post) f = Stop (Raise e) g.
Proof.
  intros Hpre Hv He. rewrite feed_app, Hpre. cbn [feed].
  revert Hv. unfold on_line, decoded. fold (payload_of line).
  destruct (PyStr.startswith line "event: "); [discriminate|].
  destruct (PyStr.startswith line "data: "); [|discriminate].
  destruct (is_endpoint (event_type g)); [discriminate|].
  destruct (PyStr.truthy (payload_of line)); [|discriminate].
  intros ->. unfold on_message, check_response. rewrite He.
  destruct (initialized (self g)); reflexivity.
Qed.


(** The POST of the request on the acknowledgement, failing in transport,
    ends the loop with the failure. *)
Lemma feed_ack_post_fails (pre rest : list stream_item) (line url : string)
    (failure : transport_failure) (f g : frame) (msg : json) :
  run pre f = Next g ->
  decoded json_loads line g = Some msg ->
  initialized (self g) = false ->
  is_ack msg ->
  endpoint_url g = Some url ->
  post_fails t (length (posts g)) = Some failure ->
  exists g', run (pre ++ Line line :: rest) f = Stop (Raise (TransportError failure)) g'.
Proof.
  intros Hpre Hd Hi Ha Hu Hp. rewrite feed_app, Hpre. cbn [feed].
  revert Hd. unfold on_line, decoded. fold (payload_of line).
  destruct (PyStr.startswith line "event: "); [discriminate|].
  destruct (PyStr.startswith line "data: "); [|discriminate].
  destruct (is_endpoint (event_type g)); [discriminate|].
  destruct (PyStr.truthy (payload_of line)); [|discriminate].
  intros ->.
  destruct (on_message_cases t request msg g) as [(_ & Hn) | [(_ & _ & ->) | (e & _ & Hn)]].
  - contradiction (Hn Hi Ha).
  - rewrite Hu. unfold post_error. simpl. rewrite Hp. eauto.
  - contradiction (Hn Ha).
Qed.

End SSEClientAnswers.

(** ** The streaming-HTTP client: the claims *)
Section SSEClientClaims.
Import Json JsonText SSEClient Samples.

Lemma init_is_not_the_request (id id' : Z) (method : string) (params : option json) :
  method <> "initialize" -> init_payload id <> request_payload id' method params.
Proof. intros Hm H. injection H as _ H _. apply Hm. symmetry. exact H. Qed.

Lemma endpoint_events_app (a b : list stream_item) :
  endpoint_events (a ++ b) = endpoint_events a + endpoint_events b.
Proof. unfold endpoint_events. rewrite List.filter_app. apply length_app. Qed.

(** The frame [send_request] ends with. *)
Lemma send_request_frame (json_loads : string -> option json) (t : transport)
    (method : string) (params : option json) (c : MCPSSEClient) :
  snd (send_request json_loads t method params c) =
  match connect t with
  | Refused _ => enter (snd (_next_id c))
  | Opened status items =>
      if negb (Z.eqb status 200) then enter (snd (_next_id c))
      else frame_of (feed json_loads t method (request_of method params c) items
                       (enter (snd (_next_id c))))
  end.
Proof.
  unfold send_request, send_request_body, request_of. simpl.
  destruct (connect t) as [failure|status items]; [reflexivity|].
  destruct (negb _); [reflexivity|].
  destruct (feed _ _ _ _ _ _) as [f|[v|e] f]; reflexivity.
Qed.

(** [send_request] never raises. *)
Lemma send_request_returns (json_loads : string -> option json) (t : transport)
    (method : string) (params : option json) (c : MCPSSEClient) :
  exists v, fst (send_request json_loads t method params c) = Return v.
Proof.
  unfold send_request. simpl.
  destruct (send_request_body _ _ _ _ _) as [[v|e] f]; simpl; eauto.
Qed.

(** C1 (amended): a caller-issued request (a method other than
    [initialize]) is POSTed only with [initialized] set; when the call
    starts uninitialized, the handshake completes during it and the stream
    carries at most one endpoint event, the request is POSTed exactly once,
    unmodified.  (A POST is counted when it is issued.) *)
Theorem request_posted_when_ready (json_loads : string -> option json) (t : transport)
    (method : string) (params : option json) (c : MCPSSEClient) :
  method <> "initialize" ->
  sent_when_ready (request_of method params c)
    (snd (send_request json_loads t method params c))
  /\ (initialized c = false ->
      endpoint_events (stream_of t) <= 1 ->
      initialized (self (snd (send_request json_loads t method params c))) = true ->
      count_posts (request_of method params c)
        (posts (snd (send_request json_loads t method params c))) = 1).
Proof.
  intros Hm. rewrite send_request_frame. unfold stream_of.
  assert (forall id, init_payload id <> request_of method params c) as Hinit
    by (intros id; apply init_is_not_the_request, Hm).
  assert (sent_when_ready (request_of method params c) (enter (snd (_next_id c))))
    as Hnil by constructor.
  destruct (connect t) as [failure|status items].
  { split; [exact Hnil|]. simpl. congruence. }
  destruct (negb _).
  { split; [exact Hnil|]. simpl. congruence. }
  split.
  - apply sent_when_ready_kept; assumption.
  - intros Hi He. apply posted_once; auto.
    simpl. congruence.
Qed.

Lemma request_posted_when_ready_witness :
  "tools/list" <> "initialize"
  /\ sent_when_ready tools_request
       (snd (send_request loads (served session) "tools/list" (Some (JObj [])) client))
  /\ count_posts tools_request
       (posts (snd (send_request loads (served session) "tools/list" (Some (JObj [])) client)))
     = 1.
Proof.
  assert ("tools/list" <> "initialize") as Hm by discriminate.
  split; [exact Hm|].
  destruct (request_posted_when_ready loads (served session) "tools/list"
              (Some (JObj [])) client Hm) as [Hready Honce].
  split; [exact Hready|].
  apply Honce; [reflexivity | vm_compute; lia | reflexivity].
Defined.

(** C1 as stated fails: with the endpoint event pushed a second time
    after the acknowledgement, the request is POSTed twice. *)
Lemma request_posted_twice :
  initialized client = false
  /\ initialized (self (snd (send_request loads (served session_endpoint_twice)
                              "tools/list" (Some (JObj [])) client))) = true
  /\ count_posts tools_request
       (posts (snd (send_request loads (served session_endpoint_twice)
                      "tools/list" (Some (JObj [])) client))) = 2.
Proof. vm_compute. auto. Qed.

(** C2 (amended): an uninitialized client sets [initialized] at a line
    exactly when it decodes there a dict with a ["result"] on which
    ["capabilities" in result] holds (a key of a dict, an element of a
    list, a part of a string), whatever the ["id"]. *)
Theorem ack_sets_initialized (json_loads : string -> option json) (t : transport)
    (method : string) (request : json) (line : string) (f : frame) :
  initialized (self f) = false ->
  initialized (self (frame_of (on_line json_loads t method request line f))) = true
  <-> exists parsed, decoded json_loads line f = Some parsed /\ is_ack parsed.
Proof.
  intros Hi.
  destruct (step_effect json_loads t method request line f)
    as [(_ & Hd & _ & Hf) | [(_ & Hd & _ & Hs) | [(_ & Hf & Hn) | (_ & _ & _ & Ha & Hf & _)]]].
  - rewrite Hf, Hd. simpl. rewrite Hi.
    split; [discriminate | intros (p & H & _); discriminate H].
  - pose proof (on_endpoint_frame t method request (payload_of line) f)
      as (_ & _ & _ & Hi' & _).
    rewrite Hs, Hi', Hi, Hd.
    split; [discriminate | intros (p & H & _); discriminate H].
  - rewrite Hf, Hi. split; [discriminate|].
    intros (p & Hp & Hack). exfalso. exact (Hn p Hp Hi Hack).
  - rewrite Hf. simpl. split; [intros _; exact Ha | reflexivity].
Qed.

Lemma ack_sets_initialized_witness :
  initialized (self (frame_of (on_line loads (served []) "tools/list" tools_request
                                 ("data: " +:+ ack_text) reading))) = true
  <-> exists parsed, decoded loads ("data: " +:+ ack_text) reading = Some parsed
                     /\ is_ack parsed.
Proof. apply ack_sets_initialized. reflexivity. Defined.

(** C2 as stated fails: a response whose result is the string
    [capabilities] sets [initialized], and its result has no key. *)
Lemma string_result_sets_initialized :
  decoded loads ("data: " +:+ string_result_text) reading
  = Some (JObj [("jsonrpc", JStr "2.0"); ("id", JInt 7); ("result", JStr "capabilities")])
  /\ initialized (self reading) = false
  /\ initialized (self (frame_of (on_line loads (served []) "tools/list" tools_request
                                    ("data: " +:+ string_result_text) reading))) = true
  /\ ~ has_capabilities
         (JObj [("jsonrpc", JStr "2.0"); ("id", JInt 7); ("result", JStr "capabilities")]).
Proof.
  repeat split; try (vm_compute; reflexivity).
  intros (r & Hr & Hk). vm_compute in Hr. injection Hr as <-. discriminate Hk.
Qed.

(** C3: when the client reads an event line with the label [endpoint] and
    the data line after it, [endpoint_url] becomes the base URL followed by
    the payload of the data line, and on a stream with one endpoint event
    this is the only time [endpoint_url] is computed. *)
Theorem endpoint_resolved_once (json_loads : string -> option json) (t : transport)
    (method : string) (request : json) (c : MCPSSEClient)
    (pre post : list stream_item) (e d : string) (f1 : frame) :
  feed json_loads t method request pre (enter c) = Next f1 ->
  is_endpoint_event (Line e) = true ->
  PyStr.startswith d "data: " = true ->
  endpoint_events (pre ++ Line e :: Line d :: post) = 1 ->
  resolved (frame_of (feed json_loads t method request
                        (pre ++ Line e :: Line d :: post) (enter c)))
  = [base_url c +:+ payload_of d]
  /\ endpoint_url (frame_of (feed json_loads t method request
                               (pre ++ Line e :: Line d :: post) (enter c)))
     = Some (base_url c +:+ payload_of d).
Proof.
  intros Hpre He Hd Hone.
  assert (is_endpoint_event (Line d) = false) as Hdd
    by (simpl; rewrite (data_line_is_no_event _ Hd); reflexivity).
  rewrite endpoint_events_app, !endpoint_events_cons, He, Hdd in Hone.
  assert (endpoint_events pre = 0 /\ endpoint_events post = 0) as [Hp0 Hq0] by lia.
  pose proof (endpoint_kept json_loads t method request pre (enter c)) as Hk.
  pose proof (base_url_kept json_loads t method request pre (enter c)) as Hb.
  rewrite Hpre in Hk, Hb. simpl in Hk, Hb.
  destruct Hk as [Hr1 _]; [unfold pending; simpl; lia|].
  unfold is_endpoint_event in He. apply andb_prop in He as [He1 He2].
  set (f1' := set_event_type (Some (PyStr.strip (PyStr.slice_from 7 e))) f1).
  assert (feed json_loads t method request (Line e :: Line d :: post) f1
          = match on_endpoint t method request (payload_of d) f1' with
            | Next f' => feed json_loads t method request post f'
            | stop => stop
            end) as Hrun.
  { cbn [feed]. unfold on_line at 1. rewrite He1. fold f1'.
    unfold on_line. fold (payload_of d).
    rewrite (data_line_is_no_event _ Hd), Hd.
    unfold f1' at 1. cbn [event_type set_event_type is_endpoint]. rewrite He2.
    reflexivity. }
  rewrite !feed_app, Hpre, Hrun.
  pose proof (on_endpoint_frame t method request (payload_of d) f1') as (Hres & Hurl & _).
  cbn [self set_event_type resolved f1'] in Hres, Hurl.
  destruct (on_endpoint _ _ _ _ _) as [f2|o f2] eqn:Hs; simpl in Hres, Hurl.
  - apply on_endpoint_next in Hs.
    destruct (endpoint_kept json_loads t method request post f2) as [Hr2 Hu2].
    { unfold pending. rewrite Hs. simpl. lia. }
    rewrite Hr2, Hu2, Hres, Hurl, Hr1, Hb. auto.
  - simpl. rewrite Hres, Hurl, Hr1, Hb. auto.
Qed.

Lemma endpoint_resolved_once_witness :
  resolved (frame_of (feed loads (served session) "tools/list" tools_request
                        ([Line ": ping"] ++ Line "event: endpoint"
                           :: Line "data: /session/abc" :: [Line ""])
                        (enter client)))
  = ["http://127.0.0.1:8010/session/abc"]
  /\ endpoint_url (frame_of (feed loads (served session) "tools/list" tools_request
                               ([Line ": ping"] ++ Line "event: endpoint"
                                  :: Line "data: /session/abc" :: [Line ""])
                               (enter client)))
     = Some "http://127.0.0.1:8010/session/abc".
Proof.
  exact (endpoint_resolved_once loads (served session) "tools/list" tools_request client
           [Line ": ping"] [Line ""] "event: endpoint" "data: /session/abc"
           (enter client) eq_refl eq_refl eq_refl eq_refl).
Defined.

(** What [send_request] returns on a stream that was opened with the
    status 200. *)
Lemma send_request_outcome (json_loads : string -> option json) (t : transport)
    (method : string) (params : option json) (c : MCPSSEClient)
    (items : list stream_item) :
  connect t = Opened 200 items ->
  fst (send_request json_loads t method params c)
  = match feed json_loads t method (request_of method params c) items
            (enter (snd (_next_id c))) with
    | Stop (Return v) _ => Return v
    | _ => Return None
    end.
Proof.
  intros Hc. unfold send_request, send_request_body, request_of. simpl. rewrite Hc. simpl.
  destruct (feed _ _ _ _ _ _) as [f|[v|e] f]; reflexivity.
Qed.

(** A response decoded while the loop is running is what the call
    returns. *)
Lemma response_is_returned (json_loads : string -> option json) (t : transport)
    (method : string) (params : option json) (c : MCPSSEClient)
    (pre rest : list stream_item) (line : string) (g : frame) (msg : json) :
  connect t = Opened 200 (pre ++ Line line :: rest) ->
  feed json_loads t method (request_of method params c) pre
    (enter (snd (_next_id c))) = Next g ->
  decoded json_loads line g = Some msg ->
  is_response (initialized (self g)) msg ->
  fst (send_request json_loads t method params c) = Return (Some msg).
Proof.
  intros Hc Hpre Hd Hr. rewrite (send_request_outcome _ _ _ _ _ _ Hc).
  assert (feed json_loads t method (request_of method params c)
            (pre ++ Line line :: rest) (enter (snd (_next_id c)))
          = Stop (Return (Some msg)) g) as ->; [|reflexivity].
  apply feed_returns. eauto 10.
Qed.




(** C6 (amended): a data line whose payload [json.loads] rejects, read
    under a label other than [endpoint], neither raises nor ends the loop:
    the loop goes on as if the line were not in the stream.  A payload that
    [json.loads] decodes to a value on which ["result" in parsed] raises
    (a number, as for [NaN], which is not JSON) ends the loop with that
    exception. *)
Theorem not_json_is_skipped (json_loads : string -> option json) (t : transport)
    (method : string) (request : json)
    (pre post : list stream_item) (line : string) (f : frame) :
  PyStr.startswith line "data: " = true ->
  is_endpoint (event_type (frame_of (feed json_loads t method request pre f))) = false ->
  (json_loads (payload_of line) = None ->
   feed json_loads t method request (pre ++ Line line :: post) f
   = feed json_loads t method request (pre ++ post) f)
  /\ (forall g v e,
        feed json_loads t method request pre f = Next g ->
        PyStr.truthy (payload_of line) = true ->
        json_loads (payload_of line) = Some v ->
        py_in "result" v = inl e ->
        feed json_loads t method request (pre ++ Line line :: post) f
        = Stop (Raise e) g).
Proof.
  intros Hd Hl. split.
  - intros Hj. rewrite !feed_app.
    destruct (feed json_loads t method request pre f) as [f1|o f1]; [|reflexivity].
    simpl in Hl. cbn [feed]. rewrite (skip_not_json _ _ _ _ _ _ Hd Hj Hl). reflexivity.
  - intros g v e Hpre Ht Hj He. rewrite Hpre in Hl. simpl in Hl.
    apply (feed_not_a_container json_loads t method request pre post line f g v e Hpre);
      [|exact He].
    unfold decoded. rewrite (data_line_is_no_event _ Hd), Hd, Hl, Ht. exact Hj.
Qed.

Lemma not_json_is_skipped_witness :
  feed loads (served session) "tools/list" tools_request
    ([Line "event: message"] ++ Line truncated :: [data (tools_text "1")]) reading
  = feed loads (served session) "tools/list" tools_request
      ([Line "event: message"] ++ [data (tools_text "1")]) reading
  /\ feed loads (served session) "tools/list" tools_request
       ([Line "event: message"] ++ Line "data: NaN" :: [data (tools_text "1")]) reading
     = Stop (Raise TypeError) reading.
Proof.
  split.
  - apply (proj1 (not_json_is_skipped loads (served session) "tools/list" tools_request
                    [Line "event: message"] [data (tools_text "1")] truncated reading
                    eq_refl eq_refl)).
    reflexivity.
  - apply (proj2 (not_json_is_skipped loads (served session) "tools/list" tools_request
                    [Line "event: message"] [data (tools_text "1")] "data: NaN" reading
                    eq_refl eq_refl) reading (JFloat "NaN") TypeError);
      reflexivity.
Defined.

(** C6 as stated fails: [NaN] is not JSON, yet [json.loads] decodes it to
    a float; ["result" in parsed] then raises [TypeError], and the call
    ends with [None] although the response follows on the stream. *)
Lemma nan_payload_ends_the_call :
  loads "NaN" = Some (JFloat "NaN")
  /\ fst (send_request loads (served session_with_nan) "tools/list" (Some (JObj [])) client)
     = Return None
  /\ fst (send_request loads (served session_without_nan) "tools/list" (Some (JObj []))
            client)
     = Return (Some (JObj [("jsonrpc", JStr "2.0"); ("id", JInt 1);
                           ("result", JObj [("tools", JArr [])])])).
Proof. vm_compute. auto. Qed.

(** C7 (amended): a failure of the transport during [send_request] is
    caught there and the caller gets [None]: when the connection is
    refused, when the stream fails while it is read (closed, timed out),
    and when a POST to the endpoint fails (at an endpoint event, or on
    the acknowledgement of the handshake).  A tool-level error on the
    stream is returned as the decoded message, which is not [None]. *)
Theorem transport_failure_returns_none (json_loads : string -> option json)
    (t : transport) (method : string) (params : option json) (c : MCPSSEClient) :
  (forall failure,
     connect t = Refused failure ->
     fst (send_request json_loads t method params c) = Return None)
  /\ (forall pre failure rest g,
        connect t = Opened 200 (pre ++ Broken failure :: rest) ->
        feed json_loads t method (request_of method params c) pre
          (enter (snd (_next_id c))) = Next g ->
        fst (send_request json_loads t method params c) = Return None)
  /\ (forall pre line rest g failure,
        connect t = Opened 200 (pre ++ Line line :: rest) ->
        feed json_loads t method (request_of method params c) pre
          (enter (snd (_next_id c))) = Next g ->
        PyStr.startswith line "data: " = true ->
        is_endpoint (event_type g) = true ->
        post_fails t (length (posts g)) = Some failure ->
        fst (send_request json_loads t method params c) = Return None)
  /\ (forall pre line rest g ack url failure,
        connect t = Opened 200 (pre ++ Line line :: rest) ->
        feed json_loads t method (request_of method params c) pre
          (enter (snd (_next_id c))) = Next g ->
        decoded json_loads line g = Some ack ->
        initialized (self g) = false ->
        is_ack ack ->
        endpoint_url g = Some url ->
        post_fails t (length (posts g)) = Some failure ->
        fst (send_request json_loads t method params c) = Return None)
  /\ (forall pre line rest g msg,
        connect t = Opened 200 (pre ++ Line line :: rest) ->
        feed json_loads t method (request_of method params c) pre
          (enter (snd (_next_id c))) = Next g ->
        decoded json_loads line g = Some msg ->
        py_in "result" msg = inr false ->
        py_in "error" msg = inr true ->
        fst (send_request json_loads t method params c) = Return (Some msg)).
Proof.
  split; [|split; [|split; [|split]]].
  - intros failure Hc. unfold send_request, send_request_body. simpl. rewrite Hc. reflexivity.
  - intros pre failure rest g Hc Hpre.
    rewrite (send_request_outcome _ _ _ _ _ _ Hc), (feed_broken _ _ _ _ _ _ _ _ _ Hpre).
    reflexivity.
  - intros pre line rest g failure Hc Hpre Hd Hl Hp.
    rewrite (send_request_outcome _ _ _ _ _ _ Hc).
    destruct (feed_post_fails json_loads t method (request_of method params c)
                pre rest line failure _ g Hpre Hd Hl Hp) as (g' & ->).
    reflexivity.
  - intros pre line rest g ack url failure Hc Hpre Hd Hi Ha Hu Hp.
    rewrite (send_request_outcome _ _ _ _ _ _ Hc).
    destruct (feed_ack_post_fails json_loads t method (request_of method params c)
                pre rest line url failure _ g ack Hpre Hd Hi Ha Hu Hp) as (g' & ->).
    reflexivity.
  - intros pre line rest g msg Hc Hpre Hd Hr He.
    apply (response_is_returned _ _ _ _ _ _ _ _ _ _ Hc Hpre Hd). right. auto.
Qed.

Lemma transport_failure_returns_none_witness :
  fst (send_request loads unreachable "tools/list" (Some (JObj [])) client) = Return None
  /\ fst (send_request loads closing "tools/list" (Some (JObj [])) client) = Return None
  /\ fst (send_request loads timing_out "tools/list" (Some (JObj [])) client) = Return None
  /\ fst (send_request loads timing_out_later "tools/list" (Some (JObj [])) client)
     = Return None
  /\ fst (send_request loads (served session_with_error) "tools/list" (Some (JObj []))
            client)
     = Return (Some (JObj [("jsonrpc", JStr "2.0"); ("id", JInt 1);
                           ("error", JObj [("code", JInt (-32602))])])).
Proof.
  split; [|split; [|split; [|split]]].
  - apply (proj1 (transport_failure_returns_none loads unreachable "tools/list"
                    (Some (JObj [])) client) ConnectionRefused).
    reflexivity.
  - eapply (proj1 (proj2 (transport_failure_returns_none loads closing "tools/list"
                            (Some (JObj [])) client))
              [Line "event: endpoint"; data "/session/abc";
               Line "event: message"; data ack_text] StreamClosed []);
      [reflexivity | vm_compute; reflexivity].
  - eapply (proj1 (proj2 (proj2 (transport_failure_returns_none loads timing_out
                                   "tools/list" (Some (JObj [])) client)))
              [Line "event: endpoint"] "data: /session/abc"
              [Line ""; Line "event: message"; data ack_text; Line "";
               Line "event: message"; data (tools_text "1"); Line ""] _ TimedOut);
      [reflexivity | vm_compute; reflexivity | reflexivity | reflexivity | reflexivity].
  - eapply (proj1 (proj2 (proj2 (proj2 (transport_failure_returns_none loads
                                          timing_out_later "tools/list"
                                          (Some (JObj [])) client))))
              [Line "event: endpoint"; data "/session/abc"; Line "";
               Line "event: message"]
              ("data: " +:+ ack_text)
              [Line ""; Line "event: message"; data (tools_text "1"); Line ""] _
              (JObj [("jsonrpc", JStr "2.0"); ("id", JInt 2);
                     ("result", JObj [("capabilities", JObj [])])])
              "http://127.0.0.1:8010/session/abc" TimedOut);
      [reflexivity | vm_compute; reflexivity | vm_compute; reflexivity | reflexivity
      | exists (JObj [("capabilities", JObj [])]); split; reflexivity
      | reflexivity | reflexivity].
  - eapply (proj2 (proj2 (proj2 (proj2 (transport_failure_returns_none loads
                                          (served session_with_error) "tools/list"
                                          (Some (JObj [])) client))))
              [Line "event: endpoint"; data "/session/abc";
               Line "event: message"; data ack_text; Line "event: message"]
              ("data: " +:+ error_text) []);
      [reflexivity | vm_compute; reflexivity | vm_compute; reflexivity
      | reflexivity | reflexivity].
Defined.

(** C7 as stated fails: the connection is refused, and the caller gets
    [None], not an exception. *)
Lemma refused_connection_returns_none :
  fst (send_request_body loads unreachable "tools/list" tools_request
         (snd (_next_id client))) = Raise (TransportError ConnectionRefused)
  /\ fst (send_request loads unreachable "tools/list" (Some (JObj [])) client)
     = Return None.
Proof. split; reflexivity. Qed.

End SSEClientClaims.

(** ** The order of the floats *)
Section FloatOrder.

Lemma SFltb_irrefl (x : spec_float) : SFltb x x = false.
Proof.
  unfold SFltb, SFcompare. destruct x as [s|s| |s m e]; try (destruct s; reflexivity).
  - reflexivity.
  - rewrite Z.compare_refl. change (PosDef.Pos.compare_cont Eq m m) with (Pos.compare m m).
    rewrite Pos.compare_refl. destruct s; reflexivity.
Qed.

Lemma SFltb_trans (x y z : spec_float) :
  SFltb x y = true -> SFltb y z = true -> SFltb x z = true.
Proof.
  unfold SFltb, SFcompare.
  destruct x as [sx|sx| |sx mx ex], y as [sy|sy| |sy my ey], z as [sz|sz| |sz mz ez];
    try discriminate; try (destruct sx, sy, sz; (reflexivity || discriminate));
    try (destruct sx, sy; (reflexivity || discriminate));
    try (destruct sx, sz; (reflexivity || discriminate));
    try (destruct sy, sz; (reflexivity || discriminate)).
  all: change (PosDef.Pos.compare_cont Eq) with Pos.compare.
  all: destruct sx, sy, sz; try (reflexivity || discriminate).
  all: try (destruct (Z.compare_spec ex ey); discriminate).
  all: try (destruct (Z.compare_spec ey ez); discriminate).
  all: destruct (Z.compare_spec ex ey), (Z.compare_spec ey ez),
         (Z.compare_spec ex ez); subst; try lia; try discriminate; try reflexivity.
  all: destruct (Pos.compare_spec mx my), (Pos.compare_spec my mz),
         (Pos.compare_spec mx mz); subst; simpl; try lia; try discriminate;
         try reflexivity.
Qed.

Lemma ltb_irrefl (x : float) : (x <? x)%float = false.
Proof. rewrite FloatAxioms.ltb_spec. apply SFltb_irrefl. Qed.

Lemma ltb_trans (x y z : float) :
  (x <? y)%float = true -> (y <? z)%float = true -> (x <? z)%float = true.
Proof. rewrite !FloatAxioms.ltb_spec. apply SFltb_trans. Qed.

End FloatOrder.

(** ** The weather tool handler *)
Section WeatherClaims.
Import Json WeatherServer Samples.

(** C5 (amended): for every tool name other than [get_weather] and
    [get_forecast] and any arguments, [call_tool] returns, without raising,
    one ordinary text content whose text is [Error: Unknown tool '<name>']:
    a result of the call, not an error response. *)
Theorem unknown_tool_is_text (s : services) (tool : string)
    (arguments : list (string * json)) :
  tool <> "get_weather" -> tool <> "get_forecast" ->
  call_tool s tool arguments
  = Returned [{| type := "text"; text := "Error: Unknown tool '" +:+ tool +:+ "'" |}].
Proof.
  intros Hw Hf. unfold call_tool.
  destruct (String.eqb_spec tool "get_weather"); [contradiction|].
  destruct (String.eqb_spec tool "get_forecast"); [contradiction|].
  reflexivity.
Qed.

Lemma unknown_tool_is_text_witness :
  call_tool no_city "get_time" [("city", JStr "London")]
  = Returned [{| type := "text"; text := "Error: Unknown tool 'get_time'" |}].
Proof.
  apply (unknown_tool_is_text no_city "get_time" [("city", JStr "London")]);
    discriminate.
Defined.

(** C5 as stated fails: the response to an unknown tool is a result, and
    its text is not [Unknown tool 'get_time']. *)
Lemma unknown_tool_is_no_error :
  respond (call_tool no_city "get_time" [("city", JStr "London")])
  = Result [{| type := "text"; text := "Error: Unknown tool 'get_time'" |}]
  /\ respond (call_tool no_city "get_time" [("city", JStr "London")])
     <> Error "Unknown tool 'get_time'".
Proof. split; [reflexivity | discriminate]. Qed.

End WeatherClaims.

(** ** The stock ledger *)
Section LedgerClaims.
Import PyFloat StockLedger Samples.

Lemma rows_written_positive (portfolio : gmap string Z) :
  map_Forall (fun _ qty => (0 < qty)%Z) (rows_written portfolio).
Proof.
  intros k qty H. unfold rows_written in H.
  apply map_lookup_filter_Some in H as [_ H]. exact H.
Qed.

Lemma write_portfolio_positive (portfolio : gmap string Z) (l : ledger) :
  positions_positive (write_portfolio portfolio l).
Proof.
  intros rows [= <-] k qty H. apply rows_written_positive in H. simpl in H. lia.
Qed.

Lemma read_portfolio_positive (l : ledger) :
  positions_positive l -> positions_positive (snd (read_portfolio l)).
Proof.
  unfold read_portfolio, init_portfolio_csv.
  destruct (portfolio_csv l) as [rows|] eqn:Hl; simpl; [auto|].
  intros _ rows [= <-] k qty H. rewrite lookup_empty in H. discriminate H.
Qed.

(** C8: [write_portfolio] writes no row with a quantity of zero or less,
    and [buy_stock] and [sell_stock] keep every stored quantity at one or
    more; a sale of all the shares of a stock removes its row. *)
Theorem positions_stay_positive (stock_id : string) (quantity : Z)
    (portfolio : gmap string Z) (l : ledger) :
  positions_positive l ->
  map_Forall (fun _ qty => (0 < qty)%Z) (rows_written portfolio)
  /\ positions_positive (write_portfolio portfolio l)
  /\ positions_positive (snd (buy_stock stock_id quantity l))
  /\ positions_positive (snd (sell_stock stock_id quantity l))
  /\ ((0 < quantity)%Z ->
      fst (read_portfolio l) !! normalize stock_id = Some quantity ->
      exists rows, portfolio_csv (snd (sell_stock stock_id quantity l)) = Some rows
                   /\ rows !! normalize stock_id = None).
Proof.
  intros Hl. pose proof (read_portfolio_positive l Hl) as Hr.
  split; [apply rows_written_positive|].
  split; [apply write_portfolio_positive|].
  split; [|split].
  - unfold buy_stock. destruct (quantity <=? 0)%Z; [exact Hl|].
    destruct (read_portfolio l) as [p l1]. apply write_portfolio_positive.
  - unfold sell_stock. destruct (quantity <=? 0)%Z; [exact Hl|].
    destruct (read_portfolio l) as [p l1]. simpl in Hr.
    destruct (p !! normalize stock_id) as [available|]; [|exact Hr].
    destruct (available <? quantity)%Z; [exact Hr|].
    apply write_portfolio_positive.
  - intros Hq Hheld. unfold sell_stock.
    destruct (Z.leb_spec quantity 0); [lia|].
    destruct (read_portfolio l) as [p l1]. simpl in Hheld. rewrite Hheld.
    rewrite Z.ltb_irrefl, Z.sub_diag. simpl.
    eexists. split; [reflexivity|].
    unfold rows_written. apply map_lookup_filter_None. left. apply lookup_delete_eq.
Qed.

Lemma positions_stay_positive_witness :
  map_Forall (fun _ qty => (0 < qty)%Z) (rows_written {[ "AAPL" := 10%Z; "GOOGL" := 0%Z ]})
  /\ positions_positive (write_portfolio {[ "AAPL" := 10%Z; "GOOGL" := 0%Z ]} opened)
  /\ positions_positive (snd (buy_stock " aapl " 10 opened))
  /\ positions_positive (snd (sell_stock " aapl " 10 opened))
  /\ ((0 < 10)%Z ->
      fst (read_portfolio opened) !! normalize " aapl " = Some 10%Z ->
      exists rows, portfolio_csv (snd (sell_stock " aapl " 10 opened)) = Some rows
                   /\ rows !! normalize " aapl " = None).
Proof.
  apply positions_stay_positive.
  intros rows [= <-] k qty H.
  apply lookup_singleton_Some in H as [_ <-]. lia.
Defined.



End LedgerClaims.

(** ** Document search *)
Section SearchClaims.
Import ChromaSearch Samples.

(** [min] keeps an element that no other element is below. *)
Lemma py_min_spec (others : list float) (first : float) :
  (py_min first others = first \/ (py_min first others <? first)%float = true)
  /\ In (py_min first others) (first :: others)
  /\ (forall s, In s others -> (s <? py_min first others)%float = false).
Proof.
  unfold py_min. revert first.
  induction others as [|a others IH]; intros first; simpl.
  - split; [left; reflexivity|]. split; [left; reflexivity | intros s []].
  - specialize (IH (if (a <? first)%float then a else first)).
    destruct IH as (Hrel & Hin & Hmin).
    set (m := fold_left _ others _) in *.
    destruct (a <? first)%float eqn:Ha.
    + split; [|split].
      * right. destruct Hrel as [-> | Hlt]; [exact Ha | eapply ltb_trans; eauto].
      * destruct Hin as [<- | Hin]; auto.
      * intros s [<- | Hs]; [|auto].
        destruct Hrel as [-> | Hlt]; [apply ltb_irrefl|].
        destruct (a <? m)%float eqn:Ham; [|reflexivity].
        pose proof (ltb_trans _ _ _ Hlt Ham) as Hmm.
        rewrite ltb_irrefl in Hmm. discriminate Hmm.
    + split; [|split].
      * exact Hrel.
      * destruct Hin as [<- | Hin]; auto.
      * intros s [<- | Hs]; [|auto].
        destruct Hrel as [-> | Hlt]; [exact Ha|].
        destruct (a <? m)%float eqn:Ham; [|reflexivity].
        pose proof (ltb_trans _ _ _ Ham Hlt) as Haf. congruence.
Qed.

Lemma py_min_is_least (first : float) (others : list float) :
  In (py_min first others) (first :: others)
  /\ forall s, In s (first :: others) -> (s <? py_min first others)%float = false.
Proof.
  destruct (py_min_spec others first) as (Hrel & Hin & Hmin).
  split; [exact Hin|]. intros s [<- | Hs]; [|auto].
  destruct Hrel as [-> | Hlt]; [apply ltb_irrefl|].
  destruct (first <? py_min first others)%float eqn:Hf; [|reflexivity].
  pose proof (ltb_trans _ _ _ Hlt Hf) as Hmm. rewrite ltb_irrefl in Hmm. discriminate Hmm.
Qed.

(** C10: for a query [blank] that is empty or made of whitespace only,
    [document_search] returns [max_score] 1.0 and no chunk, without a query
    to the store; for a query that is not blank and a non-empty result the
    [max_score] is a score of the result that no score of the result is
    below, the chunks are the contents of the results, and there are at
    most 3 of them (the store returns at most [k] results). *)
Theorem document_search_spec (db : vector_store) (blank query : string) :
  (forall q k, length (db q k) <= k) ->
  PyStr.all_space blank = true ->
  PyStr.all_space query = false ->
  scores_of db query <> [] ->
  document_search db blank = ({| max_score := 1; chunks := [] |}, [])
  /\ In (max_score (fst (document_search db query))) (scores_of db query)
  /\ (forall s, In s (scores_of db query) ->
        (s <? max_score (fst (document_search db query)))%float = false)
  /\ chunks (fst (document_search db query))
     = List.map (fun r => page_content (fst r)) (db query TOP_K)
  /\ length (chunks (fst (document_search db query))) <= 3.
Proof.
  intros Hk Hb Hq Hs. split.
  - unfold document_search. rewrite truthy_strip_blank, Hb, orb_true_r. reflexivity.
  - unfold document_search, scores_of in *. rewrite truthy_strip_blank, Hq.
    destruct query as [|c r]; [discriminate Hq|]. simpl.
    destruct (List.map snd (db (String c r) TOP_K)) as [|first others] eqn:Hscores;
      [contradiction Hs; reflexivity|].
    simpl. destruct (py_min_is_least first others) as [Hin Hleast].
    split; [exact Hin|]. split; [exact Hleast|]. split; [reflexivity|].
    rewrite length_map. apply (Hk (String c r) TOP_K).
Qed.

Lemma document_search_spec_witness :
  document_search two_chunks "   " = ({| max_score := 1; chunks := [] |}, [])
  /\ In (max_score (fst (document_search two_chunks "refund")))
       (scores_of two_chunks "refund")
  /\ (forall s, In s (scores_of two_chunks "refund") ->
        (s <? max_score (fst (document_search two_chunks "refund")))%float = false)
  /\ chunks (fst (document_search two_chunks "refund"))
     = List.map (fun r => page_content (fst r)) (two_chunks "refund" TOP_K)
  /\ length (chunks (fst (document_search two_chunks "refund"))) <= 3.
Proof.
  apply (document_search_spec two_chunks "   " "refund").
  - intros q k. unfold two_chunks. rewrite length_take. lia.
  - reflexivity.
  - reflexivity.
  - vm_compute. discriminate.
Defined.

End SearchClaims.

(* ===================================================================== *)
(** * Part III: further properties of the code                            *)
(* ===================================================================== *)

(** ** The streaming-HTTP client *)
Section SSEClientMore.
Import Json JsonText SSEClient Samples.

Variable json_loads : string -> option json.
Variable t : transport.
Variable method : string.
Variable request : json.

#[local] Arguments post_error : simpl never.
#[local] Abbreviation step := (on_line json_loads t method request).
#[local] Abbreviation run := (feed json_loads t method request).

(** The POST and the counter after a data line under the label
    [endpoint]. *)
Lemma on_endpoint_post (data : string) (f : frame) :
  let f' := frame_of (on_endpoint t method request data f) in
  let handshake := negb (initialized (self f)) && negb (String.eqb method "initialize") in
  posts f' = posts f ++
    [{| post_url := Some (base_url (self f) +:+ data);
        post_body := if handshake then init_payload (message_id (self f) + 1) else request;
        post_ready := initialized (self f) |}]
  /\ message_id (self f')
     = (if handshake then message_id (self f) + 1 else message_id (self f))%Z.
Proof.
  unfold on_endpoint, post, _next_id. simpl.
  destruct (negb (initialized (self f)) && negb (String.eqb method "initialize")); simpl;
    destruct (post_error _ _ _); simpl; auto.
Qed.

(** What a line adds to the POSTs: nothing, or one POST. *)
Lemma step_posts (line : string) (f : frame) :
  let f' := frame_of (step line f) in
  (posts f' = posts f /\ self f' = self f /\ endpoint_url f' = endpoint_url f)
  \/ (is_endpoint (event_type f) = true
      /\ step line f = on_endpoint t method request (payload_of line) f)
  \/ (initialized (self f) = false
      /\ f' = posted (endpoint_url f) request (set_initialized f)
      /\ (endpoint_url f = None -> exists e, step line f = Stop (Raise e) f')).
Proof.
  destruct (step_effect json_loads t method request line f)
    as [(_ & _ & _ & Hf) | [(_ & _ & Hl & Hs) | [(_ & Hf & _) | (_ & _ & Hi & _ & Hf & Hn)]]].
  - left. rewrite Hf. auto.
  - right; left. auto.
  - left. rewrite Hf. auto.
  - right; right. auto.
Qed.

(** What one line does to the POSTs, to [endpoint_url] and to the endpoint
    events still open. *)
Lemma step_endpoint_data (line : string) (f : frame) (rest : list stream_item) :
  let f' := frame_of (step line f) in
  let open := endpoint_data (is_endpoint (event_type f)) (Line line :: rest) in
  let url := Some (base_url (self f) +:+ payload_of line) in
  base_url (self f') = base_url (self f)
  /\ (endpoint_url f' = endpoint_url f
      \/ endpoint_url f' = url /\ In (payload_of line) open)
  /\ (posts f' = posts f
      \/ exists e, posts f' = posts f ++ [e]
                   /\ (post_url e = endpoint_url f
                       \/ post_url e = url /\ In (payload_of line) open))
  /\ (forall g, step line f = Next g ->
        forall d, In d (endpoint_data (is_endpoint (event_type g)) rest) -> In d open).
Proof.
  cbn zeta. cbn [endpoint_data]. unfold on_line. fold (payload_of line).
  destruct (PyStr.startswith line "event: ") eqn:He.
  { simpl. repeat split; auto. intros g [= <-] d Hd. exact Hd. }
  destruct (PyStr.startswith line "data: ") eqn:Hd.
  2:{ simpl. repeat split; auto. intros g [= <-] d Hin. exact Hin. }
  destruct (is_endpoint (event_type f)) eqn:Hl.
  - pose proof (on_endpoint_frame t method request (payload_of line) f)
      as (_ & Hurl & Hkept & _ & body & Hposts & _).
    split; [exact Hkept|]. split; [right; split; [exact Hurl | left; reflexivity]|].
    split.
    + right. eexists. split; [exact Hposts|]. right. split; [reflexivity | left; reflexivity].
    + intros g Hg d Hin. apply on_endpoint_next in Hg. rewrite Hg in Hin. right. exact Hin.
  - assert (forall parsed,
              let f' := frame_of (on_message t request parsed f) in
              base_url (self f') = base_url (self f)
              /\ endpoint_url f' = endpoint_url f
              /\ (posts f' = posts f
                  \/ exists e, posts f' = posts f ++ [e] /\ post_url e = endpoint_url f)
              /\ event_type f' = event_type f) as Hmsg.
    { intros parsed.
      destruct (on_message_cases t request parsed f)
        as [(-> & _) | [(_ & _ & ->) | (e & -> & _)]].
      - rewrite check_response_frame. auto.
      - destruct (post_error _ _ _); simpl; repeat split; eauto.
      - simpl. auto. }
    destruct (PyStr.truthy (payload_of line)).
    2:{ simpl. repeat split; auto. intros g [= <-] d Hin. rewrite Hl in Hin. exact Hin. }
    destruct (json_loads (payload_of line)) as [parsed|].
    2:{ simpl. repeat split; auto. intros g [= <-] d Hin. rewrite Hl in Hin. exact Hin. }
    destruct (Hmsg parsed) as (Hb & Hu & Hp & Ht).
    split; [exact Hb|]. split; [left; exact Hu|]. split.
    + destruct Hp as [Hp | (e & Hp & Hpe)]; [left; exact Hp | right; eauto].
    + intros g Hg d Hin. rewrite Hg in Ht. simpl in Ht. rewrite Ht, Hl in Hin. exact Hin.
Qed.

(** Every POST goes to the base URL followed by the data of an endpoint
    event of the stream. *)
Lemma posts_to_endpoint (all items : list stream_item) (f : frame) :
  (forall d, In d (endpoint_data (is_endpoint (event_type f)) items) ->
             In d (endpoint_data false all)) ->
  to_endpoint (base_url (self f)) all (endpoint_url f) ->
  Forall (fun e => to_endpoint (base_url (self f)) all (post_url e)) (posts f) ->
  Forall (fun e => to_endpoint (base_url (self f)) all (post_url e))
    (posts (frame_of (run items f))).
Proof.
  intros Hd Hu Hp. remember (base_url (self f)) as base eqn:Hbase.
  apply (feed_invariant json_loads t method request
           (fun g rest =>
              base_url (self g) = base
              /\ (forall d, In d (endpoint_data (is_endpoint (event_type g)) rest) ->
                            In d (endpoint_data false all))
              /\ to_endpoint base all (endpoint_url g)
              /\ Forall (fun e => to_endpoint base all (post_url e)) (posts g))
           (fun g => Forall (fun e => to_endpoint base all (post_url e)) (posts g)));
    [tauto | | auto].
  clear Hd Hu Hp. intros line g rest (Hb & Hd & Hu & Hp).
  destruct (step_endpoint_data line g rest) as (Hb' & Hu' & Hp' & Hd').
  assert (Forall (fun e => to_endpoint base all (post_url e))
            (posts (frame_of (step line g)))) as Hposts.
  { destruct Hp' as [-> | (e & -> & He)]; [exact Hp|].
    apply Forall_app. split; [exact Hp|]. constructor; [|constructor].
    destruct He as [-> | (-> & Hin)]; [exact Hu|].
    right. exists (payload_of line). rewrite Hb. split; [apply Hd, Hin | reflexivity]. }
  destruct (step line g) as [g'|o g'] eqn:Hs; [|exact Hposts]. simpl in *.
  split; [congruence|]. split; [|split; [|exact Hposts]].
  - intros d Hin. apply Hd. eapply Hd'; [reflexivity | exact Hin].
  - destruct Hu' as [-> | (-> & Hin)]; [exact Hu|].
    right. exists (payload_of line). rewrite Hb. split; [apply Hd, Hin | reflexivity].
Qed.

(** An initialized client stays initialized and POSTs only the request. *)
Lemma ready_stays_ready (items : list stream_item) (f : frame) :
  initialized (self f) = true ->
  Forall (fun e => post_body e = request /\ post_ready e = true) (posts f) ->
  initialized (self (frame_of (run items f))) = true
  /\ Forall (fun e => post_body e = request /\ post_ready e = true)
       (posts (frame_of (run items f))).
Proof.
  intros Hi Hp.
  apply (feed_invariant json_loads t method request
           (fun g _ => initialized (self g) = true
                       /\ Forall (fun e => post_body e = request /\ post_ready e = true)
                            (posts g))
           (fun g => initialized (self g) = true
                     /\ Forall (fun e => post_body e = request /\ post_ready e = true)
                          (posts g))); [tauto | | auto].
  clear f Hi Hp. intros line g rest (Hi & Hp).
  assert (initialized (self (frame_of (step line g))) = true
          /\ Forall (fun e => post_body e = request /\ post_ready e = true)
               (posts (frame_of (step line g)))) as Hgoal;
    [| destruct (step line g); tauto].
  destruct (step_posts line g) as [(H1 & H2 & H3) | [(_ & Hs) | (Hi' & _)]];
    [| | congruence].
  - rewrite H1, H2. auto.
  - pose proof (on_endpoint_frame t method request (payload_of line) g)
      as (_ & _ & _ & Hinit & _).
    pose proof (on_endpoint_post (payload_of line) g) as (Hposts & _).
    rewrite Hs, Hinit, Hposts, Hi. simpl. split; [reflexivity|].
    apply Forall_app. split; [exact Hp|]. constructor; [|constructor]. auto.
Qed.

(** The [initialize] requests carry the ids that follow [id0], one after
    the other, and the counter is the last of them. *)
Lemma handshake_ids (id0 : Z) (items : list stream_item) (f : frame) :
  (forall url ready,
     initialize_ids [{| post_url := url; post_body := request; post_ready := ready |}] = []) ->
  message_id (self f) = id0 ->
  initialize_ids (posts f) = [] ->
  exists n, message_id (self (frame_of (run items f))) = (id0 + Z.of_nat n)%Z
            /\ initialize_ids (posts (frame_of (run items f))) = ids_after id0 n.
Proof.
  intros Hreq Hm Hp.
  apply (feed_invariant json_loads t method request
           (fun g _ => exists n, message_id (self g) = (id0 + Z.of_nat n)%Z
                                 /\ initialize_ids (posts g) = ids_after id0 n)
           (fun g => exists n, message_id (self g) = (id0 + Z.of_nat n)%Z
                               /\ initialize_ids (posts g) = ids_after id0 n));
    [auto | | exists 0; split; [lia | exact Hp]].
  clear f Hm Hp. intros line g rest (n & Hn & Hids).
  assert (exists n', message_id (self (frame_of (step line g))) = (id0 + Z.of_nat n')%Z
                     /\ initialize_ids (posts (frame_of (step line g))) = ids_after id0 n')
    as Hgoal; [| destruct (step line g); exact Hgoal].
  destruct (step_posts line g) as [(H1 & H2 & H3) | [(_ & Hs) | (_ & Hf & _)]].
  - exists n. rewrite H1, H2. auto.
  - pose proof (on_endpoint_post (payload_of line) g) as (Hposts & Hmid).
    rewrite Hs, Hposts, Hmid. unfold initialize_ids. rewrite flat_map_app.
    fold (initialize_ids (posts g)). rewrite Hids.
    destruct (negb (initialized (self g)) && negb (String.eqb method "initialize")).
    + exists (S n). split; [lia|].
      unfold ids_after. rewrite seq_S, List.map_app. simpl.
      rewrite Hn. do 2 f_equal. lia.
    + exists n. split; [exact Hn|].
      change (flat_map _ [?e]) with (initialize_ids [e]).
      rewrite Hreq, app_nil_r. reflexivity.
  - exists n. rewrite Hf. simpl. split; [exact Hn|].
    unfold initialize_ids. rewrite flat_map_app.
    fold (initialize_ids (posts g)). rewrite Hids.
    change (flat_map _ [?e]) with (initialize_ids [e]).
    rewrite Hreq, app_nil_r. reflexivity.
Qed.

(** For an uninitialized client the first POST with a URL is the
    [initialize]. *)
Lemma handshake_comes_first (items : list stream_item) (f : frame) :
  method <> "initialize" ->
  initialized (self f) = false ->
  endpoint_url f = None ->
  posts f = [] ->
  handshake_first (posts (frame_of (run items f))).
Proof.
  intros Hm Hi Hu Hp.
  apply (feed_invariant json_loads t method request
           (fun g _ => (posts g = [] /\ endpoint_url g = None
                        /\ initialized (self g) = false)
                       \/ (posts g <> [] /\ handshake_first (posts g)))
           (fun g => handshake_first (posts g))); [| | left; auto].
  { intros g _ [(-> & _) | (_ & H)]; [exact I | exact H]. }
  clear f Hi Hu Hp. intros line g rest HP.
  assert ((posts (frame_of (step line g)) = [] /\ endpoint_url (frame_of (step line g)) = None
           /\ initialized (self (frame_of (step line g))) = false)
          \/ (posts (frame_of (step line g)) <> []
              /\ handshake_first (posts (frame_of (step line g))))) as Hgoal.
  { destruct (step_posts line g) as [(H1 & H2 & H3) | [(_ & Hs) | (_ & Hf & _)]].
    - rewrite H1, H2, H3. exact HP.
    - right. pose proof (on_endpoint_post (payload_of line) g) as (Hposts & _).
      rewrite Hs, Hposts.
      destruct HP as [(Hnil & _ & Hinit) | (Hne & Hfirst)].
      + rewrite Hnil, Hinit. simpl. split; [discriminate|].
        destruct (String.eqb_spec method "initialize"); [contradiction|].
        simpl. right. eauto.
      + destruct (posts g) as [|first others]; [contradiction|].
        split; [discriminate | exact Hfirst].
    - right. rewrite Hf. simpl.
      destruct HP as [(Hnil & Hnone & _) | (Hne & Hfirst)].
      + rewrite Hnil, Hnone. simpl. split; [discriminate | left; reflexivity].
      + destruct (posts g) as [|first others]; [contradiction|].
        split; [discriminate | exact Hfirst]. }
  destruct (step line g); simpl in Hgoal; [exact Hgoal|].
  destruct Hgoal as [(-> & _) | (_ & H)]; [exact I | exact H].
Qed.

(** At most one endpoint is resolved per endpoint label, and at most one
    POST is issued per endpoint label, plus one for the acknowledgement
    of an uninitialized client. *)
Lemma work_is_bounded (items : list stream_item) (f : frame) :
  let f' := frame_of (run items f) in
  length (resolved f') <= length (resolved f) + pending f items
  /\ length (posts f')
     <= length (posts f) + pending f items + (if initialized (self f) then 0 else 1).
Proof.
  remember (length (resolved f) + pending f items) as r0 eqn:Hr0.
  remember (length (posts f) + pending f items
            + (if initialized (self f) then 0 else 1)) as p0 eqn:Hp0.
  apply (feed_invariant json_loads t method request
           (fun g rest =>
              length (resolved g) + pending g rest <= r0
              /\ length (posts g) + pending g rest
                 + (if initialized (self g) then 0 else 1) <= p0)
           (fun g => length (resolved g) <= r0 /\ length (posts g) <= p0)).
  - intros g rest (H1 & H2). split; lia.
  - clear Hr0 Hp0. intros line g rest (H1 & H2). rewrite pending_cons in H1, H2.
    destruct (step_effect json_loads t method request line g)
      as [(He & _ & Hs & Hf) | [(He & _ & Hl & Hs) | [(He & Hf & _)
         | (He & Hl & Hgi & _ & Hf & _)]]].
    + rewrite Hs. set (g' := frame_of (step line g)) in *.
      assert (pending g' rest
              <= pending g rest + (if is_endpoint_event (Line line) then 1 else 0)) as Hle
        by (unfold pending; rewrite He; destruct (is_endpoint (event_type g')); lia).
      assert (posts g' = posts g /\ self g' = self g /\ resolved g' = resolved g)
        as (Hp1 & Hp2 & Hp3) by (rewrite Hf; auto).
      rewrite Hp1, Hp2, Hp3. split; lia.
    + rewrite He in H1, H2.
      assert (1 <= pending g rest) as Hge by (unfold pending; rewrite Hl; lia).
      pose proof (on_endpoint_frame t method request (payload_of line) g)
        as (Hres & _ & _ & Hi' & body & Hp' & _).
      rewrite <- Hs in Hres, Hi', Hp'.
      assert (length (resolved (frame_of (step line g))) = length (resolved g) + 1
              /\ length (posts (frame_of (step line g))) = length (posts g) + 1)
        as (Hlr & Hlp) by (rewrite Hres, Hp', !length_app; simpl; lia).
      destruct (step line g) as [g'|o g'] eqn:Hstep; simpl in Hi', Hlr, Hlp;
        rewrite Hlr, Hlp; [rewrite Hi'|].
      * symmetry in Hs. apply on_endpoint_next in Hs.
        assert (pending g' rest + 1 = pending g rest) as Hdec
          by (unfold pending; rewrite Hs, Hl; simpl; lia).
        split; lia.
      * split; lia.
    + rewrite He in H1, H2.
      destruct (step line g) as [g'|o g']; simpl in Hf; subst g'; split; lia.
    + rewrite He in H1, H2. rewrite Hgi in H2.
      assert (length (posts (frame_of (step line g))) = length (posts g) + 1
              /\ resolved (frame_of (step line g)) = resolved g
              /\ initialized (self (frame_of (step line g))) = true
              /\ event_type (frame_of (step line g)) = event_type g)
        as (Hlp & Hlr & Hi' & Hev)
        by (rewrite Hf; simpl; rewrite length_app; simpl; auto with lia).
      destruct (step line g) as [g'|o g']; simpl in Hlp, Hlr, Hi', Hev;
        rewrite Hlp, Hlr; [rewrite Hi'|split; lia].
      unfold pending in *. rewrite Hev. split; lia.
  - subst. split; lia.
Qed.

End SSEClientMore.

(** ** The streaming-HTTP client: what a call does *)
Section SSEClientCalls.
Import Json JsonText SSEClient Samples.

Lemma request_is_no_initialize (method : string) (params : option json)
    (c : MCPSSEClient) (url : option string) (ready : bool) :
  method <> "initialize" ->
  initialize_ids [{| post_url := url; post_body := request_of method params c;
                     post_ready := ready |}] = [].
Proof.
  intros Hm. unfold initialize_ids, request_of, request_payload. cbn.
  destruct (String.eqb_spec method "initialize"); [contradiction | reflexivity].
Qed.

(** X1: A refused connection or a status other than 200 costs one message id
    and nothing else: the call returns [None] and no POST is issued. *)
Theorem no_stream_no_post (json_loads : string -> option json)
    (t : transport) (method : string) (params : option json)
    (c : MCPSSEClient) :
  (forall items, connect t <> Opened 200 items) ->
  fst (send_request json_loads t method params c) = Return None
  /\ posts (snd (send_request json_loads t method params c)) = []
  /\ initialized (self (snd (send_request json_loads t method params c))) = initialized c
  /\ message_id (self (snd (send_request json_loads t method params c)))
     = (message_id c + 1)%Z.
Proof.
  intros Hno. unfold send_request, send_request_body. simpl.
  destruct (connect t) as [failure|status items] eqn:Hc; simpl; [auto|].
  destruct (Z.eqb_spec status 200) as [->|Hs]; simpl; [|auto].
  exfalso. exact (Hno items eq_refl).
Qed.

Lemma no_stream_no_post_witness :
  fst (send_request loads unavailable "tools/list" None client) = Return None
  /\ posts (snd (send_request loads unavailable "tools/list" None client)) = []
  /\ initialized (self (snd (send_request loads unavailable "tools/list" None client)))
     = initialized client
  /\ message_id (self (snd (send_request loads unavailable "tools/list" None client)))
     = (message_id client + 1)%Z.
Proof.
  apply (no_stream_no_post loads unavailable "tools/list" None client).
  intros items. discriminate.
Defined.

(** X2: Every POST of a call goes to the base URL of the client followed by
    the data of an endpoint event of the stream (or has no URL and is
    refused before it is sent). *)
Theorem posts_go_to_base_url (json_loads : string -> option json)
    (t : transport) (method : string) (params : option json)
    (c : MCPSSEClient) :
  Forall (fun e => to_endpoint (base_url c) (stream_of t) (post_url e))
    (posts (snd (send_request json_loads t method params c))).
Proof.
  rewrite send_request_frame. unfold stream_of.
  destruct (connect t) as [failure|status items]; [constructor|].
  destruct (negb _); [constructor|].
  apply (posts_to_endpoint json_loads t method (request_of method params c) items items
           (enter (snd (_next_id c)))); [auto | left; reflexivity | constructor].
Qed.

(** X3: An initialized client sends no handshake: it stays initialized and
    every POST of the call is the request itself. *)
Theorem initialized_client_posts_request_only (json_loads : string -> option json)
    (t : transport) (method : string)
    (params : option json) (c : MCPSSEClient) :
  initialized c = true ->
  initialized (self (snd (send_request json_loads t method params c))) = true
  /\ Forall (fun e => post_body e = request_of method params c /\ post_ready e = true)
       (posts (snd (send_request json_loads t method params c))).
Proof.
  intros Hi. rewrite send_request_frame.
  destruct (connect t) as [failure|status items]; [split; [exact Hi | constructor]|].
  destruct (negb _); [split; [exact Hi | constructor]|].
  apply ready_stays_ready; [exact Hi | constructor].
Qed.

Lemma initialized_client_posts_request_only_witness :
  initialized (self (snd (send_request loads (served session) "tools/list" None
                            ready_client))) = true
  /\ Forall (fun e => post_body e = request_of "tools/list" None ready_client
                      /\ post_ready e = true)
       (posts (snd (send_request loads (served session) "tools/list" None ready_client))).
Proof.
  apply (initialized_client_posts_request_only loads (served session) "tools/list" None
           ready_client).
  reflexivity.
Defined.

(** X4: The request takes the id after the client's counter, and the
    [initialize] requests of the call take the ids that follow it, one each,
    in the order of issue; the counter ends at the last id given. *)
Theorem handshake_ids_follow_request (json_loads : string -> option json)
    (t : transport) (method : string)
    (params : option json) (c : MCPSSEClient) :
  method <> "initialize" ->
  member "id" (request_of method params c) = Some (JInt (message_id c + 1))
  /\ initialize_ids (posts (snd (send_request json_loads t method params c)))
     = ids_after (message_id c + 1)
         (length (initialize_ids (posts (snd (send_request json_loads t method params c)))))
  /\ message_id (self (snd (send_request json_loads t method params c)))
     = (message_id c + 1
        + Z.of_nat (length (initialize_ids
                              (posts (snd (send_request json_loads t method params c))))))%Z.
Proof.
  intros Hm. split; [reflexivity|].
  rewrite send_request_frame.
  assert (exists n,
            message_id (self (match connect t with
                              | Refused _ => enter (snd (_next_id c))
                              | Opened status items =>
                                  if negb (Z.eqb status 200) then enter (snd (_next_id c))
                                  else frame_of (feed json_loads t method
                                                   (request_of method params c) items
                                                   (enter (snd (_next_id c))))
                              end)) = (message_id c + 1 + Z.of_nat n)%Z
            /\ initialize_ids (posts (match connect t with
                              | Refused _ => enter (snd (_next_id c))
                              | Opened status items =>
                                  if negb (Z.eqb status 200) then enter (snd (_next_id c))
                                  else frame_of (feed json_loads t method
                                                   (request_of method params c) items
                                                   (enter (snd (_next_id c))))
                              end)) = ids_after (message_id c + 1) n) as (n & Hn & Hids).
  { destruct (connect t) as [failure|status items];
      [exists 0; split; [simpl; lia | reflexivity]|].
    destruct (negb _); [exists 0; split; [simpl; lia | reflexivity]|].
    apply handshake_ids; [|reflexivity|reflexivity].
    intros url ready. apply request_is_no_initialize, Hm. }
  rewrite Hids, Hn. unfold ids_after. rewrite length_map, length_seq. auto.
Qed.

Lemma handshake_ids_follow_request_witness :
  member "id" (request_of "tools/list" None client) = Some (JInt (message_id client + 1))
  /\ initialize_ids (posts (snd (send_request loads (served session_endpoint_twice)
                                   "tools/list" None client)))
     = ids_after (message_id client + 1)
         (length (initialize_ids
                    (posts (snd (send_request loads (served session_endpoint_twice)
                                   "tools/list" None client)))))
  /\ message_id (self (snd (send_request loads (served session_endpoint_twice)
                              "tools/list" None client)))
     = (message_id client + 1
        + Z.of_nat (length (initialize_ids
                              (posts (snd (send_request loads (served session_endpoint_twice)
                                             "tools/list" None client))))))%Z.
Proof.
  apply (handshake_ids_follow_request loads (served session_endpoint_twice) "tools/list"
           None client).
  discriminate.
Defined.

(** X5: For an uninitialized client, the first POST of a call is the
    [initialize] request, unless it is attempted with no endpoint URL yet:
    the caller's request never opens the session. *)
Theorem handshake_precedes_request (json_loads : string -> option json)
    (t : transport) (method : string)
    (params : option json) (c : MCPSSEClient) :
  method <> "initialize" ->
  initialized c = false ->
  handshake_first (posts (snd (send_request json_loads t method params c))).
Proof.
  intros Hm Hi. rewrite send_request_frame.
  destruct (connect t) as [failure|status items]; [exact I|].
  destruct (negb _); [exact I|].
  apply handshake_comes_first; auto.
Qed.

Lemma handshake_precedes_request_witness :
  handshake_first (posts (snd (send_request loads (served session) "tools/list" None client))).
Proof.
  apply (handshake_precedes_request loads (served session) "tools/list" None client);
    [discriminate | reflexivity].
Defined.

(** X6: A call computes [endpoint_url] at most once per endpoint event of the
    stream, and issues at most one POST per endpoint event, plus one for
    the acknowledgement when it starts uninitialized. *)
Theorem posts_are_bounded (json_loads : string -> option json)
    (t : transport) (method : string) (params : option json)
    (c : MCPSSEClient) :
  length (resolved (snd (send_request json_loads t method params c)))
  <= endpoint_events (stream_of t)
  /\ length (posts (snd (send_request json_loads t method params c)))
     <= endpoint_events (stream_of t) + (if initialized c then 0 else 1).
Proof.
  rewrite send_request_frame. unfold stream_of.
  destruct (connect t) as [failure|status items]; [simpl; split; lia|].
  destruct (negb _); [simpl; split; lia|].
  pose proof (work_is_bounded json_loads t method (request_of method params c) items
                (enter (snd (_next_id c)))) as H.
  exact H.
Qed.

(** The loop returns from the frame it read the line in, and while
    uninitialized it does not return an acknowledgement. *)
Lemma step_return_frame (json_loads : string -> option json)
    (t : transport) (method : string) (request : json)
    (line : string) (f f' : frame) (v : option json) :
  on_line json_loads t method request line f = Stop (Return v) f' ->
  f' = f /\ exists msg, v = Some msg /\ (initialized (self f) = false -> ~ is_ack msg).
Proof.
  destruct (on_line_cases json_loads t method request line f)
    as [(_ & _ & ->) | [(_ & _ & _ & _ & ->) | [(_ & _ & ->)
       | (_ & Hd & _ & p & Hp & _ & ->)]]]; try discriminate.
  - intros H. exfalso. eapply on_endpoint_no_return, H.
  - destruct (on_message_cases t request p f) as [(-> & Hn) | [(_ & _ & ->) | (e & -> & _)]].
    + intros H. pose proof (check_response_frame p f) as Hf. rewrite H in Hf.
      apply check_response_return in H as (-> & _). simpl in Hf. eauto.
    + destruct (post_error _ _ _); discriminate.
    + discriminate.
Qed.

Lemma feed_return_ready (json_loads : string -> option json)
    (t : transport) (method : string) (request : json)
    (items : list stream_item) (f f' : frame) (msg : json) :
  feed json_loads t method request items f = Stop (Return (Some msg)) f' ->
  is_ack msg -> initialized (self f') = true.
Proof.
  revert f. induction items as [|[line|failure] rest IH]; intros f; simpl;
    try discriminate.
  destruct (on_line json_loads t method request line f) as [g|o g] eqn:Hs.
  - apply IH.
  - intros [= -> ->] Hack. apply step_return_frame in Hs as (-> & m & [= <-] & Hn).
    destruct (initialized (self f)); [reflexivity|]. exfalso. exact (Hn eq_refl Hack).
Qed.

(** X7: A call returns a message that has the shape of an acknowledgement
    only to a client that is initialized: the acknowledgement of its own
    handshake is never handed to the caller. *)
Theorem returned_ack_means_initialized (json_loads : string -> option json)
    (t : transport) (method : string)
    (params : option json) (c : MCPSSEClient) (msg : json) :
  fst (send_request json_loads t method params c) = Return (Some msg) ->
  is_ack msg ->
  initialized (self (snd (send_request json_loads t method params c))) = true.
Proof.
  unfold send_request, send_request_body. simpl.
  destruct (connect t) as [failure|status items]; [discriminate|].
  destruct (negb _); simpl; [discriminate|].
  destruct (feed _ _ _ _ _ _) as [f|[v|e] f] eqn:Hrun; simpl; try discriminate.
  intros [= ->] Hack. eapply feed_return_ready; eauto.
Qed.

Lemma returned_ack_means_initialized_witness :
  initialized client = false
  /\ initialized (self (snd (send_request loads (served session_two_acks) "tools/list"
                               None client))) = true.
Proof.
  split; [reflexivity|].
  apply (returned_ack_means_initialized loads (served session_two_acks) "tools/list" None
           client
           (JObj [("jsonrpc", JStr "2.0"); ("id", JInt 2);
                  ("result", JObj [("capabilities", JObj [])])])).
  - vm_compute. reflexivity.
  - exists (JObj [("capabilities", JObj [])]). split; reflexivity.
Defined.

End SSEClientCalls.

(** ** The weather tools *)
Section WeatherTools.
Import Json WeatherServer.

Lemma truthy_strip (c : string) :
  PyStr.strip c <> EmptyString -> PyStr.truthy (PyStr.strip c) = true.
Proof. destruct (PyStr.strip c); [intros H; contradiction H; reflexivity | reflexivity]. Qed.

Lemma listed_tool (t : Tool) :
  In t list_tools -> tool_name t = "get_weather" \/ tool_name t = "get_forecast".
Proof. intros [<-|[<-|[]]]; [left | right]; reflexivity. Qed.

(** X8: Whatever the lookups answer, the handler returns exactly one content
    of type [text], or it raises [AttributeError]; it raises only for a
    listed tool whose [city] argument is present and is not a string. *)
Theorem call_tool_outcomes (s : services) (tool : string)
    (arguments : list (string * json)) :
  match call_tool s tool arguments with
  | Returned content => exists t, content = [{| type := "text"; text := t |}]
  | Raised e =>
      e = AttributeError
      /\ In tool (List.map tool_name list_tools)
      /\ exists v, obj_get "city" arguments = Some v /\ forall c, v <> JStr c
  end.
Proof.
  unfold call_tool, city_argument, text_content.
  destruct (String.eqb_spec tool "get_weather") as [->|_].
  - destruct (obj_get "city" arguments) as [[]|]; simpl;
      try (split; [reflexivity | split; [left; reflexivity | eexists; split; [reflexivity | discriminate]]]).
    + destruct (negb _); [eauto|].
      destruct (get_weather_for_city _ _) as [e|[[w place] nation]]; eauto.
    + eauto.
  - destruct (String.eqb_spec tool "get_forecast") as [->|_]; [|eauto].
    destruct (obj_get "city" arguments) as [[]|]; simpl;
      try (split; [reflexivity | split; [right; left; reflexivity | eexists; split; [reflexivity | discriminate]]]).
    + destruct (negb _); [eauto|].
      destruct (get_coordinates _ _) as [e|coords]; [eauto|].
      destruct (get_forecast_data _ _ _ _) as [e|w]; eauto.
    + eauto.
Qed.

(** X9: Both listed tools require [city] in their schema, and the handler
    enforces it before any lookup: with [city] missing, empty or blank the
    answer is the text [Error: City name is required], whatever the
    lookups would do. *)
Theorem city_is_required (s : services) (t : Tool) (arguments : list (string * json)) :
  In t list_tools ->
  (forall v, obj_get "city" arguments = Some v ->
             exists c, v = JStr c /\ PyStr.strip c = EmptyString) ->
  required_of t = ["city"]
  /\ call_tool s (tool_name t) arguments
     = Returned [{| type := "text"; text := "Error: City name is required" |}].
Proof.
  intros Ht Hcity. split; [destruct Ht as [<-|[<-|[]]]; reflexivity|].
  assert (city_argument arguments = inr EmptyString) as Harg.
  { unfold city_argument. destruct (obj_get "city" arguments) as [v|]; [|reflexivity].
    destruct (Hcity v eq_refl) as (c & -> & ->). reflexivity. }
  unfold call_tool. rewrite Harg.
  destruct (listed_tool t Ht) as [-> | ->]; reflexivity.
Qed.

Lemma city_is_required_witness :
  required_of {| tool_name := "get_forecast";
      description := "Get weather forecast for the next 7 days for a specific city. Returns temperature (min/max), precipitation, and wind speed.";
      inputSchema := city_schema
        "Name of the city to get forecast for (e.g., 'London', 'New York', 'Tokyo')" |}
  = ["city"]
  /\ call_tool Samples.no_city "get_forecast" [("city", JStr "   ")]
     = Returned [{| type := "text"; text := "Error: City name is required" |}].
Proof.
  apply (city_is_required Samples.no_city
           {| tool_name := "get_forecast";
              description := "Get weather forecast for the next 7 days for a specific city. Returns temperature (min/max), precipitation, and wind speed.";
              inputSchema := city_schema
                "Name of the city to get forecast for (e.g., 'London', 'New York', 'Tokyo')" |}
           [("city", JStr "   ")]).
  - right. left. reflexivity.
  - intros v [= <-]. exists "   ". split; reflexivity.
Defined.

(** X10: A [city] that is not a string makes both listed tools raise
    [AttributeError]: no error text is returned for it. *)
Theorem city_not_a_string_raises (s : services) (t : Tool)
    (arguments : list (string * json)) (v : json) :
  In t list_tools ->
  obj_get "city" arguments = Some v ->
  (forall c, v <> JStr c) ->
  call_tool s (tool_name t) arguments = Raised AttributeError.
Proof.
  intros Ht Hv Hs.
  assert (city_argument arguments = inl AttributeError) as Harg.
  { unfold city_argument. rewrite Hv. destruct v as [| | | |c| |]; try reflexivity.
    contradiction (Hs c). reflexivity. }
  unfold call_tool. rewrite Harg.
  destruct (listed_tool t Ht) as [-> | ->]; reflexivity.
Qed.

Lemma city_not_a_string_raises_witness :
  call_tool Samples.no_city "get_weather" [("city", JNull)] = Raised AttributeError.
Proof.
  apply (city_not_a_string_raises Samples.no_city
           {| tool_name := "get_weather";
              description := "Get historical weather data for the last 7 days for a specific city. Returns temperature (min/max), precipitation, and wind speed.";
              inputSchema := city_schema
                "Name of the city to get weather for (e.g., 'London', 'New York', 'Tokyo')" |}
           [("city", JNull)] JNull).
  - left. reflexivity.
  - reflexivity.
  - intros c. discriminate.
Defined.

(** X11: The city is geocoded after [strip()], and a failure of the geocoding
    is reported as [Error: ...] by both listed tools, which then agree. *)
Theorem geocoding_error_is_reported (s : services) (t : Tool)
    (arguments : list (string * json)) (c e : string) :
  In t list_tools ->
  obj_get "city" arguments = Some (JStr c) ->
  PyStr.strip c <> EmptyString ->
  get_coordinates s (PyStr.strip c) = inl e ->
  call_tool s (tool_name t) arguments
  = Returned [{| type := "text"; text := "Error: " +:+ e |}].
Proof.
  intros Ht Hc Hn He.
  assert (city_argument arguments = inr (PyStr.strip c)) as Harg.
  { unfold city_argument. rewrite Hc. reflexivity. }
  unfold call_tool, get_weather_for_city. rewrite Harg, (truthy_strip c Hn), He.
  destruct (listed_tool t Ht) as [-> | ->]; reflexivity.
Qed.

Lemma geocoding_error_is_reported_witness :
  call_tool Samples.no_city "get_weather" [("city", JStr " Atlantis ")]
  = Returned [{| type := "text"; text := "Error: " +:+ "City 'Atlantis' not found" |}].
Proof.
  apply (geocoding_error_is_reported Samples.no_city
           {| tool_name := "get_weather";
              description := "Get historical weather data for the last 7 days for a specific city. Returns temperature (min/max), precipitation, and wind speed.";
              inputSchema := city_schema
                "Name of the city to get weather for (e.g., 'London', 'New York', 'Tokyo')" |}
           [("city", JStr " Atlantis ")] " Atlantis " "City 'Atlantis' not found").
  - left. reflexivity.
  - reflexivity.
  - vm_compute. discriminate.
  - reflexivity.
Defined.

End WeatherTools.

(** ** The weather tools over SSE *)
Section WeatherSSETools.
Import Json WeatherSSEServer.

(** X12: Unless the geocoding locates the city, [get_weather] and
    [get_forecast] do the same: the same error dict, or the same
    exception. *)
Theorem tools_agree_without_location (s : services) (city : string) :
  (forall coords, get_coordinates s city <> inr (Located coords)) ->
  get_weather s city = get_forecast s city.
Proof.
  intros Hno. unfold get_weather, get_forecast, lookup.
  destruct (negb _); [reflexivity|].
  destruct (get_coordinates s city) as [e|[message|coords]]; try reflexivity.
  exfalso. exact (Hno coords eq_refl).
Qed.

Lemma tools_agree_without_location_witness :
  get_weather {| get_coordinates := fun city => inr (NotFound ("City '" +:+ city +:+ "' not found"));
                 get_past_weather := fun _ _ _ => inl (TransportError TimedOut);
                 get_future_forecast := fun _ _ _ => inr {| timezone := JStr "UTC"; records := [] |} |}
    "Atlantis"
  = get_forecast {| get_coordinates := fun city => inr (NotFound ("City '" +:+ city +:+ "' not found"));
                 get_past_weather := fun _ _ _ => inl (TransportError TimedOut);
                 get_future_forecast := fun _ _ _ => inr {| timezone := JStr "UTC"; records := [] |} |}
    "Atlantis".
Proof.
  apply (tools_agree_without_location
           {| get_coordinates := fun city => inr (NotFound ("City '" +:+ city +:+ "' not found"));
              get_past_weather := fun _ _ _ => inl (TransportError TimedOut);
              get_future_forecast := fun _ _ _ => inr {| timezone := JStr "UTC"; records := [] |} |}
           "Atlantis").
  intros coords. discriminate.
Defined.

(** X13: An answer with weather is given only for a city that is not blank:
    it carries the name and the country the geocoding gave for the city as
    passed (not stripped), and the readings fetched at its coordinates. *)
Theorem weather_comes_from_the_location (s : services) (city : string)
    (place nation : json) (r : readings) :
  get_weather s city = inr (Weather place nation r) ->
  PyStr.strip city <> EmptyString
  /\ exists coords,
       get_coordinates s city = inr (Located coords)
       /\ place = WeatherServer.name coords
       /\ nation = WeatherServer.country coords
       /\ get_past_weather s (WeatherServer.latitude coords)
            (WeatherServer.longitude coords) (WeatherServer.timezone coords) = inr r.
Proof.
  unfold get_weather, lookup.
  destruct (PyStr.strip city) eqn:Hs; simpl; [discriminate|].
  destruct (get_coordinates s city) as [e|[message|coords]]; try discriminate.
  destruct (get_past_weather s _ _ _) as [e|r'] eqn:Hr; [discriminate|].
  intros [= <- <- <-]. split; [discriminate|]. exists coords. auto.
Qed.

Lemma weather_comes_from_the_location_witness :
  PyStr.strip " Oslo" <> EmptyString
  /\ exists coords,
       get_coordinates Samples.oslo " Oslo" = inr (Located coords)
       /\ JStr "Oslo" = WeatherServer.name coords
       /\ JStr "Norway" = WeatherServer.country coords
       /\ get_past_weather Samples.oslo (WeatherServer.latitude coords)
            (WeatherServer.longitude coords) (WeatherServer.timezone coords)
          = inr {| timezone := JStr "Europe/Oslo"; records := [] |}.
Proof.
  apply (weather_comes_from_the_location Samples.oslo " Oslo" (JStr "Oslo") (JStr "Norway")
           {| timezone := JStr "Europe/Oslo"; records := [] |}).
  reflexivity.
Defined.

End WeatherSSETools.

(** ** The command-line client of the weather server *)
Section WeatherClient.
Import WeatherMCPClient.

Lemma alternate_cities (i : nat) (cities : list string) :
  List.map fst (alternate i cities) = cities.
Proof.
  revert i. induction cities as [|city rest IH]; intros i; simpl; [reflexivity|].
  f_equal. apply IH.
Qed.

Lemma alternate_kinds (i : nat) (cities : list string) (city kind : string) :
  In (city, kind) (alternate i cities) -> kind = "past" \/ kind = "future".
Proof.
  revert i. induction cities as [|c rest IH]; intros i; simpl; [intros []|].
  intros [[= _ <-]|H]; [destruct (Nat.eqb _ _); auto | eapply IH, H].
Qed.

(** X14: Every test the command line plans names a data type for which the
    client calls a tool the server lists: [get_weather] for [past],
    [get_forecast] for [future]. *)
Theorem planned_tests_call_listed_tools (argv : list string) (use_uv : bool)
    (tests : list (string * string)) (city kind : string) :
  plan argv = Some (use_uv, tests) ->
  In (city, kind) tests ->
  In (tool_for kind) (List.map WeatherServer.tool_name WeatherServer.list_tools)
  /\ (kind = "past" /\ tool_for kind = "get_weather"
      \/ kind = "future" /\ tool_for kind = "get_forecast").
Proof.
  unfold plan. destruct (Nat.ltb _ _); [|discriminate].
  intros [= _ <-] Hin.
  assert (kind = "past" \/ kind = "future") as [-> | ->].
  { destruct (List.filter _ _) as [|c cs].
    - destruct Hin as [[= _ <-]|[[= _ <-]|[[= _ <-]|[]]]]; auto.
    - eapply alternate_kinds, Hin. }
  - split; [left; reflexivity | left; split; reflexivity].
  - split; [right; left; reflexivity | right; split; reflexivity].
Qed.

Lemma planned_tests_call_listed_tools_witness :
  In (tool_for "future") (List.map WeatherServer.tool_name WeatherServer.list_tools)
  /\ ("future" = "past" /\ tool_for "future" = "get_weather"
      \/ "future" = "future" /\ tool_for "future" = "get_forecast").
Proof.
  apply (planned_tests_call_listed_tools ["client.py"; "Oslo"; "--uv"; "Lima"] true
           [("Oslo", "past"); ("Lima", "future")] "Lima" "future").
  - reflexivity.
  - right. left. reflexivity.
Defined.

(** X15: The cities given on the command line are tested once each, in the
    order given, with [--uv] left out wherever it stands; [--uv] alone
    tests the three default cities. *)
Theorem planned_cities (argv : list string) :
  1 < length argv ->
  exists tests,
    plan argv = Some (existsb (String.eqb "--uv") argv, tests)
    /\ List.map fst tests
       = match List.filter (fun arg => negb (String.eqb arg "--uv")) (tl argv) with
         | [] => ["London"; "Paris"; "Tokyo"]
         | cities => cities
         end.
Proof.
  intros Hlen. unfold plan.
  destruct (Nat.ltb_spec 1 (length argv)) as [_|Hle]; [|lia].
  eexists. split; [reflexivity|].
  destruct (List.filter _ _) as [|c cs] eqn:Hf; [reflexivity|].
  apply alternate_cities.
Qed.

Lemma planned_cities_witness :
  exists tests,
    plan ["client.py"; "--uv"; "Oslo"; "Lima"]
    = Some (existsb (String.eqb "--uv") ["client.py"; "--uv"; "Oslo"; "Lima"], tests)
    /\ List.map fst tests
       = match List.filter (fun arg => negb (String.eqb arg "--uv"))
                 (tl ["client.py"; "--uv"; "Oslo"; "Lima"]) with
         | [] => ["London"; "Paris"; "Tokyo"]
         | cities => cities
         end.
Proof.
  apply (planned_cities ["client.py"; "--uv"; "Oslo"; "Lima"]). simpl. lia.
Defined.

End WeatherClient.

(** ** The stock ledger: what the tools store *)
Section LedgerMore.
Import PyFloat StockLedger Samples.

Lemma isspace_upper_char (c : ascii) :
  PyStr.isspace (PyStr.upper_char c) = PyStr.isspace c.
Proof. destruct c as [[] [] [] [] [] [] [] []]; reflexivity. Qed.

Lemma upper_char_idempotent (c : ascii) :
  PyStr.upper_char (PyStr.upper_char c) = PyStr.upper_char c.
Proof. destruct c as [[] [] [] [] [] [] [] []]; reflexivity. Qed.

Lemma upper_idempotent (s : string) : PyStr.upper (PyStr.upper s) = PyStr.upper s.
Proof.
  induction s as [|c r IH]; simpl; [reflexivity|].
  rewrite upper_char_idempotent, IH. reflexivity.
Qed.

Lemma upper_lstrip (s : string) :
  PyStr.upper (PyStr.lstrip s) = PyStr.lstrip (PyStr.upper s).
Proof.
  induction s as [|c r IH]; simpl; [reflexivity|].
  rewrite isspace_upper_char. destruct (PyStr.isspace c); [exact IH | reflexivity].
Qed.

Lemma upper_rstrip (s : string) :
  PyStr.upper (PyStr.rstrip s) = PyStr.rstrip (PyStr.upper s).
Proof.
  induction s as [|c r IH]; simpl; [reflexivity|].
  rewrite <- IH, isspace_upper_char.
  destruct (PyStr.rstrip r) as [|c' r']; simpl; [|reflexivity].
  destruct (PyStr.isspace c); reflexivity.
Qed.

Lemma rstrip_idempotent (s : string) : PyStr.rstrip (PyStr.rstrip s) = PyStr.rstrip s.
Proof.
  induction s as [|c r IH]; [reflexivity|].
  change (PyStr.rstrip (String c r))
    with (match PyStr.rstrip r with
          | EmptyString => if PyStr.isspace c then EmptyString else String c EmptyString
          | r' => String c r'
          end).
  destruct (PyStr.rstrip r) as [|c' r'] eqn:Hr.
  - destruct (PyStr.isspace c) eqn:Hc; [reflexivity|]. simpl. rewrite Hc. reflexivity.
  - change (PyStr.rstrip (String c (String c' r')))
      with (match PyStr.rstrip (String c' r') with
            | EmptyString => if PyStr.isspace c then EmptyString else String c EmptyString
            | r'' => String c r''
            end).
    rewrite IH. reflexivity.
Qed.

Lemma strip_idempotent (s : string) : PyStr.strip (PyStr.strip s) = PyStr.strip s.
Proof.
  unfold PyStr.strip. destruct (lstrip_head s) as [-> | (c & r & -> & Hc)]; [reflexivity|].
  rewrite (rstrip_keeps_head c r Hc). cbn [PyStr.lstrip]. rewrite Hc.
  rewrite <- (rstrip_keeps_head c r Hc). apply rstrip_idempotent.
Qed.

Lemma upper_strip (s : string) : PyStr.upper (PyStr.strip s) = PyStr.strip (PyStr.upper s).
Proof. unfold PyStr.strip. rewrite upper_rstrip, upper_lstrip. reflexivity. Qed.

Lemma read_portfolio_balance (l : ledger) :
  balance_csv (snd (read_portfolio l)) = balance_csv l.
Proof. unfold read_portfolio, init_portfolio_csv. destruct (portfolio_csv l); reflexivity. Qed.

Lemma read_portfolio_rows (l : ledger) :
  portfolio_csv (snd (read_portfolio l)) = Some (fst (read_portfolio l)).
Proof.
  unfold read_portfolio, init_portfolio_csv.
  destruct (portfolio_csv l) eqn:Hl; simpl; [exact Hl | reflexivity].
Qed.

Lemma read_portfolio_again (l : ledger) :
  read_portfolio (snd (read_portfolio l)) = (fst (read_portfolio l), snd (read_portfolio l)).
Proof.
  unfold read_portfolio at 1. rewrite read_portfolio_rows. reflexivity.
Qed.

Lemma rows_read_positive (l : ledger) :
  positions_positive l -> map_Forall (fun _ qty => (1 <= qty)%Z) (fst (read_portfolio l)).
Proof.
  intros Hl. apply (read_portfolio_positive l Hl). apply read_portfolio_rows.
Qed.

Lemma rows_written_all (rows : gmap string Z) :
  map_Forall (fun _ qty => (1 <= qty)%Z) rows -> rows_written rows = rows.
Proof.
  intros H. unfold rows_written. apply map_filter_id.
  intros k qty Hk. apply H in Hk. simpl. lia.
Qed.

(** X16: The stock id is normalised once and for all: the id a response
    reports names the same position, in any case and with any blanks
    around it. *)
Theorem normalize_idempotent (stock_id : string) (quantity : Z) (l : ledger) :
  normalize (normalize stock_id) = normalize stock_id
  /\ buy_stock (normalize stock_id) quantity l = buy_stock stock_id quantity l
  /\ sell_stock (normalize stock_id) quantity l = sell_stock stock_id quantity l.
Proof.
  assert (normalize (normalize stock_id) = normalize stock_id) as H.
  { unfold normalize. rewrite upper_strip, upper_idempotent. apply strip_idempotent. }
  split; [exact H|]. unfold buy_stock, sell_stock. rewrite H. split; reflexivity.
Qed.

(** X17: A purchase adds the quantity to the shares held under the normalised
    id (none held counts as zero), reports the new holding, and changes no
    other row and not the balance. *)
Theorem purchase_accumulates (stock_id : string) (quantity : Z) (l : ledger) :
  positions_positive l ->
  (0 < quantity)%Z ->
  snd (buy_stock stock_id quantity l)
  = {| portfolio_csv :=
         Some (<[normalize stock_id :=
                   (default 0%Z (fst (read_portfolio l) !! normalize stock_id) + quantity)%Z]>
                 (fst (read_portfolio l)));
       balance_csv := balance_csv l |}
  /\ In ("quantity",
         VInt (default 0%Z (fst (read_portfolio l) !! normalize stock_id) + quantity)%Z)
       (fst (buy_stock stock_id quantity l))
  /\ success (fst (buy_stock stock_id quantity l)) = Some (VBool true).
Proof.
  intros Hl Hq. pose proof (rows_read_positive l Hl) as Hrows.
  pose proof (read_portfolio_balance l) as Hbal.
  unfold buy_stock. destruct (Z.leb_spec quantity 0) as [?|_]; [lia|].
  destruct (read_portfolio l) as [rows l1]. simpl in *.
  split; [|split; [right; right; left; reflexivity | reflexivity]].
  unfold write_portfolio. rewrite Hbal. f_equal. f_equal.
  apply rows_written_all. apply map_Forall_insert_2; [|exact Hrows].
  destruct (rows !! normalize stock_id) as [held|] eqn:Hh; simpl; [|lia].
  apply Hrows in Hh. lia.
Qed.

Lemma purchase_accumulates_witness :
  snd (buy_stock " aapl " 15 opened)
  = {| portfolio_csv :=
         Some (<[normalize " aapl " :=
                   (default 0%Z (fst (read_portfolio opened) !! normalize " aapl ") + 15)%Z]>
                 (fst (read_portfolio opened)));
       balance_csv := balance_csv opened |}
  /\ In ("quantity",
         VInt (default 0%Z (fst (read_portfolio opened) !! normalize " aapl ") + 15)%Z)
       (fst (buy_stock " aapl " 15 opened))
  /\ success (fst (buy_stock " aapl " 15 opened)) = Some (VBool true).
Proof.
  apply (purchase_accumulates " aapl " 15 opened); [|lia].
  intros rows [= <-] k qty H.
  apply lookup_singleton_Some in H as [_ <-]. lia.
Defined.

(** X18: What a sale does to the rows: a sale that succeeds lowers the
    position under the normalised id by the quantity, removes the row when
    nothing is left, and leaves the other rows; a sale that does not
    succeed leaves every row as it was read. *)
Theorem sale_lowers_one_position (stock_id : string) (quantity : Z) (l : ledger) :
  positions_positive l ->
  match success (fst (sell_stock stock_id quantity l)) with
  | Some (VBool true) =>
      exists held,
        fst (read_portfolio l) !! normalize stock_id = Some held
        /\ (0 < quantity <= held)%Z
        /\ fst (read_portfolio (snd (sell_stock stock_id quantity l)))
           = if (held =? quantity)%Z then delete (normalize stock_id) (fst (read_portfolio l))
             else <[normalize stock_id := (held - quantity)%Z]> (fst (read_portfolio l))
  | _ => fst (read_portfolio (snd (sell_stock stock_id quantity l))) = fst (read_portfolio l)
  end.
Proof.
  intros Hl. pose proof (rows_read_positive l Hl) as Hrows.
  pose proof (read_portfolio_again l) as Hagain.
  unfold sell_stock. destruct (Z.leb_spec quantity 0) as [?|Hq]; [reflexivity|].
  destruct (read_portfolio l) as [rows l1]. simpl in *.
  destruct (rows !! normalize stock_id) as [held|] eqn:Hh; simpl;
    [|rewrite Hagain; reflexivity].
  destruct (Z.ltb_spec held quantity) as [?|Hle]; simpl; [rewrite Hagain; reflexivity|].
  exists held. split; [reflexivity|]. split; [lia|].
  unfold read_portfolio, write_portfolio. simpl.
  destruct (Z.eqb_spec (held - quantity) 0) as [Hz|Hz];
    destruct (Z.eqb_spec held quantity) as [He|He]; try lia;
    apply rows_written_all.
  - apply map_Forall_delete. exact Hrows.
  - apply map_Forall_insert_2; [lia | exact Hrows].
Qed.

Lemma sale_lowers_one_position_witness :
  match success (fst (sell_stock " aapl " 4 opened)) with
  | Some (VBool true) =>
      exists held,
        fst (read_portfolio opened) !! normalize " aapl " = Some held
        /\ (0 < 4 <= held)%Z
        /\ fst (read_portfolio (snd (sell_stock " aapl " 4 opened)))
           = if (held =? 4)%Z then delete (normalize " aapl ") (fst (read_portfolio opened))
             else <[normalize " aapl " := (held - 4)%Z]> (fst (read_portfolio opened))
  | _ => fst (read_portfolio (snd (sell_stock " aapl " 4 opened)))
         = fst (read_portfolio opened)
  end.
Proof.
  apply (sale_lowers_one_position " aapl " 4 opened).
  intros rows [= <-] k qty H.
  apply lookup_singleton_Some in H as [_ <-]. lia.
Defined.

(** X19: A purchase followed by the sale of the same quantity of the same
    stock succeeds and restores the rows that were read before the
    purchase. *)
Theorem purchase_then_sale_restores (stock_id : string) (quantity : Z) (l : ledger) :
  positions_positive l ->
  (0 < quantity)%Z ->
  success (fst (sell_stock stock_id quantity (snd (buy_stock stock_id quantity l))))
  = Some (VBool true)
  /\ snd (sell_stock stock_id quantity (snd (buy_stock stock_id quantity l)))
     = {| portfolio_csv := Some (fst (read_portfolio l)); balance_csv := balance_csv l |}.
Proof.
  intros Hl Hq. pose proof (rows_read_positive l Hl) as Hrows.
  pose proof (read_portfolio_balance l) as Hbal.
  unfold buy_stock. destruct (Z.leb_spec quantity 0) as [?|_]; [lia|].
  destruct (read_portfolio l) as [rows l1]. simpl in *.
  unfold sell_stock. destruct (Z.leb_spec quantity 0) as [?|_]; [lia|].
  unfold read_portfolio, write_portfolio. simpl.
  rewrite rows_written_all.
  2:{ apply map_Forall_insert_2; [|exact Hrows].
      destruct (rows !! normalize stock_id) as [held|] eqn:Hh; simpl; [|lia].
      apply Hrows in Hh. lia. }
  rewrite lookup_insert_eq.
  destruct (rows !! normalize stock_id) as [held|] eqn:Hh; simpl.
  - pose proof (Hrows _ _ Hh) as Hheld. simpl in Hheld.
    destruct (Z.ltb_spec (held + quantity) quantity) as [?|_]; [lia|].
    destruct (Z.eqb_spec (held + quantity - quantity) 0) as [?|_]; [lia|].
    simpl. split; [reflexivity|]. rewrite Hbal. f_equal. f_equal.
    rewrite insert_insert_eq. replace (held + quantity - quantity)%Z with held by lia.
    rewrite (insert_id _ _ _ Hh). apply rows_written_all, Hrows.
  - destruct (Z.ltb_spec (0 + quantity) quantity) as [?|_]; [lia|].
    destruct (Z.eqb_spec (0 + quantity - quantity) 0) as [_|?]; [|lia].
    simpl. split; [reflexivity|]. rewrite Hbal. f_equal. f_equal.
    rewrite delete_insert_eq, (delete_id _ _ Hh). apply rows_written_all, Hrows.
Qed.

Lemma purchase_then_sale_restores_witness :
  success (fst (sell_stock "msft" 5 (snd (buy_stock "msft" 5 opened)))) = Some (VBool true)
  /\ snd (sell_stock "msft" 5 (snd (buy_stock "msft" 5 opened)))
     = {| portfolio_csv := Some (fst (read_portfolio opened));
          balance_csv := balance_csv opened |}.
Proof.
  apply (purchase_then_sale_restores "msft" 5 opened); [|lia].
  intros rows [= <-] k qty H.
  apply lookup_singleton_Some in H as [_ <-]. lia.
Defined.

Lemma by_stock_id_total : Total by_stock_id.
Proof. intros a b. apply String.leb_total. Qed.

Lemma total_of_permutation (a b : list (string * Z)) :
  a ≡ₚ b ->
  foldr (fun kv total => (snd kv + total)%Z) 0%Z a
  = foldr (fun kv total => (snd kv + total)%Z) 0%Z b.
Proof. induction 1; simpl; lia. Qed.

Lemma total_at_least_length (rows : list (string * Z)) :
  Forall (fun kv => (1 <= snd kv)%Z) rows ->
  (Z.of_nat (length rows) <= foldr (fun kv total => (snd kv + total)%Z) 0%Z rows)%Z.
Proof. induction 1; simpl; lia. Qed.

(** X20: [list_stocks] lists every stored row once, in the order of the stock
    ids; [total_positions] is the number of rows listed and
    [total_shares] the sum of their quantities. *)
Theorem list_stocks_sorted (l : ledger) :
  Sorted by_stock_id (stocks (fst (list_stocks l)))
  /\ NoDup (List.map fst (stocks (fst (list_stocks l))))
  /\ (forall id qty, (id, qty) ∈ stocks (fst (list_stocks l))
                     <-> fst (read_portfolio l) !! id = Some qty)
  /\ total_positions (fst (list_stocks l)) = length (stocks (fst (list_stocks l)))
  /\ total_shares (fst (list_stocks l))
     = foldr (fun kv total => (snd kv + total)%Z) 0%Z (stocks (fst (list_stocks l))).
Proof.
  unfold list_stocks. destruct (read_portfolio l) as [rows l1]. simpl.
  pose proof (merge_sort_Permutation by_stock_id (map_to_list rows)) as Hp.
  split; [apply (@Sorted_merge_sort _ by_stock_id _ by_stock_id_total)|].
  split; [|split; [|split]].
  - change (List.map fst) with (@fmap list _ (string * Z) string fst).
    rewrite Hp. apply NoDup_fst_map_to_list.
  - intros id qty. rewrite Hp. apply elem_of_map_to_list.
  - rewrite Hp. reflexivity.
  - symmetry. apply total_of_permutation, Hp.
Qed.

(** X21: While every stored position is at least one share, the total of the
    shares listed is not below the number of positions. *)
Theorem shares_cover_positions (l : ledger) :
  positions_positive l ->
  (Z.of_nat (total_positions (fst (list_stocks l))) <= total_shares (fst (list_stocks l)))%Z.
Proof.
  intros Hl. pose proof (rows_read_positive l Hl) as Hrows.
  unfold list_stocks. destruct (read_portfolio l) as [rows l1]. simpl in *.
  apply total_at_least_length. apply Forall_forall. intros [id qty] Hin.
  apply elem_of_map_to_list in Hin. exact (Hrows id qty Hin).
Qed.

Lemma shares_cover_positions_witness :
  (Z.of_nat (total_positions (fst (list_stocks opened)))
   <= total_shares (fst (list_stocks opened)))%Z.
Proof.
  apply (shares_cover_positions opened).
  intros rows [= <-] k qty H.
  apply lookup_singleton_Some in H as [_ <-]. lia.
Defined.

(** X22: The stock tools never touch the balance file and the money tools
    never touch the portfolio file. *)
Theorem tools_touch_one_file (rt : float_runtime) (stock_id reason : string)
    (quantity : Z) (amount : float) (l : ledger) :
  balance_csv (snd (buy_stock stock_id quantity l)) = balance_csv l
  /\ balance_csv (snd (sell_stock stock_id quantity l)) = balance_csv l
  /\ balance_csv (snd (list_stocks l)) = balance_csv l
  /\ portfolio_csv (snd (debit_money rt amount reason l)) = portfolio_csv l
  /\ portfolio_csv (snd (credit_money rt amount reason l)) = portfolio_csv l.
Proof.
  pose proof (read_portfolio_balance l) as Hbal.
  unfold buy_stock, sell_stock, list_stocks, debit_money, credit_money.
  destruct (read_portfolio l) as [rows l1]. simpl in Hbal.
  repeat split.
  - destruct (quantity <=? 0)%Z; [reflexivity | exact Hbal].
  - destruct (quantity <=? 0)%Z; [reflexivity|].
    destruct (rows !! normalize stock_id) as [held|]; [|exact Hbal].
    destruct (held <? quantity)%Z; exact Hbal.
  - exact Hbal.
  - destruct (amount <=? 0)%float; [reflexivity|].
    destruct (read_balance rt l) as [e|balance]; [reflexivity|].
    destruct (balance <? amount)%float; reflexivity.
  - destruct (amount <=? 0)%float; [reflexivity|].
    destruct (read_balance rt l) as [e|balance]; reflexivity.
Qed.

(** X23: A money tool changes the ledger only when it reports success, and
    then it has read a balance and stored the rounded difference (debit)
    or sum (credit) for an amount that is not [<= 0]. *)
Theorem money_moves_only_on_success (rt : float_runtime) (amount : float)
    (reason : string) (l : ledger) :
  (if succeeded (fst (debit_money rt amount reason l)) then
     exists balance, read_balance rt l = inr balance
       /\ (amount <=? 0)%float = false /\ (balance <? amount)%float = false
       /\ snd (debit_money rt amount reason l)
          = write_balance rt (round2 rt (balance - amount)%float) l
   else snd (debit_money rt amount reason l) = l)
  /\ (if succeeded (fst (credit_money rt amount reason l)) then
        exists balance, read_balance rt l = inr balance
          /\ (amount <=? 0)%float = false
          /\ snd (credit_money rt amount reason l)
             = write_balance rt (round2 rt (balance + amount)%float) l
      else snd (credit_money rt amount reason l) = l).
Proof.
  unfold debit_money, credit_money.
  destruct (amount <=? 0)%float; [split; reflexivity|].
  destruct (read_balance rt l) as [e|balance]; [split; reflexivity|].
  split; [destruct (balance <? amount)%float eqn:Hlt; simpl; eauto | simpl; eauto].
Qed.

(** X24: The guard [amount <= 0.0] comes before the balance is read, and a
    missing balance file is not created: with an amount that passes the
    guard the money tools raise [FileNotFoundError] and leave the ledger
    as it was, as does [get_balance]. *)
Theorem missing_balance_file_raises (rt : float_runtime) (amount : float)
    (reason : string) (l : ledger) :
  balance_csv l = None ->
  get_balance rt l = inl FileNotFoundError
  /\ debit_money rt amount reason l
     = (if (amount <=? 0)%float
        then (inr [("success", VBool false); ("message", VStr "Amount must be positive")], l)
        else (inl FileNotFoundError, l))
  /\ credit_money rt amount reason l
     = (if (amount <=? 0)%float
        then (inr [("success", VBool false); ("message", VStr "Amount must be positive")], l)
        else (inl FileNotFoundError, l)).
Proof.
  intros Hb. unfold get_balance, debit_money, credit_money, read_balance. rewrite Hb.
  destruct (amount <=? 0)%float; repeat split.
Qed.

Lemma missing_balance_file_raises_witness :
  get_balance cpython {| portfolio_csv := None; balance_csv := None |}
  = inl FileNotFoundError
  /\ debit_money cpython 40 "rent" {| portfolio_csv := None; balance_csv := None |}
     = (if (40 <=? 0)%float
        then (inr [("success", VBool false); ("message", VStr "Amount must be positive")],
              {| portfolio_csv := None; balance_csv := None |})
        else (inl FileNotFoundError, {| portfolio_csv := None; balance_csv := None |}))
  /\ credit_money cpython 40 "rent" {| portfolio_csv := None; balance_csv := None |}
     = (if (40 <=? 0)%float
        then (inr [("success", VBool false); ("message", VStr "Amount must be positive")],
              {| portfolio_csv := None; balance_csv := None |})
        else (inl FileNotFoundError, {| portfolio_csv := None; balance_csv := None |})).
Proof.
  apply (missing_balance_file_raises cpython 40 "rent"
           {| portfolio_csv := None; balance_csv := None |}).
  reflexivity.
Defined.

Lemma nan_is_unordered (x : float) :
  is_nan x = true -> Prim2SF x = S754_nan.
Proof.
  unfold is_nan. rewrite FloatAxioms.eqb_spec. unfold SFeqb.
  destruct (Prim2SF x) as [s| s| |s m e]; simpl; try reflexivity; try discriminate.
  - destruct s; discriminate.
  - destruct s; rewrite Z.compare_refl, Pos.compare_cont_refl; discriminate.
Qed.

(** X25: Not-a-number is no amount the guards reject: it is not [<= 0.0] and
    not above any balance, so [debit_money] reports success and stores the
    rounding of a value that is not a number. *)
Theorem nan_amount_passes_the_guards (rt : float_runtime) (amount balance : float)
    (reason : string) (l : ledger) :
  is_nan amount = true ->
  read_balance rt l = inr balance ->
  succeeded (fst (debit_money rt amount reason l)) = true
  /\ is_nan (balance - amount)%float = true
  /\ snd (debit_money rt amount reason l)
     = write_balance rt (round2 rt (balance - amount)%float) l.
Proof.
  intros Hn Hb. pose proof (nan_is_unordered amount Hn) as Ha.
  assert ((amount <=? 0)%float = false) as Hle.
  { rewrite FloatAxioms.leb_spec, Ha. reflexivity. }
  assert ((balance <? amount)%float = false) as Hlt.
  { rewrite FloatAxioms.ltb_spec, Ha. unfold SFltb.
    destruct (Prim2SF balance); reflexivity. }
  unfold debit_money. rewrite Hle, Hb, Hlt. simpl.
  split; [reflexivity|]. split; [|reflexivity].
  unfold is_nan. rewrite FloatAxioms.eqb_spec, FloatAxioms.sub_spec, Ha.
  destruct (Prim2SF balance); reflexivity.
Qed.

Lemma nan_amount_passes_the_guards_witness :
  succeeded (fst (debit_money cpython nan "rent" opened)) = true
  /\ is_nan (100000 - nan)%float = true
  /\ snd (debit_money cpython nan "rent" opened)
     = write_balance cpython (round2 cpython (100000 - nan)%float) opened.
Proof.
  apply (nan_amount_passes_the_guards cpython nan 100000 "rent" opened); reflexivity.
Defined.

End LedgerMore.

(** ** Document search and ingestion *)
Section RagMore.
Import ChromaSearch PdfIngest.

#[local] Set Warnings "-inexact-float".

Lemma all_space_app (a b : string) :
  PyStr.all_space (a +:+ b) = PyStr.all_space a && PyStr.all_space b.
Proof.
  induction a as [|c r IH]; simpl; [reflexivity|].
  rewrite IH. apply andb_assoc.
Qed.

Lemma has_text_not_blank (page_text : option string) :
  has_text page_text = true ->
  PyStr.all_space (default EmptyString page_text) = false.
Proof.
  destruct page_text as [text|]; simpl; [|discriminate].
  rewrite truthy_strip_blank. intros H. apply andb_prop in H as [_ H].
  destruct (PyStr.all_space text); [discriminate H | reflexivity].
Qed.

Lemma text_parts_not_blank (pages : list (option string)) :
  Forall (fun part => PyStr.all_space part = false) (text_parts pages).
Proof.
  induction pages as [|page rest IH]; simpl; [constructor|].
  unfold text_parts in *. simpl.
  destruct (has_text page) eqn:Hp; simpl; [|exact IH].
  constructor; [apply has_text_not_blank, Hp | exact IH].
Qed.

Lemma text_parts_nil (pages : list (option string)) :
  text_parts pages = [] <-> existsb has_text pages = false.
Proof.
  induction pages as [|page rest IH]; simpl; [tauto|].
  unfold text_parts in *. simpl.
  destruct (has_text page); simpl; [split; intros H; discriminate H | exact IH].
Qed.

Lemma join_not_blank (sep : string) (parts : list string) :
  parts <> [] ->
  Forall (fun part => PyStr.all_space part = false) parts ->
  PyStr.all_space (PyStr.join sep parts) = false.
Proof.
  intros Hne Hall. destruct Hall as [|p rest Hp _]; [contradiction Hne; reflexivity|].
  destruct rest as [|q rest]; simpl; [exact Hp|].
  rewrite all_space_app, Hp. reflexivity.
Qed.

(** X26: The documents are, in the order of the files, those of the files
    with at least one page that has text: the check on the joined text
    drops no other file.  Each document carries its path and the base name
    of the path. *)
Theorem documents_are_files_with_text (pdf_files : folder) :
  List.map source (extract_text_from_pdfs pdf_files)
  = List.map fst (List.filter (fun file => existsb has_text (snd file)) pdf_files)
  /\ Forall (fun doc => filename doc = PyStr.basename (source doc)
                        /\ PyStr.strip (content doc) <> EmptyString)
       (extract_text_from_pdfs pdf_files).
Proof.
  induction pdf_files as [|[path pages] rest [IHs IHf]]; [split; [reflexivity|constructor]|].
  unfold extract_text_from_pdfs in *. cbn [flat_map List.filter snd].
  rewrite truthy_strip_blank, negb_involutive.
  destruct (existsb has_text pages) eqn:Hp.
  - assert (PyStr.all_space (PyStr.join WeatherServer.nl (text_parts pages)) = false) as Hb.
    { apply join_not_blank; [|apply text_parts_not_blank].
      intros Hnil. apply text_parts_nil in Hnil. congruence. }
    rewrite Hb. simpl. split; [f_equal; exact IHs|].
    constructor; [|exact IHf]. simpl. split; [reflexivity|].
    intros Hs. apply strip_blank in Hs. congruence.
  - apply text_parts_nil in Hp. rewrite Hp. simpl. split; [exact IHs | exact IHf].
Qed.

(** X27: Every chunk kept has text that is not blank, was produced by the
    splitter from the content of one of the documents, and carries the
    source and the file name of that document. *)
Theorem chunks_come_from_documents (split_text : nat -> nat -> string -> list string)
    (documents : list document) (chunk : document) :
  In chunk (chunk_documents split_text documents) ->
  PyStr.strip (content chunk) <> EmptyString
  /\ exists doc,
       In doc documents
       /\ In (content chunk) (split_text CHUNK_SIZE CHUNK_OVERLAP (content doc))
       /\ source chunk = source doc
       /\ filename chunk = filename doc.
Proof.
  unfold chunk_documents. intros H.
  apply in_flat_map in H as (doc & Hdoc & H).
  apply in_flat_map in H as (text & Htext & H).
  destruct (PyStr.strip text) eqn:Hs; simpl in H; [destruct H|].
  destruct H as [<-|[]]. simpl. split; [rewrite Hs; discriminate|].
  exists doc. auto.
Qed.

Lemma chunks_come_from_documents_witness :
  PyStr.strip (content {| content := "Refunds"; source := "/tmp/a.pdf"; filename := "a.pdf" |})
  <> EmptyString
  /\ exists doc,
       In doc [{| content := "Refunds   "; source := "/tmp/a.pdf"; filename := "a.pdf" |}]
       /\ In (content {| content := "Refunds"; source := "/tmp/a.pdf"; filename := "a.pdf" |})
            ((fun _ _ _ => ["Refunds"; "  "]) CHUNK_SIZE CHUNK_OVERLAP (content doc))
       /\ source {| content := "Refunds"; source := "/tmp/a.pdf"; filename := "a.pdf" |}
          = source doc
       /\ filename {| content := "Refunds"; source := "/tmp/a.pdf"; filename := "a.pdf" |}
          = filename doc.
Proof.
  apply (chunks_come_from_documents (fun _ _ _ => ["Refunds"; "  "])
           [{| content := "Refunds   "; source := "/tmp/a.pdf"; filename := "a.pdf" |}]
           {| content := "Refunds"; source := "/tmp/a.pdf"; filename := "a.pdf" |}).
  left. reflexivity.
Defined.

Lemma slice_to_length (n : nat) (s : string) : String.length (PyStr.slice_to n s) <= n.
Proof.
  revert s. induction n as [|n IH]; intros [|c r]; simpl; try lia.
  specialize (IH r). lia.
Qed.

(** X28: The self-retrieval test never indexes out of range: it stops only
    for an empty list of chunks, and otherwise asks for the first 300
    characters at most of the chunk in the middle of the list. *)
Theorem self_test_asks_middle_chunk
    (search : list document -> string -> nat -> list (Document * float))
    (chunked_docs : list document) :
  match build_and_test_chroma search chunked_docs with
  | NoChunks => chunked_docs = []
  | IndexError => False
  | NoResults query | Judged query _ =>
      String.length query <= 300
      /\ exists test_chunk,
           chunked_docs !! (length chunked_docs / 2) = Some test_chunk
           /\ query = PyStr.slice_to 300 (content test_chunk)
  end.
Proof.
  unfold build_and_test_chroma. destruct chunked_docs as [|first rest]; [reflexivity|].
  destruct ((first :: rest) !! (length (first :: rest) / 2)) as [test_chunk|] eqn:Hm.
  - destruct (search _ _ _) as [|[found best_score] others];
      (split; [apply slice_to_length | eauto]).
  - apply lookup_ge_None in Hm.
    assert (length (first :: rest) / 2 < length (first :: rest)).
    { apply Nat.div_lt; simpl; lia. }
    lia.
Qed.

(** X29: The store is asked at most once, with the query as given (not
    stripped) and [TOP_K], and only for a query that is not blank; the
    chunks are the contents of its results in the order of the store. *)
Theorem store_is_asked_at_most_once (db : vector_store) (query : string) :
  snd (document_search db query)
  = (if PyStr.all_space query then [] else [(query, TOP_K)])
  /\ chunks (fst (document_search db query))
     = (if PyStr.all_space query then []
        else List.map (fun r => page_content (fst r)) (db query TOP_K)).
Proof.
  unfold document_search. rewrite truthy_strip_blank, negb_involutive.
  destruct (PyStr.all_space query) eqn:Hq; [rewrite orb_true_r; split; reflexivity|].
  destruct query as [|c r]; [discriminate Hq|]. simpl.
  destruct (db (String c r) TOP_K) as [|[d score] others]; split; reflexivity.
Qed.

(** X30: A better (lower) score never gets a worse verdict. *)
Theorem verdict_is_monotone (better score : float) :
  (better <? score)%float = true ->
  (verdict_of score = Passed -> verdict_of better = Passed)
  /\ (verdict_of better = Missed -> verdict_of score = Missed).
Proof.
  intros Hlt. unfold verdict_of. split.
  - destruct (score <? 0.2)%float eqn:Hs.
    + intros _. rewrite (ltb_trans _ _ _ Hlt Hs). reflexivity.
    + destruct (score <? 0.5)%float; discriminate.
  - destruct (better <? 0.2)%float eqn:Hb2; [discriminate|].
    destruct (better <? 0.5)%float eqn:Hb5; [discriminate|]. intros _.
    destruct (score <? 0.2)%float eqn:Hs2.
    + rewrite (ltb_trans _ _ _ Hlt Hs2) in Hb2. discriminate Hb2.
    + destruct (score <? 0.5)%float eqn:Hs5; [|reflexivity].
      rewrite (ltb_trans _ _ _ Hlt Hs5) in Hb5. discriminate Hb5.
Qed.

Lemma verdict_is_monotone_witness :
  (verdict_of 0.15 = Passed -> verdict_of 0.05 = Passed)
  /\ (verdict_of 0.05 = Missed -> verdict_of 0.15 = Missed).
Proof.
  apply (verdict_is_monotone 0.05 0.15). reflexivity.
Defined.

End RagMore.
